(** * tracepath: [src/tracepath.c]

    A shallow embedding of the program: the probing and decoding engine
    ([print_host], [recverr], [probe_ttl] and [main] from the per-family
    set-up at line 529 to [exit(0)]), then the command line and the
    destination ([usage] and [main] up to the socket), followed by the
    properties of the path-MTU and hop-count bookkeeping and of the start of
    a run.

    Conventions.
    - C [int] values are [Z]; conversions that can wrap are written out
      ([to_int32], [to_uint32], [to_size_t], ...).  The target is Linux/LP64:
      [int] has 32 bits, [size_t] 64, [struct probehdr] 24 bytes.
    - The kernel is a [world]: scripts of the results the system calls will
      return, consumed in order.  A script is a finite list, and a script
      that has run out gives the answer of a quiet network.  Every
      behaviour in which the kernel has finitely many things to say is some
      script, and a statement about the events of a run, quantified over
      all worlds, covers every prefix of every run.  A kernel that answers
      without end ([recvmsg] failing for ever with an error other than
      [EAGAIN], notifications that never stop coming) is not a script; the
      loops of the source do not end then, and the statement about
      termination says so.
    - The contents of the packet buffer beyond the probe header are not
      modelled.  The source clears the buffer over [mtu] bytes (line 340)
      and counts the hop limit in an [int] (line 590); both are defined
      only while the estimate lies inside the buffer
      ([estimate_in_buffer]) and the hop limit is below [INT_MAX].  The
      model follows the program there; a statement about runs that can
      leave this range carries the two conditions as hypotheses.
    - What the program does to the outside (printf, sendto, setsockopt, ...)
      is an [event]; every function returns the events it produced, oldest
      first.  Format strings are kept as they are spelled in the source (a
      backslash followed by [n] stands for the newline). *)

From Stdlib Require Import ZArith Lia Bool Ascii.
From stdpp Require Import base list strings.

Local Open Scope string_scope.
Local Open Scope list_scope.
Local Open Scope Z_scope.

(** ** Machine integers *)

Definition INT_MAX : Z := 2147483647.
Definition INT_MIN : Z := -2147483648.

(** Conversion to a 32-bit [int] (two's complement, as gcc defines it). *)
Definition to_int32 (z : Z) : Z := (z + 2147483648) mod 4294967296 - 2147483648.
Definition to_uint8 (z : Z) : Z := z mod 256.
Definition to_uint16 (z : Z) : Z := z mod 65536.
Definition to_uint32 (z : Z) : Z := z mod 4294967296.
Definition to_size_t (z : Z) : Z := z mod 18446744073709551616.

(** ** Constants of the system headers (Linux values) *)

Definition AF_INET : Z := 2.
Definition AF_INET6 : Z := 10.
Definition SOL_IP : Z := 0.
Definition SOL_IPV6 : Z := 41.
Definition IP_TTL : Z := 2.
Definition IP_RECVERR : Z := 11.
Definition IPV6_RECVERR : Z := 25.
Definition IPV6_HOPLIMIT : Z := 52.
Definition IPV6_2292HOPLIMIT : Z := 8.
Definition SO_EE_ORIGIN_LOCAL : Z := 1.
Definition SO_EE_ORIGIN_ICMP : Z := 2.
Definition SO_EE_ORIGIN_ICMP6 : Z := 3.
Definition IP_PMTUDISC_DO : Z := 2.
Definition IPV6_PMTUDISC_DO : Z := 2.
Definition NI_NUMERICHOST : Z := 1.
Definition getnameinfo_flags : Z := 0.

Definition EACCES : Z := 13.
Definition EPROTO : Z := 71.
Definition EMSGSIZE : Z := 90.
Definition ENETUNREACH : Z := 101.
Definition ETIMEDOUT : Z := 110.
Definition ECONNREFUSED : Z := 111.
Definition EHOSTUNREACH : Z := 113.

Definition MAX_HOPS_LIMIT : Z := 255.
Definition MAX_HOPS_DEFAULT : Z := 30.
Definition HOST_COLUMN_SIZE : Z := 52.

(** ** Data model *)

Record timeval := { tv_sec : Z; tv_usec : Z }.

(** [struct hhistory]: one outstanding probe. [hops = 0] marks a free slot. *)
Record hhistory := { hops : Z; sendtime : timeval }.

(** [struct probehdr], the head of the probe payload ([ttl] is a [uint32_t]).
    The fields carry a prefix because [ttl] and [tv] also name locals. *)
Record probehdr := { hdr_ttl : Z; hdr_tv : timeval }.

Definition sizeof_probehdr : Z := 24.

(** [struct run_state].  [target] is kept as the destination port, the only
    part of it the engine rewrites; [pktbuf] is the [probehdr] built at each
    send. *)
Record run_state := {
  his : list hhistory;
  hisptr : Z;
  target_port : Z;
  base_port : Z;
  max_hops : Z;
  overhead : Z;
  mtu : Z;
  hops_to : Z;
  hops_from : Z;
  no_resolve : bool;
  show_both : bool;
  mapped : bool
}.

Definition set_his (v : list hhistory) (c : run_state) : run_state :=
  {| his := v; hisptr := hisptr c; target_port := target_port c;
     base_port := base_port c; max_hops := max_hops c; overhead := overhead c;
     mtu := mtu c; hops_to := hops_to c; hops_from := hops_from c;
     no_resolve := no_resolve c; show_both := show_both c; mapped := mapped c |}.

Definition set_hisptr (v : Z) (c : run_state) : run_state :=
  {| his := his c; hisptr := v; target_port := target_port c;
     base_port := base_port c; max_hops := max_hops c; overhead := overhead c;
     mtu := mtu c; hops_to := hops_to c; hops_from := hops_from c;
     no_resolve := no_resolve c; show_both := show_both c; mapped := mapped c |}.

Definition set_target_port (v : Z) (c : run_state) : run_state :=
  {| his := his c; hisptr := hisptr c; target_port := v;
     base_port := base_port c; max_hops := max_hops c; overhead := overhead c;
     mtu := mtu c; hops_to := hops_to c; hops_from := hops_from c;
     no_resolve := no_resolve c; show_both := show_both c; mapped := mapped c |}.

Definition set_overhead (v : Z) (c : run_state) : run_state :=
  {| his := his c; hisptr := hisptr c; target_port := target_port c;
     base_port := base_port c; max_hops := max_hops c; overhead := v;
     mtu := mtu c; hops_to := hops_to c; hops_from := hops_from c;
     no_resolve := no_resolve c; show_both := show_both c; mapped := mapped c |}.

Definition set_mtu (v : Z) (c : run_state) : run_state :=
  {| his := his c; hisptr := hisptr c; target_port := target_port c;
     base_port := base_port c; max_hops := max_hops c; overhead := overhead c;
     mtu := v; hops_to := hops_to c; hops_from := hops_from c;
     no_resolve := no_resolve c; show_both := show_both c; mapped := mapped c |}.

Definition set_hops (to from : Z) (c : run_state) : run_state :=
  {| his := his c; hisptr := hisptr c; target_port := target_port c;
     base_port := base_port c; max_hops := max_hops c; overhead := overhead c;
     mtu := mtu c; hops_to := to; hops_from := from;
     no_resolve := no_resolve c; show_both := show_both c; mapped := mapped c |}.

Definition set_mapped (v : bool) (c : run_state) : run_state :=
  {| his := his c; hisptr := hisptr c; target_port := target_port c;
     base_port := base_port c; max_hops := max_hops c; overhead := overhead c;
     mtu := mtu c; hops_to := hops_to c; hops_from := hops_from c;
     no_resolve := no_resolve c; show_both := show_both c; mapped := v |}.

(** The 64-slot array [his] is a list read and written by index. *)
Definition his_zero : hhistory := {| hops := 0; sendtime := {| tv_sec := 0; tv_usec := 0 |} |}.

Definition his_get (h : list hhistory) (i : Z) : hhistory :=
  default his_zero (h !! Z.to_nat i).

Definition his_put (h : list hhistory) (i : Z) (x : hhistory) : list hhistory :=
  <[Z.to_nat i := x]> h.

(** [his[i].hops = 0], the send time stays. *)
Definition his_clear (h : list hhistory) (i : Z) : list hhistory :=
  his_put h i {| hops := 0; sendtime := sendtime (his_get h i) |}.

(** [struct sockaddr]: the family and the address bytes, as a number. *)
Record sockaddr := { sa_family : Z; sa_data : Z }.

(** [struct sock_extended_err] together with the offender address that
    follows it in the control buffer ([e + 1] in the source). *)
Record sock_extended_err := {
  ee_errno : Z;
  ee_origin : Z;
  ee_type : Z;
  ee_code : Z;
  ee_info : Z;
  ee_offender : sockaddr
}.

(** The data of a control message: the kernel puts an extended error behind
    [IP_RECVERR]/[IPV6_RECVERR] and an [int] behind the hop-limit types. *)
Inductive cmsg_payload :=
| CmsgErr (e : sock_extended_err)
| CmsgInt (v : Z).

Record cmsghdr := { cmsg_level : Z; cmsg_type : Z; cmsg_data : cmsg_payload }.

Definition no_offender : sockaddr := {| sa_family := 0; sa_data := 0 |}.

(** The casts of [CMSG_DATA]: each view reads the first word of the other
    layout ([ee_errno] is the first field), little-endian. *)
Definition data_err (c : cmsghdr) : sock_extended_err :=
  match cmsg_data c with
  | CmsgErr e => e
  | CmsgInt v => {| ee_errno := to_uint32 v; ee_origin := 0; ee_type := 0;
                    ee_code := 0; ee_info := 0; ee_offender := no_offender |}
  end.

Definition data_int (c : cmsghdr) : Z :=
  match cmsg_data c with
  | CmsgErr e => to_int32 (ee_errno e)
  | CmsgInt v => to_int32 v
  end.

Definition data_u8 (c : cmsghdr) : Z :=
  match cmsg_data c with
  | CmsgErr e => to_uint8 (ee_errno e)
  | CmsgInt v => to_uint8 v
  end.

(** What one successful [recvmsg(fd, &msg, MSG_ERRQUEUE)] leaves behind:
    the byte count, the receive buffer (preset to all-ones, then overwritten
    by the echoed payload), the port of [msg_name] in host order, and the
    control messages. *)
Record errmsg := {
  recv_size : Z;
  rcvbuf : probehdr;
  addr_port : Z;
  cmsgs : list cmsghdr
}.

Inductive recv_result :=
| RecvFail                (* recvmsg < 0, errno other than EAGAIN *)
| RecvAgain               (* recvmsg < 0, errno = EAGAIN: queue empty *)
| RecvMsg (m : errmsg).

(** The kernel and the network.  A script that has run out answers: the zero
    time, [EAGAIN], a successful [sendto], an empty [recv], success. *)
Record world := {
  clock : list timeval;          (* gettimeofday *)
  errqueue : list recv_result;   (* recvmsg(MSG_ERRQUEUE) *)
  sendto_ok : list bool;         (* sendto(...) > 0 *)
  recv_ok : list bool;           (* recv(MSG_DONTWAIT) > 0 *)
  sys_fail : list bool;          (* setsockopt / malloc failing *)
  getnameinfo : sockaddr -> Z -> Z -> option string
}.

Definition set_clock (v : list timeval) (w : world) : world :=
  {| clock := v; errqueue := errqueue w; sendto_ok := sendto_ok w;
     recv_ok := recv_ok w; sys_fail := sys_fail w; getnameinfo := getnameinfo w |}.

Definition set_errqueue (v : list recv_result) (w : world) : world :=
  {| clock := clock w; errqueue := v; sendto_ok := sendto_ok w;
     recv_ok := recv_ok w; sys_fail := sys_fail w; getnameinfo := getnameinfo w |}.

Definition set_sendto_ok (v : list bool) (w : world) : world :=
  {| clock := clock w; errqueue := errqueue w; sendto_ok := v;
     recv_ok := recv_ok w; sys_fail := sys_fail w; getnameinfo := getnameinfo w |}.

Definition set_recv_ok (v : list bool) (w : world) : world :=
  {| clock := clock w; errqueue := errqueue w; sendto_ok := sendto_ok w;
     recv_ok := v; sys_fail := sys_fail w; getnameinfo := getnameinfo w |}.

Definition set_sys_fail (v : list bool) (w : world) : world :=
  {| clock := clock w; errqueue := errqueue w; sendto_ok := sendto_ok w;
     recv_ok := recv_ok w; sys_fail := v; getnameinfo := getnameinfo w |}.

Definition tv_zero : timeval := {| tv_sec := 0; tv_usec := 0 |}.

Definition gettimeofday (w : world) : timeval * world :=
  match clock w with
  | [] => (tv_zero, w)
  | t :: ts => (t, set_clock ts w)
  end.

Definition sendto (w : world) : bool * world :=
  match sendto_ok w with
  | [] => (true, w)
  | b :: bs => (b, set_sendto_ok bs w)
  end.

Definition recv (w : world) : bool * world :=
  match recv_ok w with
  | [] => (false, w)
  | b :: bs => (b, set_recv_ok bs w)
  end.

(** [true] when the call fails (returns non-zero, or NULL for malloc). *)
Definition syscall_fails (w : world) : bool * world :=
  match sys_fail w with
  | [] => (false, w)
  | b :: bs => (b, set_sys_fail bs w)
  end.

(** ** Events *)

Inductive arg :=
| AInt (z : Z)
| AStr (s : string).

Inductive event :=
| Printf (fmt : string) (args : list arg)
| Fprintf_stderr (fmt : string) (args : list arg)
| SetErrno (errno : Z)
| Perror (msg : string)
| Fflush
| Sendto (hdr : probehdr) (port : Z) (len : Z)
| DataWait
| Setsockopt (level : string) (opt : string) (val : Z)
| Malloc (size : Z)
| Freeaddrinfo.

(** ** [print_host] (lines 104-114) *)

Definition strlen (s : string) : Z := Z.of_nat (String.length s).

Definition print_host (ctl : run_state) (a b : string) : list event :=
  let plen := strlen a in
  let plen := if show_both ctl then plen + (strlen b + 3) else plen in
  let plen := if HOST_COLUMN_SIZE <=? plen then HOST_COLUMN_SIZE - 1 else plen in
  [Printf "%s" [AStr a]]
    ++ (if show_both ctl then [Printf " (%s)" [AStr b]] else [])
    ++ [Printf "%*s" [AInt (HOST_COLUMN_SIZE - plen); AStr EmptyString]].

(** ** [recverr] (lines 116-333): one notification *)

(** How the body of the drain loop ends: [return r], or [goto restart] with
    the current value of [progress]. *)
Inductive outcome :=
| Return (r : Z)
| Restart (progress : Z).

(** Lines 167-175: the slot is the distance of the reply's port from
    [base_port], with no reduction. *)
Definition slot_of (ctl : run_state) (ai_family : Z) (m : errmsg) : Z :=
  let slot := - base_port ctl in
  if ai_family =? AF_INET6 then slot + addr_port m
  else if ai_family =? AF_INET then slot + addr_port m
  else slot.

(** Lines 177-181: take the record of the slot.  Gives [sndhops], [rettv]
    (NULL is [None]) and the history with the slot released. *)
Definition his_take (h : list hhistory) (slot : Z)
  : Z * option timeval * list hhistory :=
  if (0 <=? slot) && (slot <? 63) && negb (hops (his_get h slot) =? 0)
  then (hops (his_get h slot), Some (sendtime (his_get h slot)), his_clear h slot)
  else (-1, None, h).

(** Lines 182-189: a full-size echoed payload overrides the tracker, unless a
    field of it is zero.  Gives [sndhops], [rettv], [broken_router]. *)
Definition payload_check (m : errmsg) (sndhops : Z) (rettv : option timeval)
  : Z * option timeval * bool :=
  if recv_size m =? sizeof_probehdr then
    if (hdr_ttl (rcvbuf m) =? 0) || (tv_sec (hdr_tv (rcvbuf m)) =? 0)
    then (sndhops, rettv, true)
    else (to_int32 (hdr_ttl (rcvbuf m)), Some (hdr_tv (rcvbuf m)), false)
  else (sndhops, rettv, false).

(** Lines 191-220: one control message updates [e] and [rethops]. *)
Definition scan_cmsg (c : cmsghdr) (e : option sock_extended_err) (rethops : Z)
  : option sock_extended_err * Z * list event :=
  if cmsg_level c =? SOL_IPV6 then
    if cmsg_type c =? IPV6_RECVERR then (Some (data_err c), rethops, [])
    else if (cmsg_type c =? IPV6_HOPLIMIT) || (cmsg_type c =? IPV6_2292HOPLIMIT)
         then (e, data_int c, [])
    else (e, rethops, [Printf "cmsg6:%d\n " [AInt (cmsg_type c)]])
  else if cmsg_level c =? SOL_IP then
    if cmsg_type c =? IP_RECVERR then (Some (data_err c), rethops, [])
    else if cmsg_type c =? IP_TTL then (e, data_u8 c, [])
    else (e, rethops, [Printf "cmsg4:%d\n " [AInt (cmsg_type c)]])
  else (e, rethops, []).

Fixpoint scan_cmsgs (l : list cmsghdr) (e : option sock_extended_err) (rethops : Z)
  : option sock_extended_err * Z * list event :=
  match l with
  | [] => (e, rethops, [])
  | c :: l' =>
      let '(e1, r1, o1) := scan_cmsg c e rethops in
      let '(e2, r2, o2) := scan_cmsgs l' e1 r1 in
      (e2, r2, o1 ++ o2)
  end.

(** Lines 225-268: who answered. *)
Definition print_origin (gni : sockaddr -> Z -> Z -> option string)
    (ctl : run_state) (ttl sndhops : Z) (e : sock_extended_err) : list event :=
  if ee_origin e =? SO_EE_ORIGIN_LOCAL then
    [Printf "%2d?: %-32s " [AInt ttl; AStr "[LOCALHOST]"]]
  else if (ee_origin e =? SO_EE_ORIGIN_ICMP6) || (ee_origin e =? SO_EE_ORIGIN_ICMP) then
    let sa := ee_offender e in
    let label :=
      if 0 <? sndhops then Printf "%2d:  " [AInt sndhops]
      else Printf "%2d?: " [AInt ttl] in
    let salen :=
      if sa_family sa =? AF_INET6 then 28
      else if sa_family sa =? AF_INET then 16
      else 0 in
    let abuf :=
      if no_resolve ctl || show_both ctl
      then default "???" (gni sa salen NI_NUMERICHOST)
      else EmptyString in
    let '(flush, hnamebuf) :=
      if negb (no_resolve ctl) || show_both ctl
      then ([Fflush], default "???" (gni sa salen getnameinfo_flags))
      else ([], EmptyString) in
    [label] ++ flush
      ++ (if no_resolve ctl then print_host ctl abuf hnamebuf
          else print_host ctl hnamebuf abuf)
  else [].

(** Lines 270-276: the round-trip time, and the remark on a corrupted
    payload, which is printed only next to a round-trip time. *)
Definition rtt_diff (tv rettv : timeval) : Z :=
  to_int32 ((tv_sec tv - tv_sec rettv) * 1000000 + (tv_usec tv - tv_usec rettv)).

Definition print_rtt (tv : timeval) (rettv : option timeval) (broken_router : bool)
  : list event :=
  match rettv with
  | Some r =>
      let diff := rtt_diff tv r in
      [Printf "%3d.%03dms " [AInt (Z.quot diff 1000); AInt (Z.rem diff 1000)]]
        ++ (if broken_router
            then [Printf "(This broken router returned corrupted payload) " []]
            else [])
  | None => []
  end.

(** Lines 278-283: hops travelled by the reply, guessed from its hop limit. *)
Definition rethops_norm (rethops : Z) : Z :=
  if rethops <=? 64 then to_int32 (65 - rethops)
  else if rethops <=? 128 then to_int32 (129 - rethops)
  else to_int32 (256 - rethops).

(** Lines 303-308: the ICMP "time exceeded in transit" signature. *)
Definition ttl_exceeded (e : sock_extended_err) : bool :=
  ((ee_origin e =? SO_EE_ORIGIN_ICMP) && (ee_type e =? 11) && (ee_code e =? 0))
  || ((ee_origin e =? SO_EE_ORIGIN_ICMP6) && (ee_type e =? 3) && (ee_code e =? 0)).

(** Lines 309-314. *)
Definition print_asymm (ttl sndhops rethops : Z) : list event :=
  if 0 <=? rethops then
    if (0 <=? sndhops) && negb (rethops =? sndhops)
    then [Printf "asymm %2d " [AInt rethops]]
    else if (sndhops <? 0) && negb (rethops =? ttl)
    then [Printf "asymm %2d " [AInt rethops]]
    else []
  else [].

(** Lines 285-331: the switch on [e->ee_errno].  [progress] is the value set
    at line 159. *)
Definition classify (ctl : run_state) (ttl sndhops rethops progress : Z)
    (e : sock_extended_err) : run_state * list event * outcome :=
  if ee_errno e =? ETIMEDOUT then
    (ctl, [Printf "\n" []], Restart progress)
  else if ee_errno e =? EMSGSIZE then
    let ctl' := set_mtu (to_int32 (ee_info e)) ctl in
    (ctl', [Printf "pmtu %d\n" [AInt (to_int32 (ee_info e))]], Restart (mtu ctl'))
  else if ee_errno e =? ECONNREFUSED then
    (set_hops (if sndhops <? 0 then ttl else sndhops) rethops ctl,
     [Printf "reached\n" []], Return 0)
  else if ee_errno e =? EPROTO then
    (ctl, [Printf "!P\n" []], Return 0)
  else if ee_errno e =? EHOSTUNREACH then
    if ttl_exceeded e
    then (ctl, print_asymm ttl sndhops rethops ++ [Printf "\n" []], Restart progress)
    else (ctl, [Printf "!H\n" []], Return 0)
  else if ee_errno e =? ENETUNREACH then
    (ctl, [Printf "!N\n" []], Return 0)
  else if ee_errno e =? EACCES then
    (ctl, [Printf "!A\n" []], Return 0)
  else
    (ctl, [Printf "\n" []; SetErrno (ee_errno e); Perror "NET ERROR"], Return 0).

(** The values the decoder resolves for one notification, before it prints
    anything: lines 159-220 and 278-283. *)
Record decoded := {
  d_ctl : run_state;                    (* with the history slot released *)
  d_sndhops : Z;
  d_rettv : option timeval;
  d_broken_router : bool;
  d_e : option sock_extended_err;
  d_rethops : Z;                        (* before lines 278-283 *)
  d_out : list event                    (* unknown control messages *)
}.

Definition decode (ctl : run_state) (ai_family : Z) (m : errmsg) : decoded :=
  let slot := slot_of ctl ai_family m in
  let t := his_take (his ctl) slot in
  let p := payload_check m t.1.1 t.1.2 in
  let s := scan_cmsgs (cmsgs m) None (-1) in
  {| d_ctl := set_his t.2 ctl; d_sndhops := p.1.1; d_rettv := p.1.2;
     d_broken_router := p.2; d_e := s.1.1; d_rethops := s.1.2; d_out := s.2 |}.

(** The body of the drain loop for a received notification [m], read at
    time [tv]. *)
Definition recverr_msg (gni : sockaddr -> Z -> Z -> option string)
    (ctl : run_state) (ai_family ttl : Z) (tv : timeval) (m : errmsg)
  : run_state * list event * outcome :=
  let progress := mtu ctl in
  let d := decode ctl ai_family m in
  match d_e d with
  | None => (d_ctl d, d_out d ++ [Printf "no info\n" []], Return 0)
  | Some e =>
      let '(ctl', out, oc) :=
        classify (d_ctl d) ttl (d_sndhops d) (rethops_norm (d_rethops d)) progress e in
      (ctl',
       d_out d ++ print_origin gni (d_ctl d) ttl (d_sndhops d) e
         ++ print_rtt tv (d_rettv d) (d_broken_router d) ++ out,
       oc)
  end.

(** ** [recverr]: the drain loop *)

(** [goto restart] re-enters at line 147; each pass reads the clock and takes
    one answer of [recvmsg] off the queue, so the loop is structural in the
    queue.  [progress] starts at [-1].  The source has no bound of its own
    on this loop: it goes round for as long as [recvmsg] fails with another
    error than [EAGAIN] or delivers a notification that does not end the
    drain.  Here the queue is a finite script and its end reads as
    [EAGAIN]. *)
Fixpoint recverr_from (q : list recv_result) (ctl : run_state) (w : world)
    (ai_family ttl progress : Z) : Z * run_state * world * list event :=
  let '(tv, w) := gettimeofday w in
  match q with
  | [] => (progress, ctl, set_errqueue [] w, [])
  | RecvAgain :: q' => (progress, ctl, set_errqueue q' w, [])
  | RecvFail :: q' => recverr_from q' ctl w ai_family ttl progress
  | RecvMsg m :: q' =>
      let '(ctl1, out1, oc) := recverr_msg (getnameinfo w) ctl ai_family ttl tv m in
      match oc with
      | Return r => (r, ctl1, set_errqueue q' w, out1)
      | Restart p =>
          let '(r, ctl2, w2, out2) := recverr_from q' ctl1 w ai_family ttl p in
          (r, ctl2, w2, out1 ++ out2)
      end
  end.

Definition recverr (ctl : run_state) (w : world) (ai_family ttl : Z)
  : Z * run_state * world * list event :=
  recverr_from (errqueue w) ctl w ai_family ttl (-1).

(** ** [probe_ttl] (lines 335-382) *)

(** Lines 369-381, after the send loop: [sent] tells whether the loop was
    left by [break] ([i < 10]). *)
Definition probe_finish (ctl : run_state) (w : world) (ai_family ttl : Z) (sent : bool)
  : Z * run_state * world * list event :=
  let ctl := set_hisptr (Z.land (hisptr ctl + 1) 63) ctl in
  if sent then
    let '(got, w) := recv w in
    if got
    then (0, ctl, w, [DataWait; Printf "%2d?: reply received 8)\n" [AInt ttl]])
    else
      let '(r, ctl, w, out) := recverr ctl w ai_family ttl in
      (r, ctl, w, DataWait :: out)
  else (0, ctl, w, [Printf "%2d:  send failed\n" [AInt ttl]]).

(** Lines 345-358: fill the header, aim at the port of the current slot and
    record the probe. *)
Definition probe_prepare (ctl : run_state) (ai_family ttl : Z) (now : timeval)
  : probehdr * run_state :=
  let hdr := {| hdr_ttl := to_uint32 ttl; hdr_tv := now |} in
  let port := to_uint16 (base_port ctl + hisptr ctl) in
  let ctl :=
    if ai_family =? AF_INET6 then set_target_port port ctl
    else if ai_family =? AF_INET then set_target_port port ctl
    else ctl in
  (hdr, set_his (his_put (his ctl) (hisptr ctl) {| hops := ttl; sendtime := now |}) ctl).

(** The send loop, lines 341-368.  [i] is the loop counter; [goto restart]
    is the call with [i = 0].  [None] means the fuel ran out. *)
Fixpoint probe_loop (fuel : nat) (ctl : run_state) (w : world)
    (ai_family ttl i : Z) : option Z * run_state * world * list event :=
  match fuel with
  | O => (None, ctl, w, [])
  | Datatypes.S fuel =>
      if i <? 10 then
        let '(now, w) := gettimeofday w in
        let '(hdr, ctl) := probe_prepare ctl ai_family ttl now in
        let ev := Sendto hdr (target_port ctl) (to_size_t (mtu ctl - overhead ctl)) in
        let '(ok, w) := sendto w in
        if ok then
          let '(r, ctl, w, out) := probe_finish ctl w ai_family ttl true in
          (Some r, ctl, w, ev :: out)
        else
          let '(res, ctl, w, out) := recverr ctl w ai_family ttl in
          let ctl := set_his (his_clear (his ctl) (hisptr ctl)) ctl in
          if res =? 0 then (Some 0, ctl, w, ev :: out)
          else
            let '(r, ctl, w, out') :=
              probe_loop fuel ctl w ai_family ttl (if 0 <? res then 0 else i + 1) in
            (r, ctl, w, ev :: out ++ out')
      else
        let '(r, ctl, w, out) := probe_finish ctl w ai_family ttl false in
        (Some r, ctl, w, out)
  end.

(** Line 340 clears [mtu] bytes of the packet buffer before the loop.  The
    contents of the buffer beyond the header are not modelled, so the call
    leaves no trace here; it is defined as long as the estimate lies inside
    the buffer ([estimate_in_buffer]). *)
Definition probe_ttl (fuel : nat) (ctl : run_state) (w : world) (ai_family ttl : Z)
  : option Z * run_state * world * list event :=
  probe_loop fuel ctl w ai_family ttl 0.

(** ** [main] from line 529 on *)

(** What the option loop (lines 438-487) leaves in [ctl]; [opt_mtu] is [0]
    without [-l]. *)
Record options := {
  opt_mtu : Z;
  opt_max_hops : Z;
  opt_base_port : Z;
  opt_no_resolve : bool;
  opt_show_both : bool
}.

Definition init_state (o : options) : run_state :=
  {| his := replicate 64 his_zero; hisptr := 0; target_port := opt_base_port o;
     base_port := opt_base_port o; max_hops := opt_max_hops o; overhead := 0;
     mtu := opt_mtu o; hops_to := -1; hops_from := -1;
     no_resolve := opt_no_resolve o; show_both := opt_show_both o; mapped := false |}.

Definition setsockopt (level opt : string) (val : Z) (w : world)
  : bool * world * list event :=
  let '(failed, w) := syscall_fails w in (failed, w, [Setsockopt level opt val]).

(** A set-up step either goes on with a state or leaves with [exit(n)]. *)
Inductive step (A : Type) :=
| Go (a : A)
| Exit (status : Z).
Arguments Go {A} a.
Arguments Exit {A} status.

Definition pktlen_error (ctl : run_state) : list event :=
  [Fprintf_stderr "Error: pktlen must be > %d and <= %d\n" [AInt (overhead ctl); AInt INT_MAX]].

(** Lines 561-581. *)
Definition setup_inet (ctl : run_state) (w : world)
  : step run_state * world * list event :=
  let ctl := set_overhead 28 ctl in
  let ctl := if mtu ctl =? 0 then set_mtu 65535 ctl else ctl in
  if mtu ctl <=? overhead ctl then (Exit 1, w, pktlen_error ctl)
  else
    let '(f1, w, o1) := setsockopt "SOL_IP" "IP_MTU_DISCOVER" IP_PMTUDISC_DO w in
    if f1 then (Exit 1, w, o1 ++ [Perror "IP_MTU_DISCOVER"])
    else
      let '(f2, w, o2) := setsockopt "SOL_IP" "IP_RECVERR" 1 w in
      if f2 then (Exit 1, w, o1 ++ o2 ++ [Perror "IP_RECVERR"])
      else
        let '(f3, w, o3) := setsockopt "SOL_IP" "IP_RECVTTL" 1 w in
        if f3 then (Exit 1, w, o1 ++ o2 ++ o3 ++ [Perror "IP_RECVTTL"])
        else (Go ctl, w, o1 ++ o2 ++ o3).

(** Lines 530-560; [v4mapped] is [IN6_IS_ADDR_V4MAPPED] of the target. *)
Definition setup_inet6 (ctl : run_state) (w : world) (v4mapped : bool)
  : step run_state * world * list event :=
  let ctl := set_overhead 48 ctl in
  let ctl := if mtu ctl =? 0 then set_mtu 128000 ctl else ctl in
  if mtu ctl <=? overhead ctl then (Exit 1, w, pktlen_error ctl)
  else
    let '(f1, w, o1) := setsockopt "SOL_IPV6" "IPV6_MTU_DISCOVER" IPV6_PMTUDISC_DO w in
    let '(f1, w, o1) :=
      if f1 then
        let '(f1', w, o1') := setsockopt "SOL_IPV6" "IPV6_MTU_DISCOVER" IPV6_PMTUDISC_DO w in
        (f1', w, o1 ++ o1')
      else (false, w, o1) in
    if f1 then (Exit 1, w, o1 ++ [Perror "IPV6_MTU_DISCOVER"])
    else
      let '(f2, w, o2) := setsockopt "SOL_IPV6" "IPV6_RECVERR" 1 w in
      if f2 then (Exit 1, w, o1 ++ o2 ++ [Perror "IPV6_RECVERR"])
      else
        let '(f3, w, o3) := setsockopt "SOL_IPV6" "IPV6_HOPLIMIT" 1 w in
        let '(f3, w, o3) :=
          if f3 then
            let '(f3', w, o3') := setsockopt "SOL_IPV6" "IPV6_2292HOPLIMIT" 1 w in
            (f3', w, o3 ++ o3')
          else (false, w, o3) in
        if f3 then (Exit 1, w, o1 ++ o2 ++ o3 ++ [Perror "IPV6_HOPLIMIT"])
        else if negb v4mapped then (Go ctl, w, o1 ++ o2 ++ o3)
        else
          let '(r, w, o4) := setup_inet (set_mapped true ctl) w in
          (r, w, o1 ++ o2 ++ o3 ++ o4).

(** Lines 529-588: the switch on the family, then the packet buffer. *)
Definition setup (ctl : run_state) (w : world) (ai_family : Z) (v4mapped : bool)
  : step run_state * world * list event :=
  let '(r, w, o) :=
    if ai_family =? AF_INET6 then setup_inet6 ctl w v4mapped
    else if ai_family =? AF_INET then setup_inet ctl w
    else (Go ctl, w, []) in
  match r with
  | Exit n => (Exit n, w, o)
  | Go ctl =>
      let '(failed, w) := syscall_fails w in
      if failed then (Exit 1, w, o ++ [Malloc (mtu ctl); Perror "malloc"])
      else (Go ctl, w, o ++ [Malloc (mtu ctl)])
  end.

(** Lines 594-609: the hop limit of the socket for this stage. *)
Definition set_hop_limit (ctl : run_state) (w : world) (ai_family ttl : Z)
  : step unit * world * list event :=
  let inet w :=
    let '(f, w, o) := setsockopt "SOL_IP" "IP_TTL" ttl w in
    if f then (Exit 1, w, o ++ [Perror "IP_TTL"]) else (Go tt, w, o) in
  if ai_family =? AF_INET6 then
    let '(f, w, o) := setsockopt "SOL_IPV6" "IPV6_UNICAST_HOPS" ttl w in
    if f then (Exit 1, w, o ++ [Perror "IPV6_UNICAST_HOPS"])
    else if negb (mapped ctl) then (Go tt, w, o)
    else let '(r, w, o') := inet w in (r, w, o ++ o')
  else if ai_family =? AF_INET then inet w
  else (Go tt, w, []).

(** How a TTL stage ends. *)
Inductive stage :=
| Done          (* goto done *)
| Advance       (* on to the next TTL *)
| OutOfFuel.

(** Lines 611-626: the attempts of one stage.  [i] is the loop counter;
    [goto restart] is the call with [i = 0].  The loop is left with [i = 3]
    only after an attempt that returned a negative value. *)
Fixpoint attempts (fuel : nat) (ctl : run_state) (w : world)
    (ai_family ttl i : Z) : stage * run_state * world * list event :=
  match fuel with
  | O => (OutOfFuel, ctl, w, [])
  | Datatypes.S fuel =>
      if i <? 3 then
        let old_mtu := mtu ctl in
        let '(res, ctl, w, out) := probe_ttl fuel ctl w ai_family ttl in
        match res with
        | None => (OutOfFuel, ctl, w, out)
        | Some res =>
            if negb (mtu ctl =? old_mtu) then
              let '(s, ctl, w, out') := attempts fuel ctl w ai_family ttl 0 in
              (s, ctl, w, out ++ out')
            else if res =? 0 then (Done, ctl, w, out)
            else if 0 <? res then (Advance, ctl, w, out)
            else
              let '(s, ctl, w, out') := attempts fuel ctl w ai_family ttl (i + 1) in
              (s, ctl, w, out ++ out')
        end
      else (Advance, ctl, w, [Printf "%2d:  no reply\n" [AInt ttl]])
  end.

(** Lines 630-639. *)
Definition resume (ctl : run_state) : list event :=
  [Freeaddrinfo; Printf "     Resume: pmtu %d " [AInt (mtu ctl)]]
    ++ (if 0 <=? hops_to ctl then [Printf "hops %d " [AInt (hops_to ctl)]] else [])
    ++ (if 0 <=? hops_from ctl then [Printf "back %d " [AInt (hops_from ctl)]] else [])
    ++ [Printf "\n" []].

(** Lines 590-639: the escalation loop and the summary.  The result is the
    exit status, [None] when the fuel ran out.  [ttl] is an [int] in the
    source; it stays one as long as [max_hops] is below [INT_MAX], the last
    value it takes being [max_hops + 1]. *)
Fixpoint hop_loop (fuel : nat) (ctl : run_state) (w : world)
    (ai_family ttl : Z) : option Z * run_state * world * list event :=
  if ttl <=? max_hops ctl then
    match fuel with
    | O => (None, ctl, w, [])
    | Datatypes.S fuel =>
        let '(r, w, o1) := set_hop_limit ctl w ai_family ttl in
        match r with
        | Exit n => (Some n, ctl, w, o1)
        | Go _ =>
            let '(s, ctl, w, o2) := attempts fuel ctl w ai_family ttl 0 in
            match s with
            | OutOfFuel => (None, ctl, w, o1 ++ o2)
            | Done => (Some 0, ctl, w, o1 ++ o2 ++ resume ctl)
            | Advance =>
                let '(r, ctl, w, o3) := hop_loop fuel ctl w ai_family (ttl + 1) in
                (r, ctl, w, o1 ++ o2 ++ o3)
            end
        end
    end
  else
    (Some 0, ctl, w,
     Printf "     Too many hops: pmtu %d\n" [AInt (mtu ctl)] :: resume ctl).

(** [main] after the destination has been resolved to an address of family
    [ai_family] and the socket is open. *)
Definition main (fuel : nat) (o : options) (w : world) (ai_family : Z) (v4mapped : bool)
  : option Z * run_state * world * list event :=
  let '(r, w, o1) := setup (init_state o) w ai_family v4mapped in
  match r with
  | Exit n => (Some n, init_state o, w, o1)
  | Go ctl =>
      let '(r, ctl, w, o2) := hop_loop fuel ctl w ai_family 1 in
      (r, ctl, w, o1 ++ o2)
  end.

(** * The command line and the destination

    [usage] and [main] up to the socket (lines 384-527).  The C library is a
    record of what its functions answer, as the kernel is a [world]. *)

Definition AF_UNSPEC : Z := 0.

(** One entry of the list [getaddrinfo] returns: the family, and the port
    and the address of [ai_addr] (the address as a big-endian number). *)
Record addrinfo := { ai_fam : Z; ai_port : Z; ai_addr : Z }.

Record libc := {
  atoi : string -> Z;
  (* node, service (the port printed into [pbuf], as a number), hints.ai_family:
     the status and the result list *)
  getaddrinfo : string -> Z -> Z -> Z * list addrinfo;
  gai_strerror : Z -> string;
  socket_fails : list bool;          (* socket(...) < 0, call by call *)
  IPUTILS_VERSION : string -> string * list arg   (* the macro: format and arguments *)
}.

(** [IN6_IS_ADDR_V4MAPPED]: the address is ::ffff:a.b.c.d. *)
Definition IN6_IS_ADDR_V4MAPPED (a : Z) : bool := Z.shiftr a 32 =? 65535.

Definition set_max_hops (v : Z) (c : run_state) : run_state :=
  {| his := his c; hisptr := hisptr c; target_port := target_port c;
     base_port := base_port c; max_hops := v; overhead := overhead c;
     mtu := mtu c; hops_to := hops_to c; hops_from := hops_from c;
     no_resolve := no_resolve c; show_both := show_both c; mapped := mapped c |}.

Definition set_base_port (v : Z) (c : run_state) : run_state :=
  {| his := his c; hisptr := hisptr c; target_port := target_port c;
     base_port := v; max_hops := max_hops c; overhead := overhead c;
     mtu := mtu c; hops_to := hops_to c; hops_from := hops_from c;
     no_resolve := no_resolve c; show_both := show_both c; mapped := mapped c |}.

Definition set_no_resolve (v : bool) (c : run_state) : run_state :=
  {| his := his c; hisptr := hisptr c; target_port := target_port c;
     base_port := base_port c; max_hops := max_hops c; overhead := overhead c;
     mtu := mtu c; hops_to := hops_to c; hops_from := hops_from c;
     no_resolve := v; show_both := show_both c; mapped := mapped c |}.

Definition set_show_both (v : bool) (c : run_state) : run_state :=
  {| his := his c; hisptr := hisptr c; target_port := target_port c;
     base_port := base_port c; max_hops := max_hops c; overhead := overhead c;
     mtu := mtu c; hops_to := hops_to c; hops_from := hops_from c;
     no_resolve := no_resolve c; show_both := v; mapped := mapped c |}.

(** ** [usage] (lines 384-401) *)

Definition usage_text : string :=
  "\nUsage\n  tracepath [options] <destination>\n\nOptions:\n  -4             use IPv4\n  -6             use IPv6\n  -b             print both name and ip\n  -l <length>    use packet <length>\n  -m <hops>      use maximum <hops>\n  -n             no dns name resolution\n  -p <port>      use destination <port>\n  -V             print version and exit\n  <destination>  dns name or ip address\n\nFor more details see tracepath(8).\n".

(** Prints the text on standard error and leaves with [exit(-1)]. *)
Definition usage {A : Type} : step A * list event :=
  (Exit (-1), [Fprintf_stderr usage_text []]).

(** ** [main], lines 405-504: the command line *)

(** Lines 405-410: the initial [ctl]. *)
Definition start_state : run_state :=
  {| his := replicate 64 his_zero; hisptr := 0; target_port := 0;
     base_port := 0; max_hops := MAX_HOPS_DEFAULT; overhead := 0;
     mtu := 0; hops_to := -1; hops_from := -1;
     no_resolve := false; show_both := false; mapped := false |}.

(** Lines 433-436: [argv[0][strlen(argv[0]) - 1]], the last character of the
    name the program was called by.  For an empty name the source reads the
    byte before the string; here that read finds neither digit. *)
Definition last_char (s : string) : option Ascii.ascii :=
  String.get (String.length s - 1) s.

Definition name_family (argv0 : string) : Z :=
  match last_char argv0 with
  | Some c =>
      if Ascii.eqb c "4"%char then AF_INET
      else if Ascii.eqb c "6"%char then AF_INET6
      else AF_UNSPEC
  | None => AF_UNSPEC
  end.

Definition family_conflict : list event :=
  [Fprintf_stderr "tracepath: Only one -4 or -6 option may be specified\n" []].

(** Lines 438-487: the loop over the answers of [getopt], each an option
    character with its argument ([optarg]).  The state of the loop is
    [hints.ai_family] and [ctl]. *)
Fixpoint option_loop (lc : libc) (opts : list (Ascii.ascii * string)) (family : Z)
    (ctl : run_state) : step (Z * run_state) * list event :=
  match opts with
  | [] => (Go (family, ctl), [])
  | (ch, optarg) :: opts' =>
      if Ascii.eqb ch "4"%char then
        if family =? AF_INET6 then (Exit 2, family_conflict)
        else option_loop lc opts' AF_INET ctl
      else if Ascii.eqb ch "6"%char then
        if family =? AF_INET then (Exit 2, family_conflict)
        else option_loop lc opts' AF_INET6 ctl
      else if Ascii.eqb ch "n"%char then option_loop lc opts' family (set_no_resolve true ctl)
      else if Ascii.eqb ch "b"%char then option_loop lc opts' family (set_show_both true ctl)
      else if Ascii.eqb ch "l"%char then
        let ctl := set_mtu (atoi lc optarg) ctl in
        if mtu ctl <=? overhead ctl then
          (Exit 1, [Fprintf_stderr "Error: pktlen must be > %d and <= %d.\n"
                      [AInt (overhead ctl); AInt INT_MAX]])
        else option_loop lc opts' family ctl
      else if Ascii.eqb ch "m"%char then
        let ctl := set_max_hops (atoi lc optarg) ctl in
        let complaint :=
          if (max_hops ctl <? 0) || (MAX_HOPS_LIMIT <? max_hops ctl)
          then [Fprintf_stderr "Error: max hops must be 0 .. %d (inclusive).\n"
                  [AInt MAX_HOPS_LIMIT]]
          else [] in
        let '(r, out) := option_loop lc opts' family ctl in
        (r, complaint ++ out)
      else if Ascii.eqb ch "p"%char then
        option_loop lc opts' family (set_base_port (to_uint16 (atoi lc optarg)) ctl)
      else if Ascii.eqb ch "V"%char then
        let '(fmt, args) := IPUTILS_VERSION lc "tracepath" in
        (Exit 0, [Printf fmt args])
      else usage
  end.

(** [strchr(s, c)]: the text before the first [c] and the text after it. *)
Fixpoint strchr (s : string) (c : Ascii.ascii) : option (string * string) :=
  match s with
  | EmptyString => None
  | String a s' =>
      if Ascii.eqb a c then Some (EmptyString, s')
      else match strchr s' c with
           | Some (before, after) => Some (String a before, after)
           | None => None
           end
  end.

(** Lines 495-503: without a port so far, the destination may carry it
    after a slash; the default is 44444.  Gives the host and [ctl]. *)
Definition destination_port (lc : libc) (ctl : run_state) (dest : string)
  : string * run_state :=
  if base_port ctl =? 0 then
    match strchr dest "/"%char with
    | Some (host, port) => (host, set_base_port (to_uint16 (atoi lc port)) ctl)
    | None => (dest, set_base_port 44444 ctl)
    end
  else (dest, ctl).

(** Lines 433-504: what the command line asks for: the family hint, the
    host and [ctl].  [args] are the arguments [getopt] left over. *)
Definition command_line (lc : libc) (argv0 : string) (opts : list (Ascii.ascii * string))
    (args : list string) : step (Z * string * run_state) * list event :=
  let '(r, out) := option_loop lc opts (name_family argv0) start_state in
  match r with
  | Exit n => (Exit n, out)
  | Go (family, ctl) =>
      match args with
      | [dest] =>
          let '(host, ctl) := destination_port lc ctl dest in
          (Go (family, host, ctl), out)
      | _ => let '(r, out') := @usage (Z * string * run_state) in (r, out ++ out')
      end
  end.

(** ** [main], lines 506-527: the address and the socket *)

(** Lines 513-523: the first entry of a known family for which [socket]
    succeeds.  A script that has run out answers with success. *)
Fixpoint open_socket (result : list addrinfo) (fails : list bool) : option addrinfo :=
  match result with
  | [] => None
  | ai :: result' =>
      if negb (ai_fam ai =? AF_INET6) && negb (ai_fam ai =? AF_INET)
      then open_socket result' fails
      else match fails with
           | true :: fails' => open_socket result' fails'
           | false :: _ | [] => Some ai
           end
  end.

(** Lines 506-527.  [memcpy] puts the address of the entry into
    [ctl.target]. *)
Definition connect (lc : libc) (family : Z) (host : string) (ctl : run_state)
  : step (addrinfo * run_state) * list event :=
  let '(status, result) := getaddrinfo lc host (base_port ctl) family in
  if negb (status =? 0) then
    (Exit 1, [Fprintf_stderr "tracepath: %s: %s\n"
                [AStr host; AStr (gai_strerror lc status)]])
  else
    match open_socket result (socket_fails lc) with
    | None => (Exit 1, [Perror "socket/connect"])
    | Some ai => (Go (ai, set_target_port (ai_port ai) ctl), [])
    end.

(** ** The whole of [main] *)

Definition tracepath (fuel : nat) (lc : libc) (w : world) (argv0 : string)
    (opts : list (Ascii.ascii * string)) (args : list string)
  : option Z * run_state * world * list event :=
  let '(r, o0) := command_line lc argv0 opts args in
  match r with
  | Exit n => (Some n, start_state, w, o0)
  | Go (family, host, ctl) =>
      let '(r, o1) := connect lc family host ctl in
      match r with
      | Exit n => (Some n, ctl, w, o0 ++ o1)
      | Go (ai, ctl) =>
          let '(r, w, o2) :=
            setup ctl w (ai_fam ai) (IN6_IS_ADDR_V4MAPPED (ai_addr ai)) in
          match r with
          | Exit n => (Some n, ctl, w, o0 ++ o1 ++ o2)
          | Go ctl =>
              let '(r, ctl, w, o3) := hop_loop fuel ctl w (ai_fam ai) 1 in
              (r, ctl, w, o0 ++ o1 ++ o2 ++ o3)
          end
      end
  end.

(** * Vocabulary of the properties *)

(** ** Results and traces *)

(** The four components of what the engine's functions return. *)
Definition res_of {A} (x : A * run_state * world * list event) : A := x.1.1.1.

Definition ctl_of {A} (x : A * run_state * world * list event) : run_state := x.1.1.2.

Definition world_of {A} (x : A * run_state * world * list event) : world := x.1.2.

Definition out_of {A} (x : A * run_state * world * list event) : list event := x.2.

(** The notifications still queued. *)
Definition pending (w : world) : nat := length (errqueue w).

Definition is_printf (fmt : string) (ev : event) : bool :=
  match ev with
  | Printf f _ => String.eqb f fmt
  | _ => false
  end.

(** Some [printf] of the trace uses the format [fmt]. *)
Definition prints (fmt : string) (tr : list event) : bool := existsb (is_printf fmt) tr.

(** How many events of the trace satisfy [P]. *)
Fixpoint count (P : event -> bool) (tr : list event) : nat :=
  match tr with
  | [] => 0
  | ev :: tr' => (if P ev then 1 else 0) + count P tr'
  end.

Definition is_send (ev : event) : bool :=
  match ev with Sendto _ _ _ => true | _ => false end.

(** The probes of a trace. *)
Definition sends (tr : list event) : nat := count is_send tr.

(** The line printed when the estimate is assigned (lines 290-291). *)
Definition is_pmtu (ev : event) : bool := is_printf "pmtu %d\n" ev.

(** The lines after which the decoder returns 0 at once. *)
Definition is_stop (ev : event) : bool :=
  is_printf "reached\n" ev || is_printf "!P\n" ev || is_printf "!H\n" ev
  || is_printf "!N\n" ev || is_printf "!A\n" ev || is_printf "no info\n" ev.

(** What the trace holds after its first stop line, if it has one. *)
Fixpoint after_stop (tr : list event) : option (list event) :=
  match tr with
  | [] => None
  | ev :: tr' => if is_stop ev then Some tr' else after_stop tr'
  end.

(** A stop line, if any, is the last event. *)
Definition stops_last (tr : list event) : Prop :=
  after_stop tr = None \/ after_stop tr = Some [].

(** The remark of line 275. *)
Definition BROKEN : string := "(This broken router returned corrupted payload) ".

(** [P] rejects everything the decoder prints for one notification before
    the switch on the error code. *)
Definition head_shapes (P : event -> bool) : Prop :=
  (forall a, P (Printf "cmsg6:%d\n " a) = false)
  /\ (forall a, P (Printf "cmsg4:%d\n " a) = false)
  /\ (forall a, P (Printf "%2d?: %-32s " a) = false)
  /\ (forall a, P (Printf "%2d:  " a) = false)
  /\ (forall a, P (Printf "%2d?: " a) = false)
  /\ (forall a, P (Printf "%s" a) = false)
  /\ (forall a, P (Printf " (%s)" a) = false)
  /\ (forall a, P (Printf "%*s" a) = false)
  /\ P Fflush = false
  /\ (forall a, P (Printf "%3d.%03dms " a) = false)
  /\ (forall a, P (Printf BROKEN a) = false).

(** A control message that carries a hop limit (lines 198-203, 213-215). *)
Definition is_hoplimit (c : cmsghdr) : bool :=
  ((cmsg_level c =? SOL_IPV6)
     && ((cmsg_type c =? IPV6_HOPLIMIT) || (cmsg_type c =? IPV6_2292HOPLIMIT)))
  || ((cmsg_level c =? SOL_IP) && (cmsg_type c =? IP_TTL)).

(** The value a hop-limit control message carries: an [int] for IPv6
    (line 202), one byte for IPv4 (line 214). *)
Definition received_hop_limit (c : cmsghdr) : Z :=
  if cmsg_level c =? SOL_IPV6 then data_int c else data_u8 c.

(** The receive-side hop count in the words of the specification, to be
    compared with [rethops_norm]. *)
Definition spec_hop_count (ttl : Z) : Z :=
  if ttl <=? 64 then 65 - ttl else if ttl <=? 128 then 129 - ttl else 256 - ttl.

(** The history is the 64-slot array of the source and [hisptr] one of its
    indices. *)
Definition his_wf (c : run_state) : Prop :=
  length (his c) = 64%nat /\ 0 <= hisptr c <= 63.

(** ** The MTU estimate along a trace *)

(** The estimate after an event: only the line [pmtu v] announces a new one. *)
Definition mtu_step (m : Z) (ev : event) : Z :=
  match ev with
  | Printf fmt [AInt v] => if String.eqb fmt "pmtu %d\n" then v else m
  | _ => m
  end.

Definition mtu_after (m : Z) (tr : list event) : Z := fold_left mtu_step tr m.

(** Every [sendto] of the trace asks for the estimate in force minus the
    overhead, as long as the estimate exceeds the overhead. *)
Fixpoint sends_exact (ovh m : Z) (tr : list event) : Prop :=
  match tr with
  | [] => True
  | ev :: tr' =>
      match ev with
      | Sendto _ _ len => ovh < m -> len = m - ovh
      | _ => True
      end
      /\ sends_exact ovh (mtu_step m ev) tr'
  end.

(** The settings chosen at start-up are the same in [c] and [c']. *)
Definition steady (c c' : run_state) : Prop :=
  overhead c' = overhead c /\ max_hops c' = max_hops c
  /\ base_port c' = base_port c /\ mapped c' = mapped c.

(** The estimate fits an [int] and the overhead is not negative. *)
Definition sane (c : run_state) : Prop := mtu c <= INT_MAX /\ 0 <= overhead c.

(** A step from [c] to [c'] with output [out] keeps the settings, its
    [pmtu] lines account for the estimate, its sends have the exact length,
    and it leaves the hop counts alone unless it prints [reached]. *)
Definition tracks (c c' : run_state) (out : list event) : Prop :=
  steady c c'
  /\ mtu c' = mtu_after (mtu c) out
  /\ (sane c -> sane c' /\ sends_exact (overhead c) (mtu c) out)
  /\ (prints "reached\n" out = false ->
      hops_to c' = hops_to c /\ hops_from c' = hops_from c).

(** The overhead of a probe: 48 bytes of IPv6 and UDP headers, 28 of IPv4
    and UDP; an IPv4-mapped target is reached over IPv4. *)
Definition family_overhead (ai_family : Z) (v4mapped : bool) : Z :=
  if (ai_family =? AF_INET6) && negb v4mapped then 48 else 28.

(** The packet length of the session: [-l], or the default of the family. *)
Definition configured_length (o : options) (ai_family : Z) : Z :=
  if opt_mtu o =? 0
  then (if ai_family =? AF_INET6 then 128000 else 65535)
  else opt_mtu o.

(** ** The decoder's output *)

(** The characters a [printf] of the host column writes: the string, the
    string in parentheses after a space, or the string padded to the width
    given as argument. *)
Definition width (ev : event) : Z :=
  match ev with
  | Printf fmt [AStr s] =>
      if String.eqb fmt "%s" then strlen s
      else if String.eqb fmt " (%s)" then strlen s + 3
      else 0
  | Printf fmt [AInt w; AStr s] =>
      if String.eqb fmt "%*s" then Z.max (Z.abs w) (strlen s) else 0
  | _ => 0
  end.

(** The characters a trace writes into the host column. *)
Definition columns (tr : list event) : Z := fold_right (fun ev n => width ev + n) 0 tr.

(** A line after which the decoder returns 0 at once, or the error report
    of line 329, which does the same. *)
Definition is_final (ev : event) : bool :=
  is_stop ev || match ev with Perror msg => String.eqb msg "NET ERROR" | _ => false end.

(** A control message that carries the extended error (lines 195-197,
    210-212). *)
Definition is_recverr (c : cmsghdr) : bool :=
  ((cmsg_level c =? SOL_IPV6) && (cmsg_type c =? IPV6_RECVERR))
  || ((cmsg_level c =? SOL_IP) && (cmsg_type c =? IP_RECVERR)).

(** The world with another resolver. *)
Definition set_getnameinfo (v : sockaddr -> Z -> Z -> option string) (w : world) : world :=
  {| clock := clock w; errqueue := errqueue w; sendto_ok := sendto_ok w;
     recv_ok := recv_ok w; sys_fail := sys_fail w; getnameinfo := v |}.

(** What the decoder writes: lines, the error report, a flush. *)
Definition is_report (ev : event) : bool :=
  match ev with
  | Printf _ _ | SetErrno _ | Perror _ | Fflush => true
  | _ => false
  end.

(** ** The probes of a trace *)

(** [port] is one of the 64 ports from [bp] on, as a 16-bit number. *)
Definition in_window (bp port : Z) : Prop :=
  exists k, 0 <= k <= 63 /\ port = to_uint16 (bp + k).

(** An event of the stage of [ttl]: a probe, which carries [ttl] in its
    header and goes to a port of the window, the wait for an answer, or
    something the decoder writes.  The socket options are not touched and
    the summary is not part of a stage. *)
Definition stage_event (bp ttl : Z) (ev : event) : Prop :=
  match ev with
  | Sendto hdr port _ => hdr_ttl hdr = to_uint32 ttl /\ in_window bp port
  | Printf _ _ | SetErrno _ | Perror _ | Fflush | DataWait => True
  | Setsockopt _ _ _ | Malloc _ | Freeaddrinfo | Fprintf_stderr _ _ => False
  end.

(** A probe goes to a port of the window. *)
Definition probe_in_window (bp : Z) (ev : event) : Prop :=
  match ev with
  | Sendto _ port _ => in_window bp port
  | _ => True
  end.

(** The hop limit of the socket after an event (lines 597, 605). *)
Definition hop_limit_step (h : option Z) (ev : event) : option Z :=
  match ev with
  | Setsockopt _ opt v =>
      if String.eqb opt "IP_TTL" || String.eqb opt "IPV6_UNICAST_HOPS" then Some v else h
  | _ => h
  end.

(** Every probe of the trace carries in its header the hop limit the socket
    has at that point; [h] is the hop limit at the start ([None]: not set). *)
Fixpoint carries_hop_limit (h : option Z) (tr : list event) : Prop :=
  match tr with
  | [] => True
  | ev :: tr' =>
      match ev with
      | Sendto hdr _ _ => exists v, h = Some v /\ hdr_ttl hdr = to_uint32 v
      | _ => True
      end
      /\ carries_hop_limit (hop_limit_step h ev) tr'
  end.

(** The line that announces a new estimate [v]. *)
Definition pmtu_line (v : Z) : event := Printf "pmtu %d\n" [AInt v].

(** The wait of [data_wait]. *)
Definition is_wait (ev : event) : bool :=
  match ev with DataWait => true | _ => false end.

(** ** The packet buffer *)

(** [probe_ttl] clears [mtu] bytes of the packet buffer before it sends
    (line 340).  The buffer has the size given to [malloc] at line 584, so
    the call is defined only for an estimate that is neither negative nor
    above that size.  [ev] keeps to that: it is not a [pmtu] line, or the
    value it announces lies between 0 and a size allocated in [tr]. *)
Definition fits_buffer (tr : list event) (ev : event) : bool :=
  match ev with
  | Printf fmt [AInt v] =>
      if String.eqb fmt "pmtu %d\n"
      then existsb (fun a => match a with
                             | Malloc size => (0 <=? v) && (v <=? size)
                             | _ => false
                             end) tr
      else true
  | _ => true
  end.

(** Every estimate announced in [tr] lies inside the packet buffer. *)
Definition estimate_in_buffer (tr : list event) : bool := forallb (fits_buffer tr) tr.

(** ** Whole runs *)




(** A report on standard error: [perror] or a [fprintf(stderr, ...)]. *)
Definition is_complaint (ev : event) : bool :=
  match ev with
  | Perror _ | Fprintf_stderr _ _ => true
  | _ => false
  end.

(** The microseconds between the send time and the receive time. *)
Definition elapsed (tv rettv : timeval) : Z :=
  (tv_sec tv - tv_sec rettv) * 1000000 + (tv_usec tv - tv_usec rettv).

(** ** The command line and the start of a run *)

(** The option characters of a command line. *)
Definition chars (opts : list (Ascii.ascii * string)) : list Ascii.ascii := map fst opts.

(** [ctl] as the option loop can leave it: only the packet length, the hop
    limit, the base port and the two flags are ever written there. *)
Definition pristine (ctl : run_state) : Prop :=
  his ctl = replicate 64 his_zero /\ hisptr ctl = 0 /\ overhead ctl = 0
  /\ hops_to ctl = -1 /\ hops_from ctl = -1 /\ mapped ctl = false
  /\ 0 <= base_port ctl <= 65535.

(** An entry [socket] is tried for. *)
Definition known_family (ai : addrinfo) : bool :=
  (ai_fam ai =? AF_INET6) || (ai_fam ai =? AF_INET).

(** The report of lines 473-475. *)
Definition max_hops_complaint : event :=
  Fprintf_stderr "Error: max hops must be 0 .. %d (inclusive).\n" [AInt MAX_HOPS_LIMIT].

(** What the command line and the socket write are messages. *)
Definition is_message (ev : event) : bool :=
  match ev with
  | Printf _ _ | Fprintf_stderr _ _ | Perror _ => true
  | _ => false
  end.

(** The characters of a string. *)
Fixpoint letters (s : string) : list Ascii.ascii :=
  match s with
  | EmptyString => []
  | String a s' => a :: letters s'
  end.

(** The number of [socket] calls made for the entries [pre]. *)
Definition tried (pre : list addrinfo) : nat := length (List.filter known_family pre).

(** The option characters the switch of the option loop has a case for. *)
Definition handled (ch : Ascii.ascii) : bool :=
  existsb (Ascii.eqb ch) (letters "46nblmpV").

(** The run came to the engine: the command line was accepted as
    [(family, host, ctl0)], the socket was opened for [ai], the set-up left
    the state [c] and the world [w1] after the output [pre]. *)
Record started := {
  st_host : string;
  st_ctl0 : run_state;
  st_ai : addrinfo;
  st_ctl : run_state;
  st_world : world;
  st_pre : list event
}.

(** Runs a command line up to the escalation loop. *)
Definition start (lc : libc) (w : world) (argv0 : string)
    (opts : list (Ascii.ascii * string)) (args : list string)
  : step started * world * list event :=
  let '(r, o0) := command_line lc argv0 opts args in
  match r with
  | Exit n => (Exit n, w, o0)
  | Go (family, host, ctl0) =>
      let '(r, o1) := connect lc family host ctl0 in
      match r with
      | Exit n => (Exit n, w, o0 ++ o1)
      | Go (ai, ctl) =>
          let '(r, w1, o2) :=
            setup ctl w (ai_fam ai) (IN6_IS_ADDR_V4MAPPED (ai_addr ai)) in
          match r with
          | Exit n => (Exit n, w1, o0 ++ o1 ++ o2)
          | Go c =>
              (Go {| st_host := host; st_ctl0 := ctl0; st_ai := ai; st_ctl := c;
                     st_world := w1; st_pre := o0 ++ o1 ++ o2 |}, w1, o0 ++ o1 ++ o2)
          end
      end
  end.

(** The hop limit the command line asks for. *)
Definition hop_limit_of (lc : libc) (argv0 : string) (opts : list (Ascii.ascii * string))
    (args : list string) : Z :=
  match (command_line lc argv0 opts args).1 with
  | Go (_, _, ctl) => max_hops ctl
  | Exit _ => 0
  end.

(** The options a [ctl] stands for. *)
Definition options_of (ctl : run_state) : options :=
  {| opt_mtu := mtu ctl; opt_max_hops := max_hops ctl; opt_base_port := base_port ctl;
     opt_no_resolve := no_resolve ctl; opt_show_both := show_both ctl |}.

(** The answer of the next call of a scripted function: the head of the
    script, or the answer of a script that has run out. *)
Definition next_answer (dflt : bool) (script : list bool) : bool := hd dflt script.

(** An error after which the drain goes on without a change of the
    estimate: a timeout, or time exceeded in transit. *)
Definition hop_answer (e : sock_extended_err) : bool :=
  (ee_errno e =? ETIMEDOUT) || ((ee_errno e =? EHOSTUNREACH) && ttl_exceeded e).

(** Every [sendto] of the trace asks for the estimate in force minus the
    overhead, converted to [size_t]. *)
Fixpoint sends_converted (ovh m : Z) (tr : list event) : Prop :=
  match tr with
  | [] => True
  | ev :: tr' =>
      match ev with
      | Sendto _ _ len => len = to_size_t (m - ovh)
      | _ => True
      end
      /\ sends_converted ovh (mtu_step m ev) tr'
  end.

(** ** Concrete sessions

    IPv4 sessions to port 44444 with [-l 1500 -n]: after the set-up the
    estimate is 1500 and the overhead 28.  No name is ever resolved, the
    clock stands still, every [sendto] succeeds and no application data
    comes back; only the error queue varies. *)

Definition no_names : sockaddr -> Z -> Z -> option string := fun _ _ _ => None.

Definition quiet (q : list recv_result) : world :=
  {| clock := []; errqueue := q; sendto_ok := []; recv_ok := []; sys_fail := [];
     getnameinfo := no_names |}.

(** [-l 1500 -n -m hops]. *)
Definition opts (hops : Z) : options :=
  {| opt_mtu := 1500; opt_max_hops := hops; opt_base_port := 44444;
     opt_no_resolve := true; opt_show_both := false |}.

(** The state after the set-up, for [-m 30] and for [-m 0]. *)
Definition session : run_state := set_overhead 28 (init_state (opts 30)).

Definition session_zero : run_state := set_overhead 28 (init_state (opts 0)).

(** The router 10.0.0.1. *)
Definition router : sockaddr := {| sa_family := AF_INET; sa_data := 167772161 |}.

(** An ICMP error as the kernel queues it for an IPv4 socket. *)
Definition icmp (errno type code info : Z) : sock_extended_err :=
  {| ee_errno := errno; ee_origin := SO_EE_ORIGIN_ICMP; ee_type := type;
     ee_code := code; ee_info := info; ee_offender := router |}.

Definition time_exceeded : sock_extended_err := icmp EHOSTUNREACH 11 0 0.

Definition port_unreachable : sock_extended_err := icmp ECONNREFUSED 3 3 0.

Definition frag_needed (pmtu : Z) : sock_extended_err := icmp EMSGSIZE 3 4 pmtu.

(** ICMP type 3 code 1, which the kernel also reports as [EHOSTUNREACH]. *)
Definition host_unreachable : sock_extended_err := icmp EHOSTUNREACH 3 1 0.

(** The receive buffer as line 148 presets it. *)
Definition all_ones : probehdr :=
  {| hdr_ttl := 4294967295; hdr_tv := {| tv_sec := -1; tv_usec := -1 |} |}.

(** A notification for the probe sent to [port]: the extended error and the
    TTL of the ICMP packet in the control data, no echoed payload. *)
Definition notification (port : Z) (e : sock_extended_err) (hoplimit : Z) : errmsg :=
  {| recv_size := 0; rcvbuf := all_ones; addr_port := port;
     cmsgs := [ {| cmsg_level := SOL_IP; cmsg_type := IP_RECVERR; cmsg_data := CmsgErr e |};
                {| cmsg_level := SOL_IP; cmsg_type := IP_TTL; cmsg_data := CmsgInt hoplimit |} ] |}.

(** The same with a full-size echoed payload whose TTL field is zero. *)
Definition corrupted (port : Z) (e : sock_extended_err) (hoplimit : Z) : errmsg :=
  {| recv_size := sizeof_probehdr;
     rcvbuf := {| hdr_ttl := 0; hdr_tv := {| tv_sec := 100; tv_usec := 0 |} |};
     addr_port := port;
     cmsgs := cmsgs (notification port e hoplimit) |}.

(** A notification without a hop limit in the control data. *)
Definition bare (port : Z) (e : sock_extended_err) : errmsg :=
  {| recv_size := 0; rcvbuf := all_ones; addr_port := port;
     cmsgs := [ {| cmsg_level := SOL_IP; cmsg_type := IP_RECVERR; cmsg_data := CmsgErr e |} ] |}.

(** The 64th probe of a session, sent with TTL 5 at time 100 s. *)
Definition session_63 : run_state :=
  (probe_prepare (set_hisptr 63 session) AF_INET 5 {| tv_sec := 100; tv_usec := 0 |}).2.

(** Nothing answers the first 63 probes (slots 0..62, TTL 1 to 21); the
    64th, the first with TTL 22, is answered from 22 hops away. *)
Definition run_to_slot_63 :=
  main 1000 (opts 30)
       (quiet (replicate 63 RecvAgain ++ [RecvMsg (notification 44507 time_exceeded 43)]))
       AF_INET false.

(** Nothing answers the first 62 probes; the 63rd, the last with TTL 21, is
    answered from 21 hops away. *)
Definition run_to_slot_62 :=
  main 1000 (opts 30)
       (quiet (replicate 62 RecvAgain ++ [RecvMsg (notification 44506 time_exceeded 44)]))
       AF_INET false.

(** A run in which the first answer is "fragmentation needed, MTU 1400". *)
Definition clamped_run :=
  main 20 (opts 1) (quiet [RecvMsg (notification 44444 (frag_needed 1400) 64)])
       AF_INET false.

(** The first probe gets no answer in time.  While the second is out, a
    "fragmentation needed" answer to it and the late port-unreachable answer
    to the first are queued; the third probe is answered by port unreachable
    again. *)
Definition reached_twice :=
  main 20 (opts 30)
       (quiet [RecvAgain;
               RecvMsg (notification 44445 (frag_needed 1400) 64);
               RecvMsg (notification 44444 port_unreachable 60);
               RecvMsg (notification 44446 port_unreachable 50)])
       AF_INET false.

(** The same with a late host-unreachable answer (ICMP type 3, code 1) and
    no answer afterwards; [-m 2]. *)
Definition unreachable_run :=
  main 20 (opts 2)
       (quiet [RecvAgain;
               RecvMsg (notification 44445 (frag_needed 1400) 64);
               RecvMsg (notification 44444 host_unreachable 60)])
       AF_INET false.

(** A C library for the examples: [atoi] reads an optional minus sign and
    decimal digits, every name resolves to the IPv4 address 192.0.2.1 and
    [socket] succeeds. *)
Fixpoint digits (s : string) (acc : Z) : Z :=
  match s with
  | EmptyString => acc
  | String a s' =>
      let n := Z.of_N (N_of_ascii a) in
      if (48 <=? n) && (n <=? 57) then digits s' (10 * acc + (n - 48)) else acc
  end.

Definition decimal (s : string) : Z :=
  match s with
  | String a s' => if Ascii.eqb a "-"%char then - digits s' 0 else digits s 0
  | EmptyString => 0
  end.

Definition plain_libc : libc :=
  {| atoi := decimal;
     getaddrinfo := fun _ port _ =>
       (0, [ {| ai_fam := AF_INET; ai_port := port; ai_addr := 3221225985 |} ]);
     gai_strerror := fun _ => "Name or service not known";
     socket_fails := [];
     IPUTILS_VERSION := fun prog =>
       ("%s from %s %s\n", [AStr prog; AStr "iputils"; AStr "s20180629"]) |}.

(** [tracepath -n -l 1500 -m hops 192.0.2.1]. *)
Definition command (hops : string) : list (Ascii.ascii * string) :=
  [("n"%char, EmptyString); ("l"%char, "1500"); ("m"%char, hops)].

(** * Properties *)

(** ** Tactics and arithmetic *)

(** Turn the boolean tests of the embedding into propositions. *)
Ltac bools :=
  repeat match goal with
  | H : (_ && _) = true |- _ => apply andb_true_iff in H; destruct H
  | H : (_ || _) = false |- _ => apply orb_false_iff in H; destruct H
  | H : negb _ = true |- _ => apply negb_true_iff in H
  | H : negb _ = false |- _ => apply negb_false_iff in H
  | H : (_ =? _) = true |- _ => apply Z.eqb_eq in H
  | H : (_ =? _) = false |- _ => apply Z.eqb_neq in H
  | H : (_ <? _) = true |- _ => apply Z.ltb_lt in H
  | H : (_ <? _) = false |- _ => apply Z.ltb_ge in H
  | H : (_ <=? _) = true |- _ => apply Z.leb_le in H
  | H : (_ <=? _) = false |- _ => apply Z.leb_gt in H
  end.

(** Split on the first test the goal branches on. *)
Ltac branch :=
  match goal with
  | |- context [if ?b then _ else _] =>
      let E := fresh "E" in destruct b eqn:E
  end.

Ltac branch_in H :=
  match type of H with
  | context [if ?b then _ else _] =>
      let E := fresh "E" in destruct b eqn:E
  end.

Lemma to_int32_id z : INT_MIN <= z <= INT_MAX -> to_int32 z = z.
Proof.
  unfold to_int32, INT_MIN, INT_MAX. intros H.
  rewrite Z.mod_small by lia. lia.
Qed.

Lemma to_int32_range z : INT_MIN <= to_int32 z <= INT_MAX.
Proof.
  unfold to_int32, INT_MIN, INT_MAX.
  pose proof (Z.mod_pos_bound (z + 2147483648) 4294967296). lia.
Qed.

Lemma to_uint8_range z : 0 <= to_uint8 z <= 255.
Proof. unfold to_uint8. pose proof (Z.mod_pos_bound z 256). lia. Qed.

Lemma to_size_t_id z : 0 <= z <= INT_MAX -> to_size_t z = z.
Proof. unfold to_size_t, INT_MAX. intros H. apply Z.mod_small. lia. Qed.

(** ** The history tracker *)

Lemma his_take_matched h slot :
  0 <= slot < 63 -> hops (his_get h slot) <> 0 ->
  his_take h slot
  = (hops (his_get h slot), Some (sendtime (his_get h slot)), his_clear h slot).
Proof.
  intros Hs Hh. unfold his_take.
  destruct (0 <=? slot) eqn:E1; bools; [|lia].
  destruct (slot <? 63) eqn:E2; bools; [|lia].
  destruct (hops (his_get h slot) =? 0) eqn:E3; bools; [lia|]. reflexivity.
Qed.

Lemma his_take_unmatched h slot :
  slot < 0 \/ 63 <= slot \/ hops (his_get h slot) = 0 ->
  his_take h slot = (-1, None, h).
Proof.
  intros Hs. unfold his_take.
  destruct (0 <=? slot) eqn:E1; bools; [|reflexivity].
  destruct (slot <? 63) eqn:E2; bools; [|reflexivity].
  destruct (hops (his_get h slot) =? 0) eqn:E3; bools; [reflexivity|lia].
Qed.

(** A matched lookup yields a non-zero hop count and a send time; an
    unmatched one yields the initial values. *)
Lemma his_take_cases h slot :
  (exists t, his_take h slot = (hops (his_get h slot), Some t, his_clear h slot)
             /\ 0 <= slot < 63 /\ hops (his_get h slot) <> 0)
  \/ his_take h slot = (-1, None, h).
Proof.
  destruct (Z_lt_dec slot 0); [right; apply his_take_unmatched; lia|].
  destruct (Z_le_dec 63 slot); [right; apply his_take_unmatched; lia|].
  destruct (Z.eq_dec (hops (his_get h slot)) 0);
    [right; apply his_take_unmatched; lia|].
  left. eexists. split; [apply his_take_matched; lia | lia].
Qed.

Lemma his_get_put h i x :
  (0 <= i < Z.of_nat (length h)) -> his_get (his_put h i x) i = x.
Proof.
  intros Hi. unfold his_get, his_put.
  rewrite list_lookup_insert_eq by lia. reflexivity.
Qed.

Lemma land_63_range z : 0 <= Z.land z 63 <= 63.
Proof.
  change 63 with (Z.ones 6). rewrite Z.land_ones by lia.
  pose proof (Z.mod_pos_bound z (2 ^ 6)). change (Z.ones 6) with 63.
  change (2 ^ 6) with 64 in *. lia.
Qed.

(** ** One notification *)

Section Notification.
Variable gni : sockaddr -> Z -> Z -> option string.
Variables (ctl : run_state) (ai_family ttl : Z) (tv : timeval) (m : errmsg).

Let d := decode ctl ai_family m.

Lemma recverr_msg_none :
  d_e d = None ->
  recverr_msg gni ctl ai_family ttl tv m
  = (d_ctl d, d_out d ++ [Printf "no info\n" []], Return 0).
Proof using Type. unfold recverr_msg. fold d. intros ->. reflexivity. Qed.

Lemma recverr_msg_some e :
  d_e d = Some e ->
  let c := classify (d_ctl d) ttl (d_sndhops d) (rethops_norm (d_rethops d))
                    (mtu ctl) e in
  recverr_msg gni ctl ai_family ttl tv m
  = (c.1.1,
     d_out d ++ print_origin gni (d_ctl d) ttl (d_sndhops d) e
       ++ print_rtt tv (d_rettv d) (d_broken_router d) ++ c.1.2,
     c.2).
Proof using Type.
  unfold recverr_msg. fold d. intros ->. cbv zeta.
  destruct (classify _ _ _ _ _ _) as [[c1 c2] c3]. reflexivity.
Qed.
End Notification.

(** The switch, case by case. *)
Section Classify.
Variables (ctl : run_state) (ttl sndhops rethops progress : Z).
Variable e : sock_extended_err.

Lemma classify_msgsize :
  ee_errno e = EMSGSIZE ->
  classify ctl ttl sndhops rethops progress e
  = (set_mtu (to_int32 (ee_info e)) ctl,
     [Printf "pmtu %d\n" [AInt (to_int32 (ee_info e))]],
     Restart (to_int32 (ee_info e))).
Proof using Type. unfold classify. intros ->. reflexivity. Qed.

Lemma classify_reached :
  ee_errno e = ECONNREFUSED ->
  classify ctl ttl sndhops rethops progress e
  = (set_hops (if sndhops <? 0 then ttl else sndhops) rethops ctl,
     [Printf "reached\n" []], Return 0).
Proof using Type. unfold classify. intros ->. reflexivity. Qed.

Lemma classify_hostunreach :
  ee_errno e = EHOSTUNREACH ->
  classify ctl ttl sndhops rethops progress e
  = if ttl_exceeded e
    then (ctl, print_asymm ttl sndhops rethops ++ [Printf "\n" []], Restart progress)
    else (ctl, [Printf "!H\n" []], Return 0).
Proof using Type. unfold classify. intros ->. reflexivity. Qed.

(** Only the message-too-big case writes the MTU estimate. *)
Lemma classify_mtu :
  mtu (classify ctl ttl sndhops rethops progress e).1.1
  = if ee_errno e =? EMSGSIZE then to_int32 (ee_info e) else mtu ctl.
Proof using Type.
  unfold classify.
  repeat (branch; bools; try reflexivity; try (exfalso; unfold ETIMEDOUT, EMSGSIZE in *; lia)).
Qed.

(** Only the port-unreachable case writes the hop counts. *)
Lemma classify_hops :
  ee_errno e <> ECONNREFUSED ->
  hops_to (classify ctl ttl sndhops rethops progress e).1.1 = hops_to ctl
  /\ hops_from (classify ctl ttl sndhops rethops progress e).1.1 = hops_from ctl.
Proof using Type.
  intros Hne. unfold classify.
  repeat (branch; bools; try (split; reflexivity); try contradiction).
Qed.

(** The slot table, the overhead and the settings are never written. *)
Lemma classify_frame :
  let c := (classify ctl ttl sndhops rethops progress e).1.1 in
  his c = his ctl /\ hisptr c = hisptr ctl /\ overhead c = overhead ctl
  /\ max_hops c = max_hops ctl /\ base_port c = base_port ctl
  /\ mapped c = mapped ctl.
Proof using Type.
  unfold classify. repeat (branch; try (repeat split; reflexivity)).
Qed.
End Classify.

(** ** Control messages *)

Lemma scan_cmsg_no_hoplimit c e r :
  is_hoplimit c = false -> (scan_cmsg c e r).1.2 = r.
Proof.
  unfold is_hoplimit, scan_cmsg. intros H.
  apply orb_false_iff in H. destruct H as [H6 H4].
  destruct (cmsg_level c =? SOL_IPV6) eqn:E6; simpl in H6.
  - rewrite H6. branch; reflexivity.
  - destruct (cmsg_level c =? SOL_IP) eqn:E4; simpl in H4; [|reflexivity].
    rewrite H4. branch; reflexivity.
Qed.

Lemma scan_cmsgs_no_hoplimit l : forall e r,
  forallb (fun c => negb (is_hoplimit c)) l = true ->
  (scan_cmsgs l e r).1.2 = r.
Proof.
  induction l as [|c l IH]; intros e r H; simpl in *; [reflexivity|].
  apply andb_true_iff in H. destruct H as [Hc Hl]. apply negb_true_iff in Hc.
  pose proof (scan_cmsg_no_hoplimit c e r Hc) as Hr.
  destruct (scan_cmsg c e r) as [[e1 r1] o1]. simpl in Hr. subst r1.
  specialize (IH e1 r Hl).
  destruct (scan_cmsgs l e1 r) as [[e2 r2] o2]. exact IH.
Qed.

(** A hop limit taken from the control data is an [int], a TTL a byte. *)
Lemma scan_cmsgs_rethops_range l : forall e r,
  INT_MIN <= r <= INT_MAX ->
  INT_MIN <= (scan_cmsgs l e r).1.2 <= INT_MAX.
Proof.
  induction l as [|c l IH]; intros e r H; simpl; [exact H|].
  assert (Hc : INT_MIN <= (scan_cmsg c e r).1.2 <= INT_MAX).
  { unfold scan_cmsg. repeat branch; simpl; try exact H.
    - unfold data_int. destruct (cmsg_data c); apply to_int32_range.
    - unfold data_u8, INT_MIN, INT_MAX.
      destruct (cmsg_data c);
        match goal with |- _ <= to_uint8 ?z <= _ => pose proof (to_uint8_range z) end;
        lia. }
  destruct (scan_cmsg c e r) as [[e1 r1] o1]. simpl in Hc.
  specialize (IH e1 r1 Hc).
  destruct (scan_cmsgs l e1 r1) as [[e2 r2] o2]. exact IH.
Qed.

Lemma scan_cmsgs_app l1 : forall l2 e r,
  scan_cmsgs (l1 ++ l2) e r
  = let x := scan_cmsgs l1 e r in
    let y := scan_cmsgs l2 x.1.1 x.1.2 in
    (y.1.1, y.1.2, x.2 ++ y.2).
Proof.
  induction l1 as [|c l1 IH]; intros l2 e r; cbv zeta.
  - simpl. destruct (scan_cmsgs l2 e r) as [[a b] o]. reflexivity.
  - cbn [app scan_cmsgs]. destruct (scan_cmsg c e r) as [[e1 r1] o1].
    rewrite IH. cbv zeta.
    destruct (scan_cmsgs l1 e1 r1) as [[e2 r2] o2]. cbn [fst snd].
    destruct (scan_cmsgs l2 e2 r2) as [[e3 r3] o3]. cbn [fst snd].
    rewrite app_assoc. reflexivity.
Qed.

Lemma scan_cmsg_hoplimit c e r :
  (scan_cmsg c e r).1.2
  = if is_hoplimit c
    then (if cmsg_level c =? SOL_IPV6 then data_int c else data_u8 c)
    else r.
Proof.
  destruct (is_hoplimit c) eqn:H; [|apply scan_cmsg_no_hoplimit; exact H].
  unfold is_hoplimit in H. unfold scan_cmsg.
  destruct (cmsg_level c =? SOL_IPV6) eqn:E6; cbn [andb orb] in H.
  - apply orb_true_iff in H. destruct H as [H|H].
    + destruct (cmsg_type c =? IPV6_RECVERR) eqn:E; bools.
      * exfalso. apply orb_true_iff in H.
        unfold IPV6_RECVERR, IPV6_HOPLIMIT, IPV6_2292HOPLIMIT in *.
        destruct H as [H|H]; bools; lia.
      * rewrite H. reflexivity.
    + exfalso. bools. unfold SOL_IP, SOL_IPV6 in *. lia.
  - destruct (cmsg_level c =? SOL_IP) eqn:E4; cbn [andb orb] in H; [|discriminate].
    destruct (cmsg_type c =? IP_RECVERR) eqn:E; bools.
    + exfalso. unfold IP_RECVERR, IP_TTL in *. lia.
    + rewrite (proj2 (Z.eqb_eq _ _) H). reflexivity.
Qed.

(** ** Receive-side hop count *)

Lemma rethops_norm_exact r :
  INT_MIN + 65 < r <= INT_MAX ->
  rethops_norm r
  = if r <=? 64 then 65 - r else if r <=? 128 then 129 - r else 256 - r.
Proof.
  unfold rethops_norm, INT_MIN, INT_MAX. intros H.
  repeat branch; bools; apply to_int32_id; unfold INT_MIN, INT_MAX; lia.
Qed.

(** ** C1: the MTU estimate *)

(** What one notification does to the estimate. *)
Lemma recverr_msg_mtu gni ctl ai_family ttl tv m :
  mtu (recverr_msg gni ctl ai_family ttl tv m).1.1
  = match d_e (decode ctl ai_family m) with
    | Some e => if ee_errno e =? EMSGSIZE then to_int32 (ee_info e) else mtu ctl
    | None => mtu ctl
    end.
Proof.
  destruct (d_e (decode ctl ai_family m)) as [e|] eqn:He.
  - rewrite (recverr_msg_some gni ctl ai_family ttl tv m e He). cbv zeta. simpl fst.
    rewrite classify_mtu. reflexivity.
  - rewrite (recverr_msg_none gni ctl ai_family ttl tv m He). reflexivity.
Qed.

(** A router announces 9000 to a session whose estimate is 1500: the
    estimate after the notification is larger than before. *)
Lemma mtu_estimate_increases :
  ~ (mtu (ctl_of (recverr session
                    (quiet [RecvMsg (notification 44444 (frag_needed 9000) 63)])
                    AF_INET 1))
     <= mtu session).
Proof. vm_compute. intros H. apply H. reflexivity. Qed.

(** C1, amended.  A message-too-big notification sets the MTU estimate to
    the notified value (read as an [int]) whatever the estimate was; every
    other notification leaves it as it is.  So the estimate is not larger
    after a notification exactly when that notification is not a
    message-too-big one with a value above the estimate. *)
Theorem mtu_estimate_follows_notification gni ctl ai_family ttl tv m :
  let ctl' := (recverr_msg gni ctl ai_family ttl tv m).1.1 in
  (forall e, d_e (decode ctl ai_family m) = Some e -> ee_errno e = EMSGSIZE ->
             mtu ctl' = to_int32 (ee_info e))
  /\ ((forall e, d_e (decode ctl ai_family m) = Some e -> ee_errno e <> EMSGSIZE)
      -> mtu ctl' = mtu ctl)
  /\ (mtu ctl' <= mtu ctl
      <-> forall e, d_e (decode ctl ai_family m) = Some e -> ee_errno e = EMSGSIZE ->
                    to_int32 (ee_info e) <= mtu ctl).
Proof.
  cbv zeta. rewrite recverr_msg_mtu.
  destruct (d_e (decode ctl ai_family m)) as [e|].
  - destruct (ee_errno e =? EMSGSIZE) eqn:E; bools.
    + split; [|split].
      * intros e' [= <-] _. reflexivity.
      * intros H. exfalso. exact (H e eq_refl E).
      * split.
        -- intros H e' [= <-] _. exact H.
        -- intros H. exact (H e eq_refl E).
    + split; [|split].
      * intros e' [= <-] He. contradiction.
      * reflexivity.
      * split; [intros _ e' [= <-] He; contradiction | intros _; lia].
  - split; [|split].
    + intros e' [=].
    + reflexivity.
    + split; [intros _ e' [=] | intros _; lia].
Qed.

Lemma mtu_estimate_follows_notification_witness :
  mtu (recverr_msg no_names session AF_INET 1 tv_zero
         (notification 44444 (frag_needed 1400) 63)).1.1 = 1400.
Proof.
  destruct (mtu_estimate_follows_notification no_names session AF_INET 1 tv_zero
              (notification 44444 (frag_needed 1400) 63)) as (H & _ & _).
  exact (H (frag_needed 1400) eq_refl eq_refl).
Defined.

(** The error record the decoder settles on is the data of one of the
    control messages. *)
Lemma scan_cmsgs_err_source l : forall e0 r0 e1,
  (scan_cmsgs l e0 r0).1.1 = Some e1 ->
  e0 = Some e1 \/ exists c, In c l /\ e1 = data_err c.
Proof.
  induction l as [|c l IHl]; intros e0 r0 e1 H; simpl in H; [left; exact H|].
  destruct (scan_cmsg c e0 r0) as [[e' r'] o'] eqn:Ec.
  specialize (IHl e' r' e1).
  destruct (scan_cmsgs l e' r') as [[e2 r2] o2]. simpl in *.
  destruct (IHl H) as [->|(c' & Hin & ->)].
  - unfold scan_cmsg in Ec.
    repeat branch_in Ec; injection Ec as He _ _;
      first [ left; exact He
            | right; exists c; split; [left; reflexivity | congruence] ].
  - right. exists c'. auto.
Qed.

(** Over a whole drain the estimate ends at its old value or at one of the
    notified values: a bound on both bounds the result. *)
Lemma recverr_from_mtu_bound (B : Z) q : forall ctl w ai_family ttl progress,
  mtu ctl <= B ->
  (forall m c, In (RecvMsg m) q -> In c (cmsgs m) ->
               to_int32 (ee_info (data_err c)) <= B) ->
  mtu (ctl_of (recverr_from q ctl w ai_family ttl progress)) <= B.
Proof.
  induction q as [|r q IH]; intros ctl w ai_family ttl progress Hc Hq; simpl.
  - destruct (gettimeofday w). exact Hc.
  - destruct (gettimeofday w) as [tv w1]. destruct r as [| |m].
    + apply IH; [exact Hc|]. intros m c Hm. apply Hq. right. exact Hm.
    + exact Hc.
    + assert (Hm : mtu (recverr_msg (getnameinfo w1) ctl ai_family ttl tv m).1.1 <= B).
      { rewrite recverr_msg_mtu.
        destruct (d_e (decode ctl ai_family m)) as [e|] eqn:He; [|exact Hc].
        branch; [|exact Hc].
        unfold decode in He. simpl in He.
        destruct (scan_cmsgs_err_source _ _ _ _ He) as [[=]|(c & Hin & ->)].
        apply (Hq m c); [left; reflexivity | exact Hin]. }
      destruct (recverr_msg (getnameinfo w1) ctl ai_family ttl tv m) as [[c1 o1] oc].
      simpl in Hm. destruct oc as [r|p]; [exact Hm|].
      specialize (IH c1 w1 ai_family ttl p Hm).
      destruct (recverr_from q c1 w1 ai_family ttl p) as [[[r2 c2] w2] o2].
      apply IH. intros m' c' Hm'. apply Hq. right. exact Hm'.
Qed.

(** ** C2: correlating a notification with the history *)

(** Where the slot is a valid index it is the port offset reduced modulo
    64; the source computes the plain difference and tests its range. *)
Lemma slot_of_in_range ctl ai_family m :
  ai_family = AF_INET \/ ai_family = AF_INET6 ->
  0 <= slot_of ctl ai_family m < 64 ->
  slot_of ctl ai_family m = (addr_port m - base_port ctl) mod 64.
Proof.
  unfold slot_of. intros [-> | ->]; simpl; intros H;
    rewrite Z.mod_small by lia; lia.
Qed.

(** Without a full-size echoed payload the decoder takes the send-side hop
    count and the send time from the tracker alone. *)
Lemma decode_from_tracker ctl ai_family m :
  recv_size m <> sizeof_probehdr ->
  let d := decode ctl ai_family m in
  (d_sndhops d, d_rettv d, his (d_ctl d))
  = his_take (his ctl) (slot_of ctl ai_family m).
Proof.
  intros Hs. unfold decode. cbv zeta. simpl. unfold payload_check.
  destruct (recv_size m =? sizeof_probehdr) eqn:E; bools; [contradiction|].
  simpl. destruct (his_take _ _) as [[a b] c]. reflexivity.
Qed.

(** A slot outside [0, 63) or holding no record: nothing is taken. *)
Lemma decode_unmatched ctl ai_family m :
  recv_size m <> sizeof_probehdr ->
  (slot_of ctl ai_family m < 0 \/ 63 <= slot_of ctl ai_family m
   \/ hops (his_get (his ctl) (slot_of ctl ai_family m)) = 0) ->
  let d := decode ctl ai_family m in
  d_sndhops d = -1 /\ d_rettv d = None /\ his (d_ctl d) = his ctl.
Proof.
  intros Hs Hslot. cbv zeta.
  pose proof (decode_from_tracker ctl ai_family m Hs) as H. cbv zeta in H.
  rewrite (his_take_unmatched _ _ Hslot) in H.
  injection H as H1 H2 H3. auto.
Qed.

(** A live record in one of the slots 0..62 is matched and released. *)
Lemma decode_matched ctl ai_family m :
  recv_size m <> sizeof_probehdr ->
  0 <= slot_of ctl ai_family m < 63 ->
  hops (his_get (his ctl) (slot_of ctl ai_family m)) <> 0 ->
  let d := decode ctl ai_family m in
  let slot := slot_of ctl ai_family m in
  d_sndhops d = hops (his_get (his ctl) slot)
  /\ d_rettv d = Some (sendtime (his_get (his ctl) slot))
  /\ his (d_ctl d) = his_clear (his ctl) slot.
Proof.
  intros Hs Hslot Hlive. cbv zeta.
  pose proof (decode_from_tracker ctl ai_family m Hs) as H. cbv zeta in H.
  rewrite (his_take_matched _ _ Hslot Hlive) in H.
  injection H as H1 H2 H3. auto.
Qed.

(** The send side uses all 64 slots: with [hisptr = 63] the record goes to
    slot 63 and the probe to port [base_port + 63]. *)
Lemma probe_prepare_records ctl ttl now :
  0 <= hisptr ctl <= 63 -> length (his ctl) = 64%nat ->
  let ctl' := (probe_prepare ctl AF_INET ttl now).2 in
  his_get (his ctl') (hisptr ctl) = {| hops := ttl; sendtime := now |}
  /\ target_port ctl' = to_uint16 (base_port ctl + hisptr ctl).
Proof.
  intros Hp Hl. unfold probe_prepare. simpl. split; [|reflexivity].
  apply his_get_put. lia.
Qed.

(** C2, the code at slot 63.  A notification whose port is [base_port + 63]
    is never matched, whatever the tracker holds in slot 63: the decoder
    takes neither hop count nor send time and leaves the record in place. *)
Theorem slot_63_never_matched ctl ai_family m :
  recv_size m <> sizeof_probehdr ->
  slot_of ctl ai_family m = 63 ->
  let d := decode ctl ai_family m in
  d_sndhops d = -1 /\ d_rettv d = None /\ his (d_ctl d) = his ctl.
Proof.
  intros Hs H63. apply decode_unmatched; [exact Hs | lia].
Qed.

Lemma slot_63_never_matched_witness :
  target_port session_63 = 44507
  /\ his_get (his session_63) 63 = {| hops := 5; sendtime := {| tv_sec := 100; tv_usec := 0 |} |}
  /\ d_sndhops (decode session_63 AF_INET (notification 44507 time_exceeded 60)) = -1
  /\ d_rettv (decode session_63 AF_INET (notification 44507 time_exceeded 60)) = None.
Proof.
  split; [reflexivity|]. split; [reflexivity|].
  assert (Hs : recv_size (notification 44507 time_exceeded 60) <> sizeof_probehdr)
    by discriminate.
  destruct (slot_63_never_matched session_63 AF_INET
              (notification 44507 time_exceeded 60) Hs eq_refl) as (H1 & H2 & _).
  split; assumption.
Defined.

(** The same probe one slot earlier is recognised. *)
Lemma slot_62_matched :
  let c := (probe_prepare (set_hisptr 62 session) AF_INET 5
              {| tv_sec := 100; tv_usec := 0 |}).2 in
  d_sndhops (decode c AF_INET (notification 44506 time_exceeded 60)) = 5
  /\ d_rettv (decode c AF_INET (notification 44506 time_exceeded 60))
     = Some {| tv_sec := 100; tv_usec := 0 |}.
Proof. split; reflexivity. Qed.

(** In a whole run: the answer to the 64th probe is printed as a guess
    ("22?:") without round-trip time, that to the 63rd as a match ("21: ")
    with one. *)
Lemma sixty_fourth_probe_unrecognised :
  nth_error (out_of run_to_slot_63) 173
    = Some (Sendto {| hdr_ttl := 22; hdr_tv := tv_zero |} 44507 1472)
  /\ firstn 4 (skipn 175 (out_of run_to_slot_63))
     = [Printf "%2d?: " [AInt 22]; Printf "%s" [AStr "???"];
        Printf "%*s" [AInt 49; AStr EmptyString]; Printf "\n" []]
  /\ nth_error (out_of run_to_slot_62) 169
     = Some (Sendto {| hdr_ttl := 21; hdr_tv := tv_zero |} 44506 1472)
  /\ firstn 5 (skipn 171 (out_of run_to_slot_62))
     = [Printf "%2d:  " [AInt 21]; Printf "%s" [AStr "???"];
        Printf "%*s" [AInt 49; AStr EmptyString];
        Printf "%3d.%03dms " [AInt 0; AInt 0]; Printf "\n" []].
Proof.
  split; [vm_compute; reflexivity|].
  split; [vm_compute; reflexivity|].
  split; [vm_compute; reflexivity|].
  vm_compute; reflexivity.
Qed.

(** ** What a trace prints *)

Lemma prints_app fmt a b : prints fmt (a ++ b) = prints fmt a || prints fmt b.
Proof. apply existsb_app. Qed.

Lemma prints_In fmt args tr : In (Printf fmt args) tr -> prints fmt tr = true.
Proof.
  intros H. apply existsb_exists. exists (Printf fmt args). split; [exact H|].
  simpl. apply String.eqb_refl.
Qed.

Lemma count_app P a b : count P (a ++ b) = (count P a + count P b)%nat.
Proof. induction a as [|ev a IH]; simpl; [reflexivity|]. rewrite IH. lia. Qed.

Lemma count_none P tr : existsb P tr = false -> count P tr = 0%nat.
Proof.
  induction tr as [|ev tr IH]; simpl; [reflexivity|].
  intros H. apply orb_false_iff in H. destruct H as [-> H]. rewrite IH by exact H.
  reflexivity.
Qed.

Lemma count_some P tr : existsb P tr = true -> (1 <= count P tr)%nat.
Proof.
  induction tr as [|ev tr IH]; simpl; [discriminate|].
  destruct (P ev); simpl; [lia|]. intros H. specialize (IH H). lia.
Qed.

Lemma count_le P Q tr :
  (forall ev, P ev = true -> Q ev = true) -> (count P tr <= count Q tr)%nat.
Proof.
  intros H. induction tr as [|ev tr IH]; simpl; [lia|].
  destruct (P ev) eqn:E; [rewrite (H ev E)|destruct (Q ev)]; lia.
Qed.

(** The unknown-control-message lines are the only output of the scan. *)
Lemma scan_cmsgs_prints fmt l : forall e r,
  String.eqb "cmsg6:%d\n " fmt = false -> String.eqb "cmsg4:%d\n " fmt = false ->
  prints fmt (scan_cmsgs l e r).2 = false.
Proof.
  intros e r H6 H4. revert e r.
  induction l as [|c l IH]; intros e r; simpl; [reflexivity|].
  assert (Hc : prints fmt (scan_cmsg c e r).2 = false).
  { unfold scan_cmsg, prints.
    repeat branch; cbn [snd existsb is_printf]; rewrite ?H6, ?H4; reflexivity. }
  destruct (scan_cmsg c e r) as [[e1 r1] o1]. specialize (IH e1 r1).
  destruct (scan_cmsgs l e1 r1) as [[e2 r2] o2]. simpl in *.
  rewrite prints_app, Hc, IH. reflexivity.
Qed.

Lemma print_origin_not_broken gni ctl ttl sndhops e :
  prints BROKEN (print_origin gni ctl ttl sndhops e) = false.
Proof.
  unfold print_origin, print_host.
  repeat branch; reflexivity.
Qed.

Lemma print_asymm_not_broken ttl sndhops rethops :
  prints BROKEN (print_asymm ttl sndhops rethops) = false.
Proof. unfold print_asymm. repeat branch; reflexivity. Qed.

Lemma classify_not_broken ctl ttl sndhops rethops progress e :
  prints BROKEN (classify ctl ttl sndhops rethops progress e).1.2 = false.
Proof.
  unfold classify. repeat branch; try reflexivity.
  simpl. rewrite prints_app, print_asymm_not_broken. reflexivity.
Qed.

(** The remark is printed exactly when the payload is flagged and a send
    time is known. *)
Lemma print_rtt_broken tv rettv broken :
  prints BROKEN (print_rtt tv rettv broken)
  = match rettv with Some _ => broken | None => false end.
Proof. destruct rettv, broken; reflexivity. Qed.

Lemma decode_out_prints fmt ctl ai_family m :
  String.eqb "cmsg6:%d\n " fmt = false -> String.eqb "cmsg4:%d\n " fmt = false ->
  prints fmt (d_out (decode ctl ai_family m)) = false.
Proof. intros H6 H4. unfold decode. cbn [d_out]. apply scan_cmsgs_prints; assumption. Qed.

Lemma recverr_msg_broken gni ctl ai_family ttl tv m :
  let d := decode ctl ai_family m in
  prints BROKEN (recverr_msg gni ctl ai_family ttl tv m).1.2
  = match d_e d, d_rettv d with
    | Some _, Some _ => d_broken_router d
    | _, _ => false
    end.
Proof.
  cbv zeta. destruct (d_e (decode ctl ai_family m)) as [e|] eqn:He.
  - rewrite (recverr_msg_some gni ctl ai_family ttl tv m e He). cbv zeta. cbn [fst snd].
    rewrite !prints_app, print_origin_not_broken, classify_not_broken, print_rtt_broken.
    rewrite decode_out_prints by reflexivity.
    rewrite orb_false_r. reflexivity.
  - rewrite (recverr_msg_none gni ctl ai_family ttl tv m He). cbn [fst snd].
    rewrite prints_app. rewrite decode_out_prints by reflexivity. reflexivity.
Qed.

(** ** C4: a corrupted echoed payload *)

(** What the payload check does with a full-size payload. *)
Lemma decode_payload_corrupt ctl ai_family m :
  recv_size m = sizeof_probehdr ->
  hdr_ttl (rcvbuf m) = 0 \/ tv_sec (hdr_tv (rcvbuf m)) = 0 ->
  let d := decode ctl ai_family m in
  let t := his_take (his ctl) (slot_of ctl ai_family m) in
  d_broken_router d = true /\ d_sndhops d = t.1.1 /\ d_rettv d = t.1.2.
Proof.
  intros Hs Hz. unfold decode. cbv zeta. cbn [d_broken_router d_sndhops d_rettv].
  unfold payload_check. rewrite Hs. cbn [Z.eqb sizeof_probehdr Pos.eqb].
  assert (E : (hdr_ttl (rcvbuf m) =? 0) || (tv_sec (hdr_tv (rcvbuf m)) =? 0) = true).
  { apply orb_true_iff. destruct Hz as [Hz|Hz]; [left|right]; apply Z.eqb_eq; exact Hz. }
  rewrite E. auto.
Qed.

Lemma decode_payload_trusted ctl ai_family m :
  recv_size m = sizeof_probehdr ->
  hdr_ttl (rcvbuf m) <> 0 -> tv_sec (hdr_tv (rcvbuf m)) <> 0 ->
  let d := decode ctl ai_family m in
  d_broken_router d = false
  /\ d_sndhops d = to_int32 (hdr_ttl (rcvbuf m))
  /\ d_rettv d = Some (hdr_tv (rcvbuf m)).
Proof.
  intros Hs Hz1 Hz2. unfold decode. cbv zeta. cbn [d_broken_router d_sndhops d_rettv].
  unfold payload_check. rewrite Hs. cbn [Z.eqb sizeof_probehdr Pos.eqb].
  assert (E : (hdr_ttl (rcvbuf m) =? 0) || (tv_sec (hdr_tv (rcvbuf m)) =? 0) = false).
  { apply orb_false_iff. split; apply Z.eqb_neq; assumption. }
  rewrite E. auto.
Qed.

(** A router answers with a full-size payload whose TTL field is zero, for a
    probe whose slot holds no record (as after a first answer to the same
    probe has released it).  The payload is flagged, yet nothing in the
    output says so. *)
Lemma corrupted_payload_not_annotated :
  recv_size (corrupted 44444 time_exceeded 60) = sizeof_probehdr
  /\ hdr_ttl (rcvbuf (corrupted 44444 time_exceeded 60)) = 0
  /\ d_broken_router (decode session AF_INET (corrupted 44444 time_exceeded 60)) = true
  /\ prints BROKEN
       (recverr_msg no_names session AF_INET 1 {| tv_sec := 101; tv_usec := 0 |}
          (corrupted 44444 time_exceeded 60)).1.2 = false.
Proof. repeat split; reflexivity. Qed.

(** C4, amended.  With a full-size echoed payload whose TTL field or
    timestamp seconds are zero the decoder flags a broken router and takes
    the send-side hop count and the send time from the history tracker, not
    from the payload; the remark on the corrupted payload is printed only
    when an error record is present and the tracker lookup matched, next to
    the round-trip time computed from the tracker's send time.  If both
    fields are non-zero the payload values replace the tracker's. *)
Theorem corrupted_payload_falls_back_on_tracker gni ctl ai_family ttl tv m :
  recv_size m = sizeof_probehdr ->
  let d := decode ctl ai_family m in
  let t := his_take (his ctl) (slot_of ctl ai_family m) in
  let out := (recverr_msg gni ctl ai_family ttl tv m).1.2 in
  (hdr_ttl (rcvbuf m) = 0 \/ tv_sec (hdr_tv (rcvbuf m)) = 0 ->
     d_broken_router d = true
     /\ d_sndhops d = t.1.1 /\ d_rettv d = t.1.2
     /\ (prints BROKEN out = true <-> d_e d <> None /\ t.1.2 <> None)
     /\ (forall e sent, d_e d = Some e -> t.1.2 = Some sent ->
           In (Printf "%3d.%03dms " [AInt (Z.quot (rtt_diff tv sent) 1000);
                                     AInt (Z.rem (rtt_diff tv sent) 1000)]) out))
  /\ (hdr_ttl (rcvbuf m) <> 0 /\ tv_sec (hdr_tv (rcvbuf m)) <> 0 ->
     d_broken_router d = false
     /\ d_sndhops d = to_int32 (hdr_ttl (rcvbuf m))
     /\ d_rettv d = Some (hdr_tv (rcvbuf m))
     /\ prints BROKEN out = false).
Proof.
  intros Hs. cbv zeta.
  pose proof (recverr_msg_broken gni ctl ai_family ttl tv m) as Hb. cbv zeta in Hb.
  split.
  - intros Hz.
    destruct (decode_payload_corrupt ctl ai_family m Hs Hz) as (H3 & H1 & H2).
    split; [exact H3|]. split; [exact H1|]. split; [exact H2|]. split.
    + rewrite Hb, H3, H2.
      destruct (d_e (decode ctl ai_family m)),
               ((his_take (his ctl) (slot_of ctl ai_family m)).1.2);
        split; try discriminate; try (intros [? ?]; congruence);
        intros _; split; discriminate.
    + intros e sent He Ht.
      rewrite (recverr_msg_some gni ctl ai_family ttl tv m e He). cbv zeta. cbn [fst snd].
      rewrite H2, Ht. apply in_or_app. right. apply in_or_app. right.
      apply in_or_app. left. left. reflexivity.
  - intros [Hz1 Hz2].
    destruct (decode_payload_trusted ctl ai_family m Hs Hz1 Hz2) as (H3 & H1 & H2).
    split; [exact H3|]. split; [exact H1|]. split; [exact H2|].
    rewrite Hb, H3. destruct (d_e _), (d_rettv _); reflexivity.
Qed.

Lemma corrupted_payload_falls_back_on_tracker_witness :
  let c := (probe_prepare session AF_INET 1 {| tv_sec := 100; tv_usec := 0 |}).2 in
  let m := corrupted 44444 time_exceeded 60 in
  d_sndhops (decode c AF_INET m) = 1
  /\ prints BROKEN
       (recverr_msg no_names c AF_INET 1 {| tv_sec := 101; tv_usec := 0 |} m).1.2 = true.
Proof.
  cbv zeta.
  destruct (corrupted_payload_falls_back_on_tracker no_names
              (probe_prepare session AF_INET 1 {| tv_sec := 100; tv_usec := 0 |}).2
              AF_INET 1 {| tv_sec := 101; tv_usec := 0 |}
              (corrupted 44444 time_exceeded 60) eq_refl) as [H _].
  destruct (H (or_introl eq_refl)) as (_ & H1 & _ & H3 & _).
  split; [exact H1|]. apply H3. split; discriminate.
Defined.

(** ** Asymmetry and the receive-side value *)

Lemma print_asymm_spec ttl sndhops rethops :
  print_asymm ttl sndhops rethops
  = if (0 <=? rethops) && negb (rethops =? (if sndhops <? 0 then ttl else sndhops))
    then [Printf "asymm %2d " [AInt rethops]]
    else [].
Proof.
  unfold print_asymm.
  destruct (0 <=? rethops); [|reflexivity].
  destruct (sndhops <? 0) eqn:E1; destruct (0 <=? sndhops) eqn:E2; bools; try lia;
    simpl; destruct (negb _); reflexivity.
Qed.

(** A host-unreachable notification, canonical or not. *)
Lemma recverr_msg_hostunreach gni ctl ai_family ttl tv m e :
  d_e (decode ctl ai_family m) = Some e -> ee_errno e = EHOSTUNREACH ->
  let d := decode ctl ai_family m in
  let head := d_out d ++ print_origin gni (d_ctl d) ttl (d_sndhops d) e
                ++ print_rtt tv (d_rettv d) (d_broken_router d) in
  recverr_msg gni ctl ai_family ttl tv m
  = if ttl_exceeded e
    then (d_ctl d,
          head ++ print_asymm ttl (d_sndhops d) (rethops_norm (d_rethops d))
               ++ [Printf "\n" []],
          Restart (mtu ctl))
    else (d_ctl d, head ++ [Printf "!H\n" []], Return 0).
Proof.
  intros He Hno. cbv zeta.
  rewrite (recverr_msg_some gni ctl ai_family ttl tv m e He). cbv zeta.
  rewrite classify_hostunreach by exact Hno.
  destruct (ttl_exceeded e); cbn [fst snd]; rewrite <- ?app_assoc; reflexivity.
Qed.

(** A port-unreachable notification. *)
Lemma recverr_msg_reached gni ctl ai_family ttl tv m e :
  d_e (decode ctl ai_family m) = Some e -> ee_errno e = ECONNREFUSED ->
  let d := decode ctl ai_family m in
  recverr_msg gni ctl ai_family ttl tv m
  = (set_hops (if d_sndhops d <? 0 then ttl else d_sndhops d)
              (rethops_norm (d_rethops d)) (d_ctl d),
     d_out d ++ print_origin gni (d_ctl d) ttl (d_sndhops d) e
       ++ print_rtt tv (d_rettv d) (d_broken_router d) ++ [Printf "reached\n" []],
     Return 0).
Proof.
  intros He Hno. cbv zeta.
  rewrite (recverr_msg_some gni ctl ai_family ttl tv m e He). cbv zeta.
  rewrite classify_reached by exact Hno. reflexivity.
Qed.

(** ** C5: the received hop limit *)

(** The hop limit the decoder works with is the value of the last hop-limit
    control message of the notification. *)
Lemma decode_hoplimit ctl ai_family m l1 c l2 :
  cmsgs m = l1 ++ c :: l2 ->
  is_hoplimit c = true ->
  forallb (fun c => negb (is_hoplimit c)) l2 = true ->
  d_rethops (decode ctl ai_family m) = received_hop_limit c.
Proof.
  intros Hm Hc Hl2. unfold decode. cbn [d_rethops]. rewrite Hm, scan_cmsgs_app.
  cbv zeta. cbn [fst snd scan_cmsgs].
  pose proof (scan_cmsg_hoplimit c (scan_cmsgs l1 None (-1)).1.1
                (scan_cmsgs l1 None (-1)).1.2) as H.
  rewrite Hc in H. fold (received_hop_limit c) in H.
  destruct (scan_cmsg c _ _) as [[e1 r1] o1]. cbn [fst snd] in H. subst r1.
  pose proof (scan_cmsgs_no_hoplimit l2 e1 (received_hop_limit c) Hl2) as H.
  destruct (scan_cmsgs l2 e1 _) as [[e2 r2] o2]. exact H.
Qed.

Lemma received_hop_limit_range c : INT_MIN <= received_hop_limit c <= INT_MAX.
Proof.
  unfold received_hop_limit. destruct (cmsg_level c =? SOL_IPV6).
  - unfold data_int. destruct (cmsg_data c); apply to_int32_range.
  - unfold data_u8, INT_MIN, INT_MAX.
    destruct (cmsg_data c);
      match goal with |- _ <= to_uint8 ?z <= _ => pose proof (to_uint8_range z) end; lia.
Qed.

(** C5.  A notification whose control data carries a received hop limit
    [h] (the value of its last hop-limit control message: the byte of
    [IP_TTL], the [int] of [IPV6_HOPLIMIT]) is decoded with the receive-side
    hop count [65 - h] when [h <= 64], [129 - h] when [64 < h <= 128] and
    [256 - h] otherwise, for every [h] for which the C subtraction does not
    overflow (so for every hop limit a packet can carry).  This is the
    value recorded as the reverse hop count when the notification reports
    the destination reached, and the value of the asymmetry annotation of a
    "time exceeded" notification. *)
Theorem receive_side_hop_count gni ctl ai_family ttl tv m l1 c l2 e :
  cmsgs m = l1 ++ c :: l2 ->
  is_hoplimit c = true ->
  forallb (fun c => negb (is_hoplimit c)) l2 = true ->
  d_e (decode ctl ai_family m) = Some e ->
  let h := received_hop_limit c in
  INT_MIN + 65 < h ->
  let d := decode ctl ai_family m in
  let r := recverr_msg gni ctl ai_family ttl tv m in
  d_rethops d = h
  /\ rethops_norm (d_rethops d) = spec_hop_count h
  /\ (ee_errno e = ECONNREFUSED -> hops_from r.1.1 = spec_hop_count h)
  /\ (ee_errno e = EHOSTUNREACH -> ttl_exceeded e = true ->
      0 <= spec_hop_count h ->
      (if d_sndhops d <? 0 then ttl else d_sndhops d) <> spec_hop_count h ->
      In (Printf "asymm %2d " [AInt (spec_hop_count h)]) r.1.2).
Proof.
  intros Hm Hc Hl2 He h Hh. cbv zeta.
  pose proof (decode_hoplimit ctl ai_family m l1 c l2 Hm Hc Hl2) as Hd. fold h in Hd.
  assert (Hn : rethops_norm (d_rethops (decode ctl ai_family m)) = spec_hop_count h).
  { rewrite Hd. apply rethops_norm_exact.
    pose proof (received_hop_limit_range c) as R. fold h in R. lia. }
  split; [exact Hd|]. split; [exact Hn|]. split.
  - intros Herr.
    rewrite (recverr_msg_reached gni ctl ai_family ttl tv m e He Herr).
    cbn [fst snd]. rewrite Hn. reflexivity.
  - intros Herr Hcanon Hpos Hne.
    rewrite (recverr_msg_hostunreach gni ctl ai_family ttl tv m e He Herr).
    rewrite Hcanon. cbn [fst snd]. rewrite Hn, print_asymm_spec.
    assert (E1 : (0 <=? spec_hop_count h) = true) by (apply Z.leb_le; exact Hpos).
    assert (E2 : (spec_hop_count h
                  =? (if d_sndhops (decode ctl ai_family m) <? 0 then ttl
                      else d_sndhops (decode ctl ai_family m))) = false)
      by (apply Z.eqb_neq; lia).
    rewrite E1, E2. cbn [andb negb].
    apply in_or_app. right. left. reflexivity.
Qed.

(** Port-unreachable answers that arrive with the TTLs 57, 120 and 250, and
    a time-exceeded answer to the probe with TTL 3 that arrives with
    TTL 250. *)
Lemma receive_side_hop_count_witness :
  hops_from (recverr_msg no_names session AF_INET 3 tv_zero
               (notification 44444 port_unreachable 57)).1.1 = 8
  /\ hops_from (recverr_msg no_names session AF_INET 3 tv_zero
                  (notification 44444 port_unreachable 120)).1.1 = 9
  /\ hops_from (recverr_msg no_names session AF_INET 3 tv_zero
                  (notification 44444 port_unreachable 250)).1.1 = 6
  /\ In (Printf "asymm %2d " [AInt 6])
        (recverr_msg no_names session AF_INET 3 tv_zero
           (notification 44444 time_exceeded 250)).1.2.
Proof.
  assert (R : forall z, 0 <= z <= 255 -> INT_MIN + 65 < z)
    by (unfold INT_MIN; lia).
  split; [|split; [|split]].
  - destruct (receive_side_hop_count no_names session AF_INET 3 tv_zero
                (notification 44444 port_unreachable 57)
                [ {| cmsg_level := SOL_IP; cmsg_type := IP_RECVERR;
                     cmsg_data := CmsgErr port_unreachable |} ]
                {| cmsg_level := SOL_IP; cmsg_type := IP_TTL; cmsg_data := CmsgInt 57 |}
                [] port_unreachable eq_refl eq_refl eq_refl eq_refl (R 57 ltac:(lia)))
      as (_ & _ & H & _).
    exact (H eq_refl).
  - destruct (receive_side_hop_count no_names session AF_INET 3 tv_zero
                (notification 44444 port_unreachable 120)
                [ {| cmsg_level := SOL_IP; cmsg_type := IP_RECVERR;
                     cmsg_data := CmsgErr port_unreachable |} ]
                {| cmsg_level := SOL_IP; cmsg_type := IP_TTL; cmsg_data := CmsgInt 120 |}
                [] port_unreachable eq_refl eq_refl eq_refl eq_refl (R 120 ltac:(lia)))
      as (_ & _ & H & _).
    exact (H eq_refl).
  - destruct (receive_side_hop_count no_names session AF_INET 3 tv_zero
                (notification 44444 port_unreachable 250)
                [ {| cmsg_level := SOL_IP; cmsg_type := IP_RECVERR;
                     cmsg_data := CmsgErr port_unreachable |} ]
                {| cmsg_level := SOL_IP; cmsg_type := IP_TTL; cmsg_data := CmsgInt 250 |}
                [] port_unreachable eq_refl eq_refl eq_refl eq_refl (R 250 ltac:(lia)))
      as (_ & _ & H & _).
    exact (H eq_refl).
  - destruct (receive_side_hop_count no_names session AF_INET 3 tv_zero
                (notification 44444 time_exceeded 250)
                [ {| cmsg_level := SOL_IP; cmsg_type := IP_RECVERR;
                     cmsg_data := CmsgErr time_exceeded |} ]
                {| cmsg_level := SOL_IP; cmsg_type := IP_TTL; cmsg_data := CmsgInt 250 |}
                [] time_exceeded eq_refl eq_refl eq_refl eq_refl (R 250 ltac:(lia)))
      as (_ & _ & _ & H).
    apply H; [reflexivity | reflexivity | vm_compute; discriminate | vm_compute; discriminate].
Defined.

(** ** C10: no hop limit in the control data *)

Lemma decode_no_hoplimit ctl ai_family m :
  forallb (fun c => negb (is_hoplimit c)) (cmsgs m) = true ->
  d_rethops (decode ctl ai_family m) = -1.
Proof. intros H. unfold decode. cbn [d_rethops]. apply scan_cmsgs_no_hoplimit. exact H. Qed.

(** C10.  When no control message carries a hop limit, [rethops] keeps its
    initial [-1] and the receive-side hop count becomes 66: a notification
    that reports the destination reached records 66 as the reverse hop
    count, and a canonical host-unreachable notification is annotated with
    "asymm 66" whenever the send-side value (or the probe TTL, when none was
    resolved) is not 66. *)
Theorem missing_hop_limit_counts_as_66 gni ctl ai_family ttl tv m e :
  forallb (fun c => negb (is_hoplimit c)) (cmsgs m) = true ->
  d_e (decode ctl ai_family m) = Some e ->
  let d := decode ctl ai_family m in
  let r := recverr_msg gni ctl ai_family ttl tv m in
  rethops_norm (d_rethops d) = 66
  /\ (ee_errno e = ECONNREFUSED -> hops_from r.1.1 = 66)
  /\ (ee_errno e = EHOSTUNREACH -> ttl_exceeded e = true ->
      (if d_sndhops d <? 0 then ttl else d_sndhops d) <> 66 ->
      In (Printf "asymm %2d " [AInt 66]) r.1.2).
Proof.
  intros Hno He. cbv zeta.
  assert (H66 : rethops_norm (d_rethops (decode ctl ai_family m)) = 66)
    by (rewrite decode_no_hoplimit by exact Hno; reflexivity).
  split; [exact H66|]. split.
  - intros Herr.
    rewrite (recverr_msg_reached gni ctl ai_family ttl tv m e He Herr).
    cbn [fst snd]. rewrite H66. reflexivity.
  - intros Herr Hcanon Hne.
    rewrite (recverr_msg_hostunreach gni ctl ai_family ttl tv m e He Herr).
    rewrite Hcanon. cbn [fst snd]. rewrite H66, print_asymm_spec.
    assert (E : (66 =? (if d_sndhops (decode ctl ai_family m) <? 0 then ttl
                        else d_sndhops (decode ctl ai_family m))) = false)
      by (apply Z.eqb_neq; lia).
    rewrite E. cbn [Z.leb Z.compare andb negb].
    apply in_or_app. right. left. reflexivity.
Qed.

(** A port-unreachable answer and a time-exceeded answer to the probe with
    TTL 3, both without a hop limit in the control data. *)
Lemma missing_hop_limit_counts_as_66_witness :
  hops_from (recverr_msg no_names session AF_INET 3 tv_zero
               (bare 44444 port_unreachable)).1.1 = 66
  /\ In (Printf "asymm %2d " [AInt 66])
        (recverr_msg no_names session AF_INET 3 tv_zero (bare 44444 time_exceeded)).1.2.
Proof.
  split.
  - destruct (missing_hop_limit_counts_as_66 no_names session AF_INET 3 tv_zero
                (bare 44444 port_unreachable) port_unreachable eq_refl eq_refl)
      as (_ & H & _).
    exact (H eq_refl).
  - destruct (missing_hop_limit_counts_as_66 no_names session AF_INET 3 tv_zero
                (bare 44444 time_exceeded) time_exceeded eq_refl eq_refl)
      as (_ & _ & H).
    apply H; [reflexivity | reflexivity | discriminate].
Defined.

(** ** Events of the decoder, by shape

    Each part of the decoder's output uses a few formats only; a predicate
    that rejects them rejects the whole part. *)

Section Shapes.
Variable P : event -> bool.

Lemma scan_cmsgs_none l : forall e r,
  (forall a, P (Printf "cmsg6:%d\n " a) = false) ->
  (forall a, P (Printf "cmsg4:%d\n " a) = false) ->
  existsb P (scan_cmsgs l e r).2 = false.
Proof using Type.
  intros e r H6 H4. revert e r.
  induction l as [|c l IH]; intros e r; simpl; [reflexivity|].
  assert (Hc : existsb P (scan_cmsg c e r).2 = false).
  { unfold scan_cmsg.
    repeat branch; cbn [snd existsb]; rewrite ?H6, ?H4; reflexivity. }
  destruct (scan_cmsg c e r) as [[e1 r1] o1]. specialize (IH e1 r1).
  destruct (scan_cmsgs l e1 r1) as [[e2 r2] o2]. cbn [snd] in *.
  rewrite existsb_app, Hc, IH. reflexivity.
Qed.

Lemma print_origin_none gni ctl ttl sndhops e :
  (forall a, P (Printf "%2d?: %-32s " a) = false) ->
  (forall a, P (Printf "%2d:  " a) = false) ->
  (forall a, P (Printf "%2d?: " a) = false) ->
  (forall a, P (Printf "%s" a) = false) ->
  (forall a, P (Printf " (%s)" a) = false) ->
  (forall a, P (Printf "%*s" a) = false) ->
  P Fflush = false ->
  existsb P (print_origin gni ctl ttl sndhops e) = false.
Proof using Type.
  intros H1 H2 H3 H4 H5 H6 H7. unfold print_origin, print_host.
  repeat branch; cbn [existsb app]; rewrite ?H1, ?H2, ?H3, ?H4, ?H5, ?H6, ?H7;
    reflexivity.
Qed.

Lemma print_rtt_none tv rettv broken :
  (forall a, P (Printf "%3d.%03dms " a) = false) ->
  (forall a, P (Printf BROKEN a) = false) ->
  existsb P (print_rtt tv rettv broken) = false.
Proof using Type.
  intros H1 H2. unfold print_rtt, BROKEN in *.
  destruct rettv, broken; cbn [existsb app]; rewrite ?H1, ?H2; reflexivity.
Qed.

Lemma print_asymm_none ttl sndhops rethops :
  (forall a, P (Printf "asymm %2d " a) = false) ->
  existsb P (print_asymm ttl sndhops rethops) = false.
Proof using Type.
  intros H1. unfold print_asymm.
  repeat branch; cbn [existsb]; rewrite ?H1; reflexivity.
Qed.

Lemma recverr_msg_head gni ctl ai_family ttl tv m e :
  head_shapes P ->
  d_e (decode ctl ai_family m) = Some e ->
  let d := decode ctl ai_family m in
  existsb P (recverr_msg gni ctl ai_family ttl tv m).1.2
  = existsb P (classify (d_ctl d) ttl (d_sndhops d) (rethops_norm (d_rethops d))
                        (mtu ctl) e).1.2.
Proof using Type.
  intros (H1 & H2 & H3 & H4 & H5 & H6 & H7 & H8 & H9 & H10 & H11) He. cbv zeta.
  rewrite (recverr_msg_some gni ctl ai_family ttl tv m e He). cbv zeta. cbn [fst snd].
  rewrite !existsb_app.
  rewrite print_origin_none, print_rtt_none by assumption.
  unfold decode at 1. cbn [d_out]. rewrite scan_cmsgs_none by assumption.
  reflexivity.
Qed.

Lemma recverr_msg_noinfo gni ctl ai_family ttl tv m :
  head_shapes P ->
  d_e (decode ctl ai_family m) = None ->
  existsb P (recverr_msg gni ctl ai_family ttl tv m).1.2
  = P (Printf "no info\n" []).
Proof using Type.
  intros (H1 & H2 & _) He.
  rewrite (recverr_msg_none gni ctl ai_family ttl tv m He). cbn [fst snd].
  rewrite existsb_app. unfold decode at 1. cbn [d_out].
  rewrite scan_cmsgs_none by assumption. cbn [existsb orb].
  apply orb_false_r.
Qed.
End Shapes.

Ltac shapes := unfold head_shapes, BROKEN; repeat split; intros; reflexivity.

(** ** The MTU estimate along a trace *)

Lemma mtu_after_app m a b : mtu_after m (a ++ b) = mtu_after (mtu_after m a) b.
Proof. apply fold_left_app. Qed.

Lemma sends_exact_app ovh a : forall m b,
  sends_exact ovh m (a ++ b)
  <-> sends_exact ovh m a /\ sends_exact ovh (mtu_after m a) b.
Proof.
  induction a as [|ev a IH]; intros m b; simpl; [tauto|].
  rewrite IH. unfold mtu_after. tauto.
Qed.

Lemma mtu_step_not_pmtu m ev : is_pmtu ev = false -> mtu_step m ev = m.
Proof.
  unfold is_pmtu, is_printf, mtu_step. destruct ev; try reflexivity.
  intros ->. destruct args as [|[v|s] [|? ?]]; reflexivity.
Qed.

Lemma mtu_after_no_pmtu tr : forall m, existsb is_pmtu tr = false -> mtu_after m tr = m.
Proof.
  induction tr as [|ev tr IH]; intros m H; [reflexivity|].
  simpl in H. apply orb_false_iff in H. destruct H as [H1 H2].
  unfold mtu_after. simpl. rewrite mtu_step_not_pmtu by exact H1. apply IH. exact H2.
Qed.

Lemma sends_exact_no_send ovh tr : forall m,
  existsb is_send tr = false -> sends_exact ovh m tr.
Proof.
  induction tr as [|ev tr IH]; intros m H; simpl; [exact I|].
  simpl in H. apply orb_false_iff in H. destruct H as [H1 H2].
  split; [destruct ev; try exact I; discriminate | apply IH; exact H2].
Qed.

Lemma tracks_refl c : tracks c c [].
Proof. unfold tracks, steady. simpl. auto 10. Qed.

Lemma tracks_trans a b c o1 o2 :
  tracks a b o1 -> tracks b c o2 -> tracks a c (o1 ++ o2).
Proof.
  intros ((A1 & A2 & A3 & A4) & Am & As & Ah) ((B1 & B2 & B3 & B4) & Bm & Bs & Bh).
  split; [|split; [|split]].
  - unfold steady. repeat split; congruence.
  - rewrite mtu_after_app, <- Am. exact Bm.
  - intros Ha. destruct (As Ha) as [Hb Hs1]. destruct (Bs Hb) as [Hc Hs2].
    split; [exact Hc|]. apply sends_exact_app. split; [exact Hs1|].
    rewrite <- Am, <- A1. exact Hs2.
  - rewrite prints_app. intros H. apply orb_false_iff in H. destruct H as [H1 H2].
    destruct (Ah H1) as [E1 E2]. destruct (Bh H2) as [E3 E4]. split; congruence.
Qed.

(** A step that prints neither a [pmtu] line nor sends, and leaves the
    estimate, the hop counts and the settings alone. *)
Lemma tracks_silent c c' out :
  steady c c' -> mtu c' = mtu c ->
  hops_to c' = hops_to c /\ hops_from c' = hops_from c ->
  existsb is_pmtu out = false -> existsb is_send out = false ->
  tracks c c' out.
Proof.
  intros Hst Hm Hh Hp Hs. split; [exact Hst|]. split; [|split].
  - rewrite mtu_after_no_pmtu by exact Hp. exact Hm.
  - intros [S1 S2]. split.
    + destruct Hst as (H1 & _). unfold sane. rewrite Hm, H1. auto.
    + apply sends_exact_no_send. exact Hs.
  - intros _. exact Hh.
Qed.

Lemma tracks_set_his c h : tracks c (set_his h c) [].
Proof. apply tracks_silent; unfold steady; simpl; auto. Qed.

Lemma tracks_set_hisptr c p : tracks c (set_hisptr p c) [].
Proof. apply tracks_silent; unfold steady; simpl; auto. Qed.

Lemma classify_tracks ctl ttl sndhops rethops progress e :
  let c := classify ctl ttl sndhops rethops progress e in
  tracks ctl c.1.1 c.1.2.
Proof.
  cbv zeta. unfold classify.
  repeat branch; cbn [fst snd];
    first
      [ (* no estimate, no hop count written *)
        apply tracks_silent;
        [ unfold steady; simpl; auto | reflexivity | split; reflexivity
        | first [ reflexivity
                | rewrite existsb_app, print_asymm_none by (intros; reflexivity);
                  reflexivity ]
        | first [ reflexivity
                | rewrite existsb_app, print_asymm_none by (intros; reflexivity);
                  reflexivity ] ]
      | (* EMSGSIZE *)
        split; [unfold steady; simpl; auto|]; split; [reflexivity|]; split;
        [ intros [S1 S2]; split;
          [split; [apply to_int32_range | exact S2] | simpl; auto]
        | intros _; split; reflexivity ]
      | (* ECONNREFUSED *)
        split; [unfold steady; simpl; auto|]; split; [reflexivity|]; split;
        [ intros Hs; split; [exact Hs | simpl; auto] | discriminate ] ].
Qed.

Lemma recverr_msg_tracks gni ctl ai_family ttl tv m :
  let r := recverr_msg gni ctl ai_family ttl tv m in
  tracks ctl r.1.1 r.1.2 /\ existsb is_send r.1.2 = false.
Proof.
  cbv zeta. set (d := decode ctl ai_family m).
  assert (Hd : tracks ctl (d_ctl d) (d_out d)).
  { subst d. unfold decode. cbn [d_ctl d_out].
    apply tracks_silent; try (unfold steady; simpl; auto; fail);
      apply scan_cmsgs_none; intros; reflexivity. }
  destruct (d_e d) as [e|] eqn:He.
  - split.
    + rewrite (recverr_msg_some gni ctl ai_family ttl tv m e He). cbv zeta. cbn [fst snd].
      fold d. apply (tracks_trans _ (d_ctl d)); [exact Hd|].
      replace (mtu ctl) with (mtu (d_ctl d)) by (subst d; reflexivity).
      apply (tracks_trans _ (d_ctl d)).
      { apply tracks_silent; try (unfold steady; auto; fail);
          apply print_origin_none; intros; reflexivity. }
      apply (tracks_trans _ (d_ctl d)).
      { apply tracks_silent; try (unfold steady; auto; fail);
          apply print_rtt_none; intros; reflexivity. }
      apply classify_tracks.
    + rewrite (recverr_msg_head is_send gni ctl ai_family ttl tv m e) by (shapes || exact He).
      cbv zeta. unfold classify.
      repeat branch; cbn [fst snd]; try reflexivity.
      rewrite existsb_app, print_asymm_none by (intros; reflexivity). reflexivity.
  - split.
    + rewrite (recverr_msg_none gni ctl ai_family ttl tv m He). cbn [fst snd]. fold d.
      apply (tracks_trans _ (d_ctl d)); [exact Hd|].
      apply tracks_silent; try (unfold steady; auto; fail); reflexivity.
    + rewrite (recverr_msg_noinfo is_send gni ctl ai_family ttl tv m) by (shapes || exact He).
      reflexivity.
Qed.

Lemma recverr_from_tracks q : forall ctl w ai_family ttl progress,
  let x := recverr_from q ctl w ai_family ttl progress in
  tracks ctl (ctl_of x) (out_of x) /\ existsb is_send (out_of x) = false.
Proof.
  induction q as [|r q IH]; intros ctl w ai_family ttl progress; cbv zeta; simpl.
  - destruct (gettimeofday w). split; [apply tracks_refl | reflexivity].
  - destruct (gettimeofday w) as [tv w1]. destruct r as [| |m].
    + apply IH.
    + split; [apply tracks_refl | reflexivity].
    + pose proof (recverr_msg_tracks (getnameinfo w1) ctl ai_family ttl tv m) as [H1 H2].
      cbv zeta in H1, H2.
      destruct (recverr_msg (getnameinfo w1) ctl ai_family ttl tv m) as [[c1 o1] oc].
      cbn [fst snd] in H1, H2. destruct oc as [r|p]; [split; assumption|].
      specialize (IH c1 w1 ai_family ttl p). cbv zeta in IH.
      destruct (recverr_from q c1 w1 ai_family ttl p) as [[[r2 c2] w2] o2].
      unfold ctl_of, out_of in *. cbn [fst snd] in *. destruct IH as [I1 I2].
      split; [apply (tracks_trans _ c1); assumption|].
      rewrite existsb_app, H2, I2. reflexivity.
Qed.

(** ** C3: the length of a probe *)

Lemma probe_prepare_tracks ctl ai_family ttl now :
  let c := (probe_prepare ctl ai_family ttl now).2 in
  tracks ctl c [] /\ mtu c = mtu ctl /\ overhead c = overhead ctl.
Proof.
  cbv zeta. unfold probe_prepare. cbn [snd].
  repeat branch; (split; [|split; reflexivity]);
    apply tracks_silent; unfold steady; simpl; auto.
Qed.

(** The [sendto] of line 359. *)
Lemma tracks_send c hdr port :
  tracks c c [Sendto hdr port (to_size_t (mtu c - overhead c))].
Proof.
  split; [unfold steady; auto|]. split; [reflexivity|]. split.
  - intros [S1 S2]. split; [split; assumption|]. simpl. split; [|exact I].
    intros Hlt. apply to_size_t_id. lia.
  - intros _. split; reflexivity.
Qed.

Lemma probe_finish_tracks ctl w ai_family ttl sent :
  let x := probe_finish ctl w ai_family ttl sent in
  tracks ctl (ctl_of x) (out_of x).
Proof.
  cbv zeta. unfold probe_finish. destruct sent.
  - destruct (recv w) as [got w1]. destruct got.
    + apply tracks_silent; unfold steady; simpl; auto.
    + pose proof (recverr_from_tracks (errqueue w1)
                    (set_hisptr (Z.land (hisptr ctl + 1) 63) ctl) w1 ai_family ttl (-1))
        as [H _]. cbv zeta in H. unfold recverr.
      destruct (recverr_from _ _ _ _ _ _) as [[[r c] w2] o].
      unfold ctl_of, out_of in *. cbn [fst snd] in *.
      set (cp := set_hisptr (Z.land (hisptr ctl + 1) 63) ctl) in *.
      apply (tracks_trans ctl cp c [] (DataWait :: o)); [apply tracks_set_hisptr|].
      apply (tracks_trans cp cp c [DataWait] o); [|exact H].
      apply tracks_silent; unfold steady; auto.
  - apply tracks_silent; unfold steady; simpl; auto.
Qed.

Lemma probe_loop_tracks fuel : forall ctl w ai_family ttl i,
  let x := probe_loop fuel ctl w ai_family ttl i in
  tracks ctl (ctl_of x) (out_of x).
Proof.
  induction fuel as [|fuel IH]; intros ctl w ai_family ttl i; cbv zeta; cbn [probe_loop].
  - apply tracks_refl.
  - destruct (i <? 10).
    + destruct (gettimeofday w) as [now w1].
      pose proof (probe_prepare_tracks ctl ai_family ttl now) as (Hp & Hm & Ho).
      cbv zeta in Hp, Hm, Ho.
      destruct (probe_prepare ctl ai_family ttl now) as [hdr c1]. cbn [snd] in *.
      destruct (sendto w1) as [ok w2].
      assert (Hs : tracks ctl c1 [Sendto hdr (target_port c1)
                                        (to_size_t (mtu c1 - overhead c1))]).
      { apply (tracks_trans ctl c1 c1 [] _ Hp). apply tracks_send. }
      destruct ok.
      * pose proof (probe_finish_tracks c1 w2 ai_family ttl true) as Hf. cbv zeta in Hf.
        destruct (probe_finish c1 w2 ai_family ttl true) as [[[r c2] w3] o].
        unfold ctl_of, out_of in *. cbn [fst snd] in *.
        apply (tracks_trans ctl c1 c2 [_] o Hs Hf).
      * pose proof (recverr_from_tracks (errqueue w2) c1 w2 ai_family ttl (-1)) as [Hr _].
        cbv zeta in Hr. unfold recverr.
        destruct (recverr_from _ _ _ _ _ _) as [[[res c2] w3] o].
        unfold ctl_of, out_of in *. cbn [fst snd] in *.
        set (c3 := set_his (his_clear (his c2) (hisptr c2)) c2).
        assert (H3 : tracks ctl c3 ([Sendto hdr (target_port c1)
                                       (to_size_t (mtu c1 - overhead c1))] ++ o)).
        { apply (tracks_trans ctl c1 c3 _ o Hs).
          rewrite <- (app_nil_r o).
          apply (tracks_trans c1 c2 c3 o [] Hr). apply tracks_set_his. }
        destruct (res =? 0); [exact H3|].
        specialize (IH c3 w3 ai_family ttl (if 0 <? res then 0 else i + 1)).
        cbv zeta in IH.
        destruct (probe_loop fuel c3 w3 ai_family ttl _) as [[[r c4] w4] o'].
        cbn [fst snd] in *.
        change (Sendto hdr (target_port c1) (to_size_t (mtu c1 - overhead c1)) :: o ++ o')
          with (([Sendto hdr (target_port c1) (to_size_t (mtu c1 - overhead c1))] ++ o) ++ o').
        apply (tracks_trans ctl c3 c4 _ o' H3 IH).
    + pose proof (probe_finish_tracks ctl w ai_family ttl false) as Hf. cbv zeta in Hf.
      destruct (probe_finish ctl w ai_family ttl false) as [[[r c2] w3] o].
      exact Hf.
Qed.

Lemma attempts_tracks fuel : forall ctl w ai_family ttl i,
  let x := attempts fuel ctl w ai_family ttl i in
  tracks ctl (ctl_of x) (out_of x).
Proof.
  induction fuel as [|fuel IH]; intros ctl w ai_family ttl i; cbv zeta; cbn [attempts].
  - apply tracks_refl.
  - destruct (i <? 3).
    + pose proof (probe_loop_tracks fuel ctl w ai_family ttl 0) as Hp. cbv zeta in Hp.
      unfold probe_ttl.
      destruct (probe_loop fuel ctl w ai_family ttl 0) as [[[res c1] w1] o].
      unfold ctl_of, out_of in *. cbn [fst snd] in *.
      destruct res as [res|]; [|exact Hp].
      destruct (negb (mtu c1 =? mtu ctl)).
      * specialize (IH c1 w1 ai_family ttl 0). cbv zeta in IH.
        destruct (attempts fuel c1 w1 ai_family ttl 0) as [[[s c2] w2] o'].
        cbn [fst snd] in *. apply (tracks_trans ctl c1 c2 o o' Hp IH).
      * destruct (res =? 0); [exact Hp|]. destruct (0 <? res); [exact Hp|].
        specialize (IH c1 w1 ai_family ttl (i + 1)). cbv zeta in IH.
        destruct (attempts fuel c1 w1 ai_family ttl (i + 1)) as [[[s c2] w2] o'].
        cbn [fst snd] in *. apply (tracks_trans ctl c1 c2 o o' Hp IH).
    + apply tracks_silent; unfold steady; auto.
Qed.

Lemma resume_silent ctl :
  existsb is_pmtu (resume ctl) = false /\ existsb is_send (resume ctl) = false.
Proof. unfold resume. repeat branch; split; reflexivity. Qed.

Lemma set_hop_limit_silent ctl w ai_family ttl :
  let x := set_hop_limit ctl w ai_family ttl in
  existsb is_pmtu x.2 = false /\ existsb is_send x.2 = false.
Proof.
  cbv zeta. unfold set_hop_limit, setsockopt.
  repeat (branch || destruct (syscall_fails _) as [[|] ?]); cbn [snd app]; split; reflexivity.
Qed.

Lemma hop_loop_tracks fuel : forall ctl w ai_family ttl,
  let x := hop_loop fuel ctl w ai_family ttl in
  tracks ctl (ctl_of x) (out_of x).
Proof.
  induction fuel as [|fuel IH]; intros ctl w ai_family ttl; cbv zeta; cbn [hop_loop].
  - destruct (ttl <=? max_hops ctl); [apply tracks_refl|].
    pose proof (resume_silent ctl) as [R1 R2].
    apply tracks_silent; unfold steady, out_of; cbn [snd existsb]; auto.
  - destruct (ttl <=? max_hops ctl).
    + pose proof (set_hop_limit_silent ctl w ai_family ttl) as [S1 S2]. cbv zeta in S1, S2.
      destruct (set_hop_limit ctl w ai_family ttl) as [[r w1] o1]. cbn [snd] in *.
      assert (H1 : tracks ctl ctl o1) by (apply tracks_silent; unfold steady; auto).
      destruct r as [[]|n]; [|exact H1].
      pose proof (attempts_tracks fuel ctl w1 ai_family ttl 0) as Ha. cbv zeta in Ha.
      destruct (attempts fuel ctl w1 ai_family ttl 0) as [[[s c2] w2] o2].
      unfold ctl_of, out_of in *. cbn [fst snd] in *.
      pose proof (tracks_trans ctl ctl c2 o1 o2 H1 Ha) as H12.
      destruct s.
      * pose proof (resume_silent c2) as [R1 R2].
        rewrite app_assoc. apply (tracks_trans ctl c2 c2 _ _ H12).
        apply tracks_silent; unfold steady; auto.
      * specialize (IH c2 w2 ai_family (ttl + 1)). cbv zeta in IH.
        destruct (hop_loop fuel c2 w2 ai_family (ttl + 1)) as [[[r3 c3] w3] o3].
        cbn [fst snd] in *. rewrite app_assoc. apply (tracks_trans ctl c2 c3 _ _ H12 IH).
      * exact H12.
    + pose proof (resume_silent ctl) as [R1 R2].
      apply tracks_silent; unfold steady, out_of; cbn [snd existsb]; auto.
Qed.

Lemma setup_inet_spec ctl w :
  let x := setup_inet ctl w in
  existsb is_pmtu x.2 = false /\ existsb is_send x.2 = false
  /\ match x.1.1 with
     | Exit n => n = 1
     | Go c => c = (if mtu ctl =? 0 then set_mtu 65535 (set_overhead 28 ctl)
                    else set_overhead 28 ctl)
               /\ overhead c < mtu c
     end.
Proof.
  cbv zeta. unfold setup_inet, setsockopt, pktlen_error.
  cbn [mtu overhead set_overhead].
  repeat (branch || destruct (syscall_fails _) as [[|] ?]); cbn [fst snd app existsb];
    bools; repeat split; try reflexivity; simpl in *; lia.
Qed.

Lemma setup_inet6_spec ctl w v4mapped :
  let x := setup_inet6 ctl w v4mapped in
  existsb is_pmtu x.2 = false /\ existsb is_send x.2 = false
  /\ match x.1.1 with
     | Exit n => n = 1
     | Go c =>
         let c6 := if mtu ctl =? 0 then set_mtu 128000 (set_overhead 48 ctl)
                   else set_overhead 48 ctl in
         c = (if v4mapped then set_overhead 28 (set_mapped true c6) else c6)
         /\ overhead c < mtu c
     end.
Proof.
  cbv zeta. unfold setup_inet6, setsockopt, pktlen_error.
  cbn [mtu overhead set_overhead].
  set (c6 := if mtu ctl =? 0 then set_mtu 128000 (set_overhead 48 ctl)
             else set_overhead 48 ctl).
  assert (H6 : overhead c6 = 48) by (subst c6; destruct (mtu ctl =? 0); reflexivity).
  destruct (mtu c6 <=? overhead c6) eqn:E48; [cbn [fst snd existsb]; auto|]. bools.
  repeat (destruct (syscall_fails _) as [[|] ?]; cbn [fst snd app existsb negb]; auto).
  all: destruct v4mapped; cbn [negb fst snd].
  all: try (repeat split; try reflexivity; lia).
  all: match goal with
       | |- context [setup_inet ?c ?w] =>
           pose proof (setup_inet_spec c w) as (H1 & H2 & H3); cbv zeta in H1, H2, H3;
           destruct (setup_inet c w) as [[r w'] o4]
       end;
       cbn [fst snd] in *;
       cbn [existsb orb is_pmtu is_printf is_send app];
       split; [exact H1|]; split; [exact H2|];
       destruct r as [c|n]; [|exact H3];
       change (mtu (set_mapped true c6)) with (mtu c6) in H3;
       destruct (mtu c6 =? 0) eqn:E0; bools; [lia|]; exact H3.
Qed.

Lemma setup_spec ctl w ai_family v4mapped :
  ai_family = AF_INET \/ ai_family = AF_INET6 ->
  let x := setup ctl w ai_family v4mapped in
  existsb is_pmtu x.2 = false /\ existsb is_send x.2 = false
  /\ match x.1.1 with
     | Exit n => n = 1
     | Go c =>
         overhead c = family_overhead ai_family v4mapped
         /\ mtu c = (if mtu ctl =? 0
                     then (if ai_family =? AF_INET6 then 128000 else 65535)
                     else mtu ctl)
         /\ overhead c < mtu c
         /\ max_hops c = max_hops ctl
         /\ hops_to c = hops_to ctl /\ hops_from c = hops_from ctl
     end.
Proof.
  intros Hfam. cbv zeta. unfold setup.
  assert (H : let y := if ai_family =? AF_INET6 then setup_inet6 ctl w v4mapped
                       else if ai_family =? AF_INET then setup_inet ctl w
                       else (Go ctl, w, []) in
              existsb is_pmtu y.2 = false /\ existsb is_send y.2 = false
              /\ match y.1.1 with
                 | Exit n => n = 1
                 | Go c =>
                     overhead c = family_overhead ai_family v4mapped
                     /\ mtu c = (if mtu ctl =? 0
                                 then (if ai_family =? AF_INET6 then 128000 else 65535)
                                 else mtu ctl)
                     /\ overhead c < mtu c
                     /\ max_hops c = max_hops ctl
                     /\ hops_to c = hops_to ctl /\ hops_from c = hops_from ctl
                 end).
  { cbv zeta. destruct Hfam as [-> | ->]; cbn [Z.eqb AF_INET AF_INET6 Pos.eqb].
    - pose proof (setup_inet_spec ctl w) as (H1 & H2 & H3). cbv zeta in H1, H2, H3.
      destruct (setup_inet ctl w) as [[r w'] o]. cbn [fst snd] in *.
      split; [exact H1|]. split; [exact H2|].
      destruct r as [c|n]; [|exact H3]. destruct H3 as [-> H3].
      unfold family_overhead. cbn [Z.eqb AF_INET AF_INET6 Pos.eqb andb].
      destruct (mtu ctl =? 0); simpl in *; repeat split; lia.
    - pose proof (setup_inet6_spec ctl w v4mapped) as (H1 & H2 & H3). cbv zeta in H1, H2, H3.
      destruct (setup_inet6 ctl w v4mapped) as [[r w'] o]. cbn [fst snd] in *.
      split; [exact H1|]. split; [exact H2|].
      destruct r as [c|n]; [|exact H3]. destruct H3 as [-> H3].
      unfold family_overhead. cbn [Z.eqb AF_INET AF_INET6 Pos.eqb andb].
      destruct v4mapped, (mtu ctl =? 0); simpl in *; repeat split; lia. }
  cbv zeta in H.
  destruct (if ai_family =? AF_INET6 then _ else _) as [[r w'] o]. cbn [fst snd] in H.
  destruct H as (H1 & H2 & H3).
  destruct r as [c|n]; cbn [fst snd]; [|auto].
  destruct (syscall_fails w') as [[|] w'']; cbn [fst snd];
    rewrite !existsb_app, H1, H2; cbn [existsb orb is_pmtu is_printf is_send];
    auto.
Qed.

(** C3.  In every run of [main] for an IPv4 or IPv6 target, each [sendto]
    asks for exactly [L - overhead] bytes, where [overhead] is 28 for IPv4
    (and for an IPv4-mapped target) and 48 for IPv6, and [L] is the MTU
    estimate in force at that send: the configured length, replaced by [v]
    at every [pmtu v] line printed before the send.  This holds whenever
    [L] exceeds the overhead. *)
Theorem probe_payload_length fuel o w ai_family v4mapped pre hdr port len post :
  ai_family = AF_INET \/ ai_family = AF_INET6 ->
  opt_mtu o <= INT_MAX ->
  out_of (main fuel o w ai_family v4mapped) = pre ++ Sendto hdr port len :: post ->
  let L := mtu_after (configured_length o ai_family) pre in
  family_overhead ai_family v4mapped < L ->
  len = L - family_overhead ai_family v4mapped.
Proof.
  intros Hfam Hmax Hout L HL.
  assert (Hall : sends_exact (family_overhead ai_family v4mapped)
                             (configured_length o ai_family)
                             (out_of (main fuel o w ai_family v4mapped))).
  { unfold main.
    pose proof (setup_spec (init_state o) w ai_family v4mapped Hfam) as (H1 & H2 & H3).
    cbv zeta in H1, H2, H3.
    destruct (setup (init_state o) w ai_family v4mapped) as [[r w1] o1].
    cbn [fst snd] in *.
    destruct r as [c|n]; [|apply sends_exact_no_send; exact H2].
    destruct H3 as (Ho & Hm & Hlt & _).
    pose proof (hop_loop_tracks fuel c w1 ai_family 1) as (_ & _ & Ht & _). cbv zeta in Ht.
    destruct (hop_loop fuel c w1 ai_family 1) as [[[r2 c2] w2] o2].
    unfold out_of, ctl_of in *. cbn [fst snd] in *.
    apply sends_exact_app. split; [apply sends_exact_no_send; exact H2|].
    rewrite mtu_after_no_pmtu by exact H1.
    assert (Hc : mtu c = configured_length o ai_family) by exact Hm.
    assert (Hs : sane c).
    { split; [|unfold family_overhead in Ho; destruct (_ && _); lia].
      rewrite Hc. unfold configured_length, INT_MAX in *.
      repeat branch; lia. }
    destruct (Ht Hs) as [_ Hsend]. rewrite Ho, Hc in Hsend. exact Hsend. }
  rewrite Hout in Hall. apply sends_exact_app in Hall.
  destruct Hall as [_ [Hsend _]]. exact (Hsend HL).
Qed.

Lemma probe_payload_length_witness :
  nth_error (out_of clamped_run) 5
    = Some (Sendto {| hdr_ttl := 1; hdr_tv := tv_zero |} 44444 1472)
  /\ nth_error (out_of clamped_run) 12
    = Some (Sendto {| hdr_ttl := 1; hdr_tv := tv_zero |} 44445 1372)
  /\ 1472 = mtu_after (configured_length (opts 1) AF_INET) (firstn 5 (out_of clamped_run))
            - family_overhead AF_INET false
  /\ 1372 = mtu_after (configured_length (opts 1) AF_INET) (firstn 12 (out_of clamped_run))
            - family_overhead AF_INET false.
Proof.
  split; [vm_compute; reflexivity|]. split; [vm_compute; reflexivity|]. split.
  - apply (probe_payload_length 20 (opts 1)
             (quiet [RecvMsg (notification 44444 (frag_needed 1400) 64)]) AF_INET false
             (firstn 5 (out_of clamped_run)) {| hdr_ttl := 1; hdr_tv := tv_zero |} 44444 1472
             (skipn 6 (out_of clamped_run)));
      [left; reflexivity | vm_compute; discriminate | vm_compute; reflexivity
       | vm_compute; reflexivity].
  - apply (probe_payload_length 20 (opts 1)
             (quiet [RecvMsg (notification 44444 (frag_needed 1400) 64)]) AF_INET false
             (firstn 12 (out_of clamped_run)) {| hdr_ttl := 1; hdr_tv := tv_zero |} 44445 1372
             (skipn 13 (out_of clamped_run)));
      [left; reflexivity | vm_compute; discriminate | vm_compute; reflexivity
       | vm_compute; reflexivity].
Defined.

(** ** C8: no hops allowed *)

Lemma hop_loop_beyond fuel ctl w ai_family ttl :
  max_hops ctl < ttl ->
  hop_loop fuel ctl w ai_family ttl
  = (Some 0, ctl, w,
     Printf "     Too many hops: pmtu %d\n" [AInt (mtu ctl)] :: resume ctl).
Proof.
  intros H. destruct fuel; cbn [hop_loop];
    (destruct (ttl <=? max_hops ctl) eqn:E; bools; [lia | reflexivity]).
Qed.

Lemma resume_unresolved ctl :
  hops_to ctl = -1 -> hops_from ctl = -1 ->
  resume ctl = [Freeaddrinfo; Printf "     Resume: pmtu %d " [AInt (mtu ctl)]; Printf "\n" []].
Proof. intros H1 H2. unfold resume. rewrite H1, H2. reflexivity. Qed.

(** C8.  With [max_hops = 0] the program sends no probe.  Once the set-up
    has succeeded it prints "Too many hops" with the MTU estimate (the
    configured length), then the summary, and exits with status 0, whatever
    the fuel; if the set-up fails it exits with status 1. *)
Theorem no_probe_when_max_hops_is_zero fuel o w ai_family v4mapped :
  ai_family = AF_INET \/ ai_family = AF_INET6 ->
  opt_max_hops o = 0 ->
  let x := main fuel o w ai_family v4mapped in
  existsb is_send (out_of x) = false
  /\ match setup (init_state o) w ai_family v4mapped with
     | (Go c, w1, o1) =>
         mtu c = configured_length o ai_family
         /\ x = (Some 0, c, w1,
                 o1 ++ [Printf "     Too many hops: pmtu %d\n" [AInt (mtu c)];
                        Freeaddrinfo;
                        Printf "     Resume: pmtu %d " [AInt (mtu c)];
                        Printf "\n" []])
     | (Exit n, w1, o1) => n = 1 /\ x = (Some 1, init_state o, w1, o1)
     end.
Proof.
  intros Hfam H0. cbv zeta. unfold main.
  pose proof (setup_spec (init_state o) w ai_family v4mapped Hfam) as (H1 & H2 & H3).
  cbv zeta in H1, H2, H3.
  destruct (setup (init_state o) w ai_family v4mapped) as [[r w1] o1].
  cbn [fst snd] in *. destruct r as [c|n].
  - destruct H3 as (Ho & Hm & Hlt & Hmax & Hto & Hfrom).
    rewrite hop_loop_beyond by (rewrite Hmax; cbn [max_hops init_state]; lia).
    rewrite resume_unresolved by assumption.
    unfold out_of. cbn [fst snd]. split; [|split; [exact Hm | reflexivity]].
    rewrite existsb_app, H2. reflexivity.
  - subst n. unfold out_of. cbn [fst snd]. auto.
Qed.

Lemma no_probe_when_max_hops_is_zero_witness :
  main 0 (opts 0) (quiet []) AF_INET false
  = (Some 0, session_zero, quiet [],
     [Setsockopt "SOL_IP" "IP_MTU_DISCOVER" 2; Setsockopt "SOL_IP" "IP_RECVERR" 1;
      Setsockopt "SOL_IP" "IP_RECVTTL" 1; Malloc 1500;
      Printf "     Too many hops: pmtu %d\n" [AInt 1500]; Freeaddrinfo;
      Printf "     Resume: pmtu %d " [AInt 1500]; Printf "\n" []]).
Proof.
  pose proof (no_probe_when_max_hops_is_zero 0%nat (opts 0) (quiet []) AF_INET false
                (or_introl eq_refl) eq_refl) as H.
  vm_compute in H. vm_compute. exact (proj2 (proj2 H)).
Defined.

(** ** C7: an MTU change during an attempt *)

(** Lines 617-618: [goto restart]. *)
Lemma attempts_after_mtu_change fuel ctl w ai_family ttl i :
  0 <= i < 3 ->
  let p := probe_ttl fuel ctl w ai_family ttl in
  res_of p <> None ->
  mtu (ctl_of p) <> mtu ctl ->
  attempts (Datatypes.S fuel) ctl w ai_family ttl i
  = let x := attempts fuel (ctl_of p) (world_of p) ai_family ttl 0 in
    (res_of x, ctl_of x, world_of x, out_of p ++ out_of x).
Proof.
  intros Hi p Hres Hmtu. subst p. cbn [attempts].
  destruct (i <? 3) eqn:E; bools; [|lia].
  destruct (probe_ttl fuel ctl w ai_family ttl) as [[[res c1] w1] o].
  unfold res_of, ctl_of, world_of, out_of in *. cbn [fst snd] in *.
  destruct res as [res|]; [|contradiction].
  destruct (mtu c1 =? mtu ctl) eqn:Em; bools; [contradiction|]. cbn [negb].
  destruct (attempts fuel c1 w1 ai_family ttl 0) as [[[s c2] w2] o']. reflexivity.
Qed.


(** Without any answer a stage entered at counter 0 makes three attempts,
    one entered at counter 2 a single one. *)
Lemma stage_budget :
  sends (out_of (attempts 10 session (quiet []) AF_INET 1 0)) = 3%nat
  /\ sends (out_of (attempts 10 session (quiet []) AF_INET 1 2)) = 1%nat.
Proof. split; vm_compute; reflexivity. Qed.


(** ** Notifications that end the drain *)

Lemma prints_stop fmt tr :
  is_stop (Printf fmt []) = true -> prints fmt tr = true -> existsb is_stop tr = true.
Proof.
  intros Hf H. apply existsb_exists in H. destruct H as (ev & Hin & Hev).
  apply existsb_exists. exists ev. split; [exact Hin|].
  destruct ev; try discriminate. simpl in Hev. apply String.eqb_eq in Hev. subst fmt0.
  exact Hf.
Qed.

Lemma classify_stop ctl ttl sndhops rethops progress e :
  let c := classify ctl ttl sndhops rethops progress e in
  (count is_stop c.1.2 <= 1)%nat
  /\ (existsb is_stop c.1.2 = true -> c.2 = Return 0).
Proof.
  cbv zeta. unfold classify.
  repeat branch; cbn [fst snd];
    first [ split; [simpl; lia | intros _; reflexivity]
          | split; [simpl; lia | discriminate]
          | rewrite count_app, existsb_app,
              (count_none _ _ (print_asymm_none is_stop _ _ _ ltac:(intros; reflexivity))),
              print_asymm_none by (intros; reflexivity);
            split; [simpl; lia | discriminate] ].
Qed.

Lemma recverr_msg_stop gni ctl ai_family ttl tv m :
  let r := recverr_msg gni ctl ai_family ttl tv m in
  (count is_stop r.1.2 <= 1)%nat
  /\ (existsb is_stop r.1.2 = true -> r.2 = Return 0).
Proof.
  cbv zeta. destruct (d_e (decode ctl ai_family m)) as [e|] eqn:He.
  - pose proof (classify_stop (d_ctl (decode ctl ai_family m)) ttl
                  (d_sndhops (decode ctl ai_family m))
                  (rethops_norm (d_rethops (decode ctl ai_family m))) (mtu ctl) e)
      as [C1 C2]. cbv zeta in C1, C2.
    split.
    + rewrite (recverr_msg_some gni ctl ai_family ttl tv m e He). cbv zeta. cbn [fst snd].
      rewrite !count_app.
      rewrite (count_none is_stop (d_out _))
        by (unfold decode; cbn [d_out]; apply scan_cmsgs_none; intros; reflexivity).
      rewrite (count_none is_stop (print_origin _ _ _ _ _))
        by (apply print_origin_none; intros; reflexivity).
      rewrite (count_none is_stop (print_rtt _ _ _))
        by (apply print_rtt_none; intros; reflexivity).
      exact C1.
    + rewrite (recverr_msg_head is_stop gni ctl ai_family ttl tv m e) by (shapes || exact He).
      cbv zeta. intros H. specialize (C2 H).
      rewrite (recverr_msg_some gni ctl ai_family ttl tv m e He). exact C2.
  - rewrite (recverr_msg_none gni ctl ai_family ttl tv m He). cbn [fst snd].
    split; [|intros _; reflexivity].
    rewrite count_app.
    rewrite (count_none is_stop (d_out _))
      by (unfold decode; cbn [d_out]; apply scan_cmsgs_none; intros; reflexivity).
    simpl. lia.
Qed.

Lemma recverr_from_stop q : forall ctl w ai_family ttl progress,
  let x := recverr_from q ctl w ai_family ttl progress in
  (count is_stop (out_of x) <= 1)%nat
  /\ (existsb is_stop (out_of x) = true -> res_of x = 0).
Proof.
  induction q as [|r q IH]; intros ctl w ai_family ttl progress; cbv zeta;
    cbn [recverr_from].
  - destruct (gettimeofday w). split; [simpl; lia | discriminate].
  - destruct (gettimeofday w) as [tv w1]. destruct r as [| |m].
    + apply IH.
    + split; [simpl; lia | discriminate].
    + pose proof (recverr_msg_stop (getnameinfo w1) ctl ai_family ttl tv m) as [H1 H2].
      cbv zeta in H1, H2.
      destruct (recverr_msg (getnameinfo w1) ctl ai_family ttl tv m) as [[c1 o1] oc].
      cbn [fst snd] in H1, H2. destruct oc as [r|p].
      * unfold out_of, res_of. cbn [fst snd]. split; [exact H1|].
        intros H. specialize (H2 H). congruence.
      * assert (Hn : existsb is_stop o1 = false).
        { destruct (existsb is_stop o1); [|reflexivity]. specialize (H2 eq_refl).
          discriminate. }
        specialize (IH c1 w1 ai_family ttl p). cbv zeta in IH.
        destruct (recverr_from q c1 w1 ai_family ttl p) as [[[r2 c2] w2] o2].
        unfold out_of, res_of in *. cbn [fst snd] in *. destruct IH as [I1 I2].
        rewrite count_app, existsb_app, Hn, (count_none _ _ Hn). split; [lia | exact I2].
Qed.

Lemma probe_finish_stop ctl w ai_family ttl sent :
  let x := probe_finish ctl w ai_family ttl sent in
  (count is_stop (out_of x) <= 1)%nat
  /\ (existsb is_stop (out_of x) = true -> res_of x = 0).
Proof.
  cbv zeta. unfold probe_finish. destruct sent.
  - destruct (recv w) as [got w1]. destruct got.
    + split; [simpl; lia | intros _; reflexivity].
    + pose proof (recverr_from_stop (errqueue w1)
                    (set_hisptr (Z.land (hisptr ctl + 1) 63) ctl) w1 ai_family ttl (-1))
        as H. cbv zeta in H. unfold recverr.
      destruct (recverr_from _ _ _ _ _ _) as [[[r c] w2] o]. exact H.
  - split; [simpl; lia | intros _; reflexivity].
Qed.

Lemma probe_loop_stop fuel : forall ctl w ai_family ttl i,
  let x := probe_loop fuel ctl w ai_family ttl i in
  (count is_stop (out_of x) <= 1)%nat
  /\ (existsb is_stop (out_of x) = true -> res_of x = Some 0).
Proof.
  induction fuel as [|fuel IH]; intros ctl w ai_family ttl i; cbv zeta; cbn [probe_loop].
  - split; [simpl; lia | discriminate].
  - destruct (i <? 10).
    + destruct (gettimeofday w) as [now w1].
      destruct (probe_prepare ctl ai_family ttl now) as [hdr c1].
      destruct (sendto w1) as [ok w2]. destruct ok.
      * pose proof (probe_finish_stop c1 w2 ai_family ttl true) as [F1 F2].
        cbv zeta in F1, F2.
        destruct (probe_finish c1 w2 ai_family ttl true) as [[[r c2] w3] o].
        unfold out_of, res_of in *. cbn [fst snd] in *.
        split; [exact F1|]. intros H. rewrite (F2 H). reflexivity.
      * pose proof (recverr_from_stop (errqueue w2) c1 w2 ai_family ttl (-1)) as [R1 R2].
        cbv zeta in R1, R2. unfold recverr.
        destruct (recverr_from _ _ _ _ _ _) as [[[res c2] w3] o].
        unfold out_of, res_of in *. cbn [fst snd] in *.
        destruct (res =? 0) eqn:E0; bools.
        -- cbn [fst snd]. split; [exact R1 | intros _; reflexivity].
        -- assert (Hn : existsb is_stop o = false).
           { destruct (existsb is_stop o); [|reflexivity]. specialize (R2 eq_refl). lia. }
           specialize (IH (set_his (his_clear (his c2) (hisptr c2)) c2) w3 ai_family ttl
                          (if 0 <? res then 0 else i + 1)). cbv zeta in IH.
           destruct (probe_loop fuel _ w3 ai_family ttl _) as [[[r c4] w4] o'].
           cbn [fst snd] in *. destruct IH as [I1 I2].
           change (Sendto hdr (target_port c1) (to_size_t (mtu c1 - overhead c1)) :: o ++ o')
             with ([Sendto hdr (target_port c1) (to_size_t (mtu c1 - overhead c1))] ++ o ++ o').
           rewrite !count_app, !existsb_app, Hn, (count_none _ _ Hn).
           split; [simpl; lia | exact I2].
    + pose proof (probe_finish_stop ctl w ai_family ttl false) as [F1 F2].
      cbv zeta in F1, F2.
      destruct (probe_finish ctl w ai_family ttl false) as [[[r c2] w3] o].
      unfold out_of, res_of in *. cbn [fst snd] in *.
      split; [exact F1|]. intros H. rewrite (F2 H). reflexivity.
Qed.

(** An attempt that changed the estimate printed a [pmtu] line. *)
Lemma mtu_change_prints_pmtu c c' out :
  tracks c c' out -> mtu c' <> mtu c -> (1 <= count is_pmtu out)%nat.
Proof.
  intros (_ & Hm & _) Hne. apply count_some.
  destruct (existsb is_pmtu out) eqn:E; [reflexivity|].
  rewrite mtu_after_no_pmtu in Hm by exact E. contradiction.
Qed.

(** A stop line in an attempt that left the estimate alone ends the stage,
    and with it the run. *)
Lemma stop_ends_stage fuel ctl w ai_family ttl i :
  0 <= i < 3 ->
  let p := probe_ttl fuel ctl w ai_family ttl in
  existsb is_stop (out_of p) = true ->
  mtu (ctl_of p) = mtu ctl ->
  attempts (Datatypes.S fuel) ctl w ai_family ttl i
  = (Done, ctl_of p, world_of p, out_of p).
Proof.
  intros Hi p Hstop Hmtu. subst p. cbn [attempts].
  destruct (i <? 3) eqn:E; bools; [|lia].
  pose proof (probe_loop_stop fuel ctl w ai_family ttl 0) as [_ Hs]. cbv zeta in Hs.
  unfold probe_ttl in *.
  destruct (probe_loop fuel ctl w ai_family ttl 0) as [[[res c1] w1] o].
  unfold res_of, ctl_of, world_of, out_of in *. cbn [fst snd] in *.
  rewrite (Hs Hstop), Hmtu, Z.eqb_refl. reflexivity.
Qed.

Lemma stage_done_ends_run fuel ctl w ai_family ttl w1 o1 c2 w2 o2 :
  ttl <= max_hops ctl ->
  set_hop_limit ctl w ai_family ttl = (Go tt, w1, o1) ->
  attempts fuel ctl w1 ai_family ttl 0 = (Done, c2, w2, o2) ->
  hop_loop (Datatypes.S fuel) ctl w ai_family ttl
  = (Some 0, c2, w2, o1 ++ o2 ++ resume c2).
Proof.
  intros Hle Hh Ha. cbn [hop_loop].
  destruct (ttl <=? max_hops ctl) eqn:E; bools; [|lia].
  rewrite Hh, Ha. reflexivity.
Qed.

(** Stop lines against [pmtu] lines, per stage and per run. *)
Lemma attempts_stop fuel : forall ctl w ai_family ttl i,
  let x := attempts fuel ctl w ai_family ttl i in
  (count is_stop (out_of x)
   <= count is_pmtu (out_of x) + match res_of x with Done => 1 | _ => 0 end)%nat.
Proof.
  induction fuel as [|fuel IH]; intros ctl w ai_family ttl i; cbv zeta; cbn [attempts].
  - simpl. lia.
  - destruct (i <? 3); [|simpl; lia].
    pose proof (probe_loop_stop fuel ctl w ai_family ttl 0) as [P1 P2].
    pose proof (probe_loop_tracks fuel ctl w ai_family ttl 0) as Pt.
    cbv zeta in P1, P2, Pt. unfold probe_ttl.
    destruct (probe_loop fuel ctl w ai_family ttl 0) as [[[res c1] w1] o].
    unfold res_of, ctl_of, out_of in *. cbn [fst snd] in *.
    assert (Hn : res <> Some 0 -> count is_stop o = 0%nat).
    { intros Hr. apply count_none. destruct (existsb is_stop o); [|reflexivity].
      specialize (P2 eq_refl). contradiction. }
    destruct res as [res|]; [|cbn [fst snd]; rewrite Hn by discriminate; lia].
    destruct (mtu c1 =? mtu ctl) eqn:Em; bools; cbn [negb].
    + destruct (res =? 0) eqn:E0; bools; [cbn [fst snd]; lia|].
      assert (H0 : count is_stop o = 0%nat) by (apply Hn; congruence).
      destruct (0 <? res); [cbn [fst snd]; lia|].
      specialize (IH c1 w1 ai_family ttl (i + 1)). cbv zeta in IH.
      destruct (attempts fuel c1 w1 ai_family ttl (i + 1)) as [[[s c2] w2] o'].
      cbn [fst snd] in *. rewrite !count_app. lia.
    + pose proof (mtu_change_prints_pmtu ctl c1 o Pt Em) as Hp.
      specialize (IH c1 w1 ai_family ttl 0). cbv zeta in IH.
      destruct (attempts fuel c1 w1 ai_family ttl 0) as [[[s c2] w2] o'].
      cbn [fst snd] in *. rewrite !count_app. lia.
Qed.

Lemma hop_loop_stop fuel : forall ctl w ai_family ttl,
  let x := hop_loop fuel ctl w ai_family ttl in
  (count is_stop (out_of x) <= count is_pmtu (out_of x) + 1)%nat.
Proof.
  assert (Hres : forall c, count is_stop (resume c) = 0%nat)
    by (intros c; unfold resume; repeat branch; reflexivity).
  induction fuel as [|fuel IH]; intros ctl w ai_family ttl; cbv zeta; cbn [hop_loop].
  - destruct (ttl <=? max_hops ctl); unfold out_of; cbn [snd count is_stop is_printf];
      [|rewrite Hres]; simpl; lia.
  - destruct (ttl <=? max_hops ctl);
      [|unfold out_of; cbn [snd count is_stop is_printf]; rewrite Hres; simpl; lia].
    assert (Hh : count is_stop (set_hop_limit ctl w ai_family ttl).2 = 0%nat).
    { unfold set_hop_limit, setsockopt.
      repeat (branch || destruct (syscall_fails _) as [[|] ?]); reflexivity. }
    destruct (set_hop_limit ctl w ai_family ttl) as [[r w1] o1]. cbn [snd] in Hh.
    destruct r as [[]|n]; [|unfold out_of; cbn [snd]; lia].
    pose proof (attempts_stop fuel ctl w1 ai_family ttl 0) as Ha. cbv zeta in Ha.
    destruct (attempts fuel ctl w1 ai_family ttl 0) as [[[s c2] w2] o2].
    unfold res_of, out_of in *. cbn [fst snd] in *.
    destruct s; cbn [fst snd].
    + rewrite !count_app, Hres. lia.
    + specialize (IH c2 w2 ai_family (ttl + 1)). cbv zeta in IH.
      destruct (hop_loop fuel c2 w2 ai_family (ttl + 1)) as [[[r3 c3] w3] o3].
      cbn [fst snd] in *. rewrite !count_app. lia.
    + rewrite !count_app. lia.
Qed.

Lemma main_stop fuel o w ai_family v4mapped :
  ai_family = AF_INET \/ ai_family = AF_INET6 ->
  let x := main fuel o w ai_family v4mapped in
  (count is_stop (out_of x) <= count is_pmtu (out_of x) + 1)%nat.
Proof.
  intros Hfam. cbv zeta. unfold main.
  assert (Hs : count is_stop (setup (init_state o) w ai_family v4mapped).2 = 0%nat).
  { unfold setup, setup_inet6, setup_inet, setsockopt, pktlen_error.
    repeat (branch || destruct (syscall_fails _) as [[|] ?]); reflexivity. }
  destruct (setup (init_state o) w ai_family v4mapped) as [[r w1] o1]. cbn [snd] in Hs.
  destruct r as [c|n]; [|unfold out_of; cbn [snd]; lia].
  pose proof (hop_loop_stop fuel c w1 ai_family 1) as Hl. cbv zeta in Hl.
  destruct (hop_loop fuel c w1 ai_family 1) as [[[r2 c2] w2] o2].
  unfold out_of in *. cbn [snd] in *. rewrite !count_app. lia.
Qed.

(** Only [reached] goes with a write to the hop counts: a run that never
    prints it ends with both still at [-1]. *)
Lemma main_hops_unset fuel o w ai_family v4mapped :
  ai_family = AF_INET \/ ai_family = AF_INET6 ->
  let x := main fuel o w ai_family v4mapped in
  prints "reached\n" (out_of x) = false ->
  hops_to (ctl_of x) = -1 /\ hops_from (ctl_of x) = -1.
Proof.
  intros Hfam. cbv zeta. unfold main.
  pose proof (setup_spec (init_state o) w ai_family v4mapped Hfam) as (_ & _ & H3).
  cbv zeta in H3.
  destruct (setup (init_state o) w ai_family v4mapped) as [[r w1] o1].
  cbn [fst snd] in *. destruct r as [c|n]; [|intros _; split; reflexivity].
  destruct H3 as (_ & _ & _ & _ & Hto & Hfrom).
  pose proof (hop_loop_tracks fuel c w1 ai_family 1) as (_ & _ & _ & Hh). cbv zeta in Hh.
  destruct (hop_loop fuel c w1 ai_family 1) as [[[r2 c2] w2] o2].
  unfold out_of, ctl_of in *. cbn [fst snd] in *.
  rewrite prints_app. intros H. apply orb_false_iff in H. destruct H as [_ H].
  destruct (Hh H) as [-> ->]. rewrite Hto, Hfrom. split; reflexivity.
Qed.

(** *** The stop line is the last line of its attempt *)

Lemma after_stop_app a b :
  after_stop (a ++ b)
  = match after_stop a with
    | Some s => Some (s ++ b)
    | None => after_stop b
    end.
Proof.
  induction a as [|ev a IH]; cbn [app after_stop]; [reflexivity|].
  destruct (is_stop ev); [reflexivity | exact IH].
Qed.

Lemma after_stop_none tr : existsb is_stop tr = false <-> after_stop tr = None.
Proof.
  induction tr as [|ev tr IH]; cbn [existsb after_stop]; [tauto|].
  destruct (is_stop ev); cbn [orb]; [split; discriminate | exact IH].
Qed.

Lemma stops_last_app a b :
  existsb is_stop a = false -> stops_last b -> stops_last (a ++ b).
Proof.
  intros Ha Hb. unfold stops_last. rewrite after_stop_app.
  apply after_stop_none in Ha. rewrite Ha. exact Hb.
Qed.

Lemma stops_last_quiet tr : existsb is_stop tr = false -> stops_last tr.
Proof. intros H. left. apply after_stop_none. exact H. Qed.

Lemma classify_stops_last ctl ttl sndhops rethops progress e :
  stops_last (classify ctl ttl sndhops rethops progress e).1.2.
Proof.
  unfold classify, stops_last.
  repeat branch; cbn [fst snd];
    first [ left; reflexivity | right; reflexivity
          | left; apply after_stop_none; rewrite existsb_app,
              print_asymm_none by (intros; reflexivity); reflexivity ].
Qed.

Lemma recverr_msg_stops_last gni ctl ai_family ttl tv m :
  stops_last (recverr_msg gni ctl ai_family ttl tv m).1.2.
Proof.
  destruct (d_e (decode ctl ai_family m)) as [e|] eqn:He.
  - rewrite (recverr_msg_some gni ctl ai_family ttl tv m e He). cbv zeta. cbn [fst snd].
    apply stops_last_app;
      [unfold decode; cbn [d_out]; apply scan_cmsgs_none; intros; reflexivity|].
    apply stops_last_app; [apply print_origin_none; intros; reflexivity|].
    apply stops_last_app; [apply print_rtt_none; intros; reflexivity|].
    apply classify_stops_last.
  - rewrite (recverr_msg_none gni ctl ai_family ttl tv m He). cbn [fst snd].
    apply stops_last_app;
      [unfold decode; cbn [d_out]; apply scan_cmsgs_none; intros; reflexivity|].
    right. reflexivity.
Qed.

Lemma recverr_from_stops_last q : forall ctl w ai_family ttl progress,
  stops_last (out_of (recverr_from q ctl w ai_family ttl progress)).
Proof.
  induction q as [|r q IH]; intros ctl w ai_family ttl progress; cbn [recverr_from].
  - destruct (gettimeofday w). left. reflexivity.
  - destruct (gettimeofday w) as [tv w1]. destruct r as [| |m].
    + apply IH.
    + left. reflexivity.
    + pose proof (recverr_msg_stop (getnameinfo w1) ctl ai_family ttl tv m) as [_ H2].
      pose proof (recverr_msg_stops_last (getnameinfo w1) ctl ai_family ttl tv m) as H3.
      cbv zeta in H2.
      destruct (recverr_msg (getnameinfo w1) ctl ai_family ttl tv m) as [[c1 o1] oc].
      cbn [fst snd] in H2, H3. destruct oc as [r|p]; [exact H3|].
      assert (Hn : existsb is_stop o1 = false).
      { destruct (existsb is_stop o1); [|reflexivity]. specialize (H2 eq_refl).
        discriminate. }
      specialize (IH c1 w1 ai_family ttl p).
      destruct (recverr_from q c1 w1 ai_family ttl p) as [[[r2 c2] w2] o2].
      unfold out_of in *. cbn [fst snd] in *. apply stops_last_app; assumption.
Qed.

Lemma probe_finish_stops_last ctl w ai_family ttl sent :
  stops_last (out_of (probe_finish ctl w ai_family ttl sent)).
Proof.
  unfold probe_finish. destruct sent.
  - destruct (recv w) as [got w1]. destruct got; [left; reflexivity|].
    pose proof (recverr_from_stops_last (errqueue w1)
                  (set_hisptr (Z.land (hisptr ctl + 1) 63) ctl) w1 ai_family ttl (-1)) as H.
    unfold recverr. destruct (recverr_from _ _ _ _ _ _) as [[[r c] w2] o].
    unfold out_of in *. cbn [fst snd] in *.
    apply (stops_last_app [DataWait] o); [reflexivity | exact H].
  - left. reflexivity.
Qed.

Lemma probe_loop_stops_last fuel : forall ctl w ai_family ttl i,
  stops_last (out_of (probe_loop fuel ctl w ai_family ttl i)).
Proof.
  induction fuel as [|fuel IH]; intros ctl w ai_family ttl i; cbn [probe_loop].
  - left. reflexivity.
  - destruct (i <? 10).
    + destruct (gettimeofday w) as [now w1].
      destruct (probe_prepare ctl ai_family ttl now) as [hdr c1].
      destruct (sendto w1) as [ok w2]. destruct ok.
      * pose proof (probe_finish_stops_last c1 w2 ai_family ttl true) as F.
        destruct (probe_finish c1 w2 ai_family ttl true) as [[[r c2] w3] o].
        unfold out_of in *. cbn [fst snd] in *.
        apply (stops_last_app [_] o); [reflexivity | exact F].
      * pose proof (recverr_from_stop (errqueue w2) c1 w2 ai_family ttl (-1)) as [_ R2].
        pose proof (recverr_from_stops_last (errqueue w2) c1 w2 ai_family ttl (-1)) as R3.
        cbv zeta in R2. unfold recverr.
        destruct (recverr_from _ _ _ _ _ _) as [[[res c2] w3] o].
        unfold out_of, res_of in *. cbn [fst snd] in *.
        destruct (res =? 0) eqn:E0; bools.
        -- cbn [fst snd]. apply (stops_last_app [_] o); [reflexivity | exact R3].
        -- assert (Hn : existsb is_stop o = false).
           { destruct (existsb is_stop o); [|reflexivity]. specialize (R2 eq_refl). lia. }
           specialize (IH (set_his (his_clear (his c2) (hisptr c2)) c2) w3 ai_family ttl
                          (if 0 <? res then 0 else i + 1)).
           destruct (probe_loop fuel _ w3 ai_family ttl _) as [[[r c4] w4] o'].
           cbn [fst snd] in *.
           apply (stops_last_app [_] (o ++ o')); [reflexivity|].
           apply stops_last_app; assumption.
    + pose proof (probe_finish_stops_last ctl w ai_family ttl false) as F.
      destruct (probe_finish ctl w ai_family ttl false) as [[[r c2] w3] o]. exact F.
Qed.

(** In a stage that prints no [pmtu] line a stop line is the last line and
    ends the stage. *)
Lemma attempts_stops_last fuel : forall ctl w ai_family ttl i,
  let x := attempts fuel ctl w ai_family ttl i in
  existsb is_pmtu (out_of x) = false ->
  stops_last (out_of x)
  /\ (existsb is_stop (out_of x) = true -> res_of x = Done).
Proof.
  induction fuel as [|fuel IH]; intros ctl w ai_family ttl i; cbv zeta; cbn [attempts].
  - intros _. split; [left; reflexivity | discriminate].
  - destruct (i <? 3); [|intros _; split; [left; reflexivity | discriminate]].
    pose proof (probe_loop_stop fuel ctl w ai_family ttl 0) as [_ P2].
    pose proof (probe_loop_stops_last fuel ctl w ai_family ttl 0) as P3.
    pose proof (probe_loop_tracks fuel ctl w ai_family ttl 0) as Pt.
    cbv zeta in P2, Pt. unfold probe_ttl.
    destruct (probe_loop fuel ctl w ai_family ttl 0) as [[[res c1] w1] o].
    unfold res_of, ctl_of, out_of in *. cbn [fst snd] in *.
    assert (Hn : res <> Some 0 -> existsb is_stop o = false).
    { intros Hr. destruct (existsb is_stop o); [|reflexivity].
      specialize (P2 eq_refl). contradiction. }
    destruct res as [res|].
    2:{ cbn [fst snd]. intros _. split; [exact P3|]. rewrite Hn by discriminate.
        discriminate. }
    destruct (mtu c1 =? mtu ctl) eqn:Em; bools; cbn [negb].
    + destruct (res =? 0) eqn:E0; bools;
        [cbn [fst snd]; intros _; split; [exact P3 | reflexivity]|].
      assert (H0 : existsb is_stop o = false) by (apply Hn; congruence).
      destruct (0 <? res);
        [cbn [fst snd]; intros _; split; [exact P3 | rewrite H0; discriminate]|].
      specialize (IH c1 w1 ai_family ttl (i + 1)). cbv zeta in IH.
      destruct (attempts fuel c1 w1 ai_family ttl (i + 1)) as [[[s c2] w2] o'].
      cbn [fst snd] in *. rewrite !existsb_app. intros Hp.
      apply orb_false_iff in Hp. destruct Hp as [_ Hp]. destruct (IH Hp) as [I1 I2].
      rewrite H0. split; [apply stops_last_app; assumption | exact I2].
    + pose proof (mtu_change_prints_pmtu ctl c1 o Pt Em) as Hp.
      destruct (attempts fuel c1 w1 ai_family ttl 0) as [[[s c2] w2] o'].
      cbn [fst snd]. rewrite existsb_app. intros H.
      apply orb_false_iff in H. destruct H as [H _].
      rewrite (count_none _ _ H) in Hp. lia.
Qed.

(** In a run that prints no [pmtu] line, the first stop line is followed by
    the summary alone, and the exit status is 0. *)
Lemma hop_loop_stops_last fuel : forall ctl w ai_family ttl,
  let x := hop_loop fuel ctl w ai_family ttl in
  existsb is_pmtu (out_of x) = false ->
  after_stop (out_of x) = None
  \/ (after_stop (out_of x) = Some (resume (ctl_of x)) /\ res_of x = Some 0).
Proof.
  assert (Hres : forall c, existsb is_stop (resume c) = false)
    by (intros c; unfold resume; repeat branch; reflexivity).
  assert (Hend : forall c, after_stop (Printf "     Too many hops: pmtu %d\n" [AInt (mtu c)]
                                       :: resume c) = None).
  { intros c. apply after_stop_none. cbn [existsb]. rewrite Hres. reflexivity. }
  induction fuel as [|fuel IH]; intros ctl w ai_family ttl; cbv zeta; cbn [hop_loop].
  - intros _. left. destruct (ttl <=? max_hops ctl); [reflexivity | apply Hend].
  - destruct (ttl <=? max_hops ctl); [|intros _; left; apply Hend].
    assert (Hh : existsb is_stop (set_hop_limit ctl w ai_family ttl).2 = false).
    { unfold set_hop_limit, setsockopt.
      repeat (branch || destruct (syscall_fails _) as [[|] ?]); reflexivity. }
    destruct (set_hop_limit ctl w ai_family ttl) as [[r w1] o1]. cbn [snd] in Hh.
    destruct r as [[]|n];
      [|intros _; left; apply after_stop_none; exact Hh].
    pose proof (attempts_stops_last fuel ctl w1 ai_family ttl 0) as Ha. cbv zeta in Ha.
    destruct (attempts fuel ctl w1 ai_family ttl 0) as [[[s c2] w2] o2].
    unfold res_of, out_of, ctl_of in *. cbn [fst snd] in *.
    apply after_stop_none in Hh.
    assert (Hstop : after_stop o2 <> None -> existsb is_stop o2 = true).
    { intros Hne. destruct (existsb is_stop o2) eqn:Es; [reflexivity|].
      apply after_stop_none in Es. contradiction. }
    destruct s; cbn [fst snd].
    + (* the stage ended the run *)
      rewrite !existsb_app. intros Hp.
      apply orb_false_iff in Hp. destruct Hp as [_ Hp].
      apply orb_false_iff in Hp. destruct Hp as [Hp2 _].
      destruct (Ha Hp2) as [[A1|A1] _]; rewrite !after_stop_app, Hh, A1.
      * left. apply after_stop_none. apply Hres.
      * right. split; reflexivity.
    + (* on to the next TTL *)
      specialize (IH c2 w2 ai_family (ttl + 1)). cbv zeta in IH.
      destruct (hop_loop fuel c2 w2 ai_family (ttl + 1)) as [[[r3 c3] w3] o3].
      cbn [fst snd] in *. rewrite !existsb_app. intros Hp.
      apply orb_false_iff in Hp. destruct Hp as [_ Hp].
      apply orb_false_iff in Hp. destruct Hp as [Hp2 Hp3].
      destruct (Ha Hp2) as [[A1|A1] A2]; rewrite !after_stop_app, Hh, A1.
      * exact (IH Hp3).
      * assert (Hs : existsb is_stop o2 = true) by (apply Hstop; congruence).
        specialize (A2 Hs). discriminate.
    + (* out of fuel *)
      rewrite !existsb_app. intros Hp.
      apply orb_false_iff in Hp. destruct Hp as [_ Hp2].
      destruct (Ha Hp2) as [[A1|A1] A2]; rewrite !after_stop_app, Hh, A1.
      * left. reflexivity.
      * assert (Hs : existsb is_stop o2 = true) by (apply Hstop; congruence).
        specialize (A2 Hs). discriminate.
Qed.

Lemma main_stops_last fuel o w ai_family v4mapped :
  let x := main fuel o w ai_family v4mapped in
  existsb is_pmtu (out_of x) = false ->
  after_stop (out_of x) = None
  \/ (after_stop (out_of x) = Some (resume (ctl_of x)) /\ res_of x = Some 0).
Proof.
  cbv zeta. unfold main.
  assert (Hs : existsb is_stop (setup (init_state o) w ai_family v4mapped).2 = false).
  { unfold setup, setup_inet6, setup_inet, setsockopt, pktlen_error.
    repeat (branch || destruct (syscall_fails _) as [[|] ?]); reflexivity. }
  destruct (setup (init_state o) w ai_family v4mapped) as [[r w1] o1]. cbn [snd] in Hs.
  apply after_stop_none in Hs.
  destruct r as [c|n]; [|intros _; left; exact Hs].
  pose proof (hop_loop_stops_last fuel c w1 ai_family 1) as Hl. cbv zeta in Hl.
  destruct (hop_loop fuel c w1 ai_family 1) as [[[r2 c2] w2] o2].
  unfold out_of, res_of, ctl_of in *. cbn [fst snd] in *.
  rewrite existsb_app, after_stop_app, Hs. intros Hp.
  apply orb_false_iff in Hp. destruct Hp as [_ Hp]. exact (Hl Hp).
Qed.

(** One turn of the drain loop on a received notification. *)
Lemma recverr_from_msg q ctl w ai_family ttl progress m :
  let tv := (gettimeofday w).1 in
  let w1 := (gettimeofday w).2 in
  let r := recverr_msg (getnameinfo w1) ctl ai_family ttl tv m in
  recverr_from (RecvMsg m :: q) ctl w ai_family ttl progress
  = match r.2 with
    | Return n => (n, r.1.1, set_errqueue q w1, r.1.2)
    | Restart p =>
        let x := recverr_from q r.1.1 w1 ai_family ttl p in
        (res_of x, ctl_of x, world_of x, r.1.2 ++ out_of x)
    end.
Proof.
  cbv zeta. cbn [recverr_from]. destruct (gettimeofday w) as [tv w1]. cbn [fst snd].
  destruct (recverr_msg (getnameinfo w1) ctl ai_family ttl tv m) as [[c1 o1] oc].
  cbn [fst snd]. destruct oc as [n|p]; [reflexivity|].
  destruct (recverr_from q c1 w1 ai_family ttl p) as [[[r2 c2] w2] o2]. reflexivity.
Qed.

(** ** C6: destination reached *)

(** A late port-unreachable answer is drained together with a "fragmentation
    needed" one: [reached] is printed and the hop counts are set, yet the
    stage is restarted, a further probe goes out, and its answer sets the
    hop counts a second time. *)
Lemma hop_counts_set_twice :
  nth_error (out_of reached_twice) 18 = Some (Printf "reached\n" [])
  /\ nth_error (out_of reached_twice) 19
     = Some (Sendto {| hdr_ttl := 1; hdr_tv := tv_zero |} 44446 1372)
  /\ nth_error (out_of reached_twice) 25 = Some (Printf "reached\n" [])
  /\ count (is_printf "reached\n") (out_of reached_twice) = 2%nat
  /\ hops_from (ctl_of reached_twice) = 15.
Proof. repeat split; vm_compute; reflexivity. Qed.

(** C6, amended.  On a port-unreachable notification the decoder records
    the forward hop count (the send-side value if it is not negative, else
    the probe TTL) and the reverse hop count (the receive-side value),
    prints [reached] and returns 0 without reading further notifications.
    The attempt then returns 0.  If the MTU estimate is what it was when
    the attempt began, this ends the stage and the run with exit status 0;
    after a change the stage is entered anew instead.  No other code writes
    the hop counts: a run that never prints [reached] leaves both unset, a
    run sets them at most once more often than it prints a [pmtu] line, and
    in a run without [pmtu] line the first [reached] is followed by the
    summary alone. *)
Theorem destination_reached :
  (forall q ctl w ai_family ttl progress m e,
     let tv := (gettimeofday w).1 in
     let w1 := (gettimeofday w).2 in
     let d := decode ctl ai_family m in
     let r := recverr_msg (getnameinfo w1) ctl ai_family ttl tv m in
     d_e d = Some e -> ee_errno e = ECONNREFUSED ->
     hops_to r.1.1 = (if d_sndhops d <? 0 then ttl else d_sndhops d)
     /\ hops_from r.1.1 = rethops_norm (d_rethops d)
     /\ last r.1.2 = Some (Printf "reached\n" [])
     /\ recverr_from (RecvMsg m :: q) ctl w ai_family ttl progress
        = (0, r.1.1, set_errqueue q w1, r.1.2))
  /\ (forall fuel ctl w ai_family ttl i,
        0 <= i < 3 ->
        let p := probe_ttl fuel ctl w ai_family ttl in
        prints "reached\n" (out_of p) = true ->
        res_of p = Some 0
        /\ (mtu (ctl_of p) = mtu ctl ->
            attempts (Datatypes.S fuel) ctl w ai_family ttl i
            = (Done, ctl_of p, world_of p, out_of p))
        /\ (mtu (ctl_of p) <> mtu ctl ->
            attempts (Datatypes.S fuel) ctl w ai_family ttl i
            = (let x := attempts fuel (ctl_of p) (world_of p) ai_family ttl 0 in
               (res_of x, ctl_of x, world_of x, out_of p ++ out_of x))))
  /\ (forall fuel ctl w ai_family ttl w1 o1 c2 w2 o2,
        ttl <= max_hops ctl ->
        set_hop_limit ctl w ai_family ttl = (Go tt, w1, o1) ->
        attempts fuel ctl w1 ai_family ttl 0 = (Done, c2, w2, o2) ->
        hop_loop (Datatypes.S fuel) ctl w ai_family ttl
        = (Some 0, c2, w2, o1 ++ o2 ++ resume c2))
  /\ (forall fuel o w ai_family v4mapped,
        ai_family = AF_INET \/ ai_family = AF_INET6 ->
        let x := main fuel o w ai_family v4mapped in
        (prints "reached\n" (out_of x) = false ->
         hops_to (ctl_of x) = -1 /\ hops_from (ctl_of x) = -1)
        /\ (count (is_printf "reached\n") (out_of x)
            <= count is_pmtu (out_of x) + 1)%nat
        /\ (existsb is_pmtu (out_of x) = false ->
            after_stop (out_of x) = None
            \/ (after_stop (out_of x) = Some (resume (ctl_of x))
                /\ res_of x = Some 0))).
Proof.
  split; [|split; [|split]].
  - intros q ctl w ai_family ttl progress m e tv w1 d r He Herr.
    pose proof (recverr_from_msg q ctl w ai_family ttl progress m) as Hq.
    cbv zeta in Hq. fold tv w1 r in Hq.
    assert (Hr : r = (set_hops (if d_sndhops d <? 0 then ttl else d_sndhops d)
                               (rethops_norm (d_rethops d)) (d_ctl d),
                      d_out d ++ print_origin (getnameinfo w1) (d_ctl d) ttl (d_sndhops d) e
                        ++ print_rtt tv (d_rettv d) (d_broken_router d)
                        ++ [Printf "reached\n" []],
                      Return 0))
      by (apply recverr_msg_reached; assumption).
    rewrite Hr in Hq |- *. cbn [fst snd] in *.
    split; [reflexivity|]. split; [reflexivity|]. split; [|exact Hq].
    rewrite !app_assoc. apply last_snoc.
  - intros fuel ctl w ai_family ttl i Hi p Hp.
    assert (Hs : existsb is_stop (out_of p) = true)
      by (apply (prints_stop "reached\n"); [reflexivity | exact Hp]).
    assert (Hres : res_of p = Some 0).
    { pose proof (probe_loop_stop fuel ctl w ai_family ttl 0) as [_ H]. exact (H Hs). }
    split; [exact Hres|]. split; intros Hm.
    + apply stop_ends_stage; assumption.
    + apply attempts_after_mtu_change; [exact Hi | | exact Hm].
      fold p. rewrite Hres. discriminate.
  - intros fuel ctl w ai_family ttl w1 o1 c2 w2 o2 H1 H2 H3.
    exact (stage_done_ends_run fuel ctl w ai_family ttl w1 o1 c2 w2 o2 H1 H2 H3).
  - intros fuel o w ai_family v4mapped Hfam x. split; [|split].
    + apply main_hops_unset. exact Hfam.
    + pose proof (main_stop fuel o w ai_family v4mapped Hfam) as H. cbv zeta in H.
      fold x in H.
      assert (Hle : (count (is_printf "reached\n") (out_of x) <= count is_stop (out_of x))%nat).
      { apply count_le. intros ev Hev. unfold is_stop. rewrite Hev. reflexivity. }
      lia.
    + apply main_stops_last.
Qed.

Lemma destination_reached_witness :
  let m := notification 44444 port_unreachable 60 in
  hops_to (recverr_msg no_names session AF_INET 3 tv_zero m).1.1 = 3
  /\ hops_from (recverr_msg no_names session AF_INET 3 tv_zero m).1.1 = 5
  /\ res_of (recverr session (quiet [RecvMsg m; RecvMsg m]) AF_INET 3) = 0
  /\ errqueue (world_of (recverr session (quiet [RecvMsg m; RecvMsg m]) AF_INET 3))
     = [RecvMsg m].
Proof.
  cbv zeta. destruct destination_reached as (H & _).
  destruct (H [RecvMsg (notification 44444 port_unreachable 60)] session
              (quiet [RecvMsg (notification 44444 port_unreachable 60);
                      RecvMsg (notification 44444 port_unreachable 60)])
              AF_INET 3 (-1) (notification 44444 port_unreachable 60) port_unreachable
              eq_refl eq_refl) as (H1 & H2 & _ & H4).
  split; [exact H1|]. split; [exact H2|].
  unfold recverr. change (errqueue (quiet ?q)) with q. rewrite H4.
  split; reflexivity.
Defined.

(** ** C9: host unreachable *)

(** A late host-unreachable answer with a non-canonical code is drained
    together with a "fragmentation needed" one: [!H] is printed, yet the
    stage is restarted and the run goes on to the next TTL. *)
Lemma run_goes_on_after_host_unreachable :
  ttl_exceeded host_unreachable = false
  /\ nth_error (out_of unreachable_run) 18 = Some (Printf "!H\n" [])
  /\ nth_error (out_of unreachable_run) 19
     = Some (Sendto {| hdr_ttl := 1; hdr_tv := tv_zero |} 44446 1372)
  /\ nth_error (out_of unreachable_run) 26 = Some (Setsockopt "SOL_IP" "IP_TTL" 2)
  /\ sends (skipn 19 (out_of unreachable_run)) = 6%nat.
Proof. repeat split; vm_compute; reflexivity. Qed.

(** C9, amended.  A host-unreachable notification with the "TTL expired"
    signature (ICMP type 11 code 0, ICMPv6 type 3 code 0) is informational:
    the drain goes on with the next notification, and when the receive-side
    hop count is not negative (as for every hop limit a packet can carry)
    and differs from the send-side value, or from the probe TTL when no
    send-side value was resolved, the output carries "asymm" with the
    receive-side value.  With any other type or code the decoder prints [!H]
    and returns 0 without reading further notifications; the attempt then
    returns 0.  If the MTU estimate is what it was when the attempt began,
    this ends the stage and the run; after a change the stage is entered
    anew instead.  In a run without [pmtu] line the first [!H] is followed
    by the summary alone. *)
Theorem host_unreachable_notification :
  (forall q ctl w ai_family ttl progress m e,
     let tv := (gettimeofday w).1 in
     let w1 := (gettimeofday w).2 in
     let d := decode ctl ai_family m in
     let r := recverr_msg (getnameinfo w1) ctl ai_family ttl tv m in
     let rethops := rethops_norm (d_rethops d) in
     d_e d = Some e -> ee_errno e = EHOSTUNREACH ->
     (ttl_exceeded e = true ->
        (0 <= rethops ->
         rethops <> (if d_sndhops d <? 0 then ttl else d_sndhops d) ->
         In (Printf "asymm %2d " [AInt rethops]) r.1.2)
        /\ recverr_from (RecvMsg m :: q) ctl w ai_family ttl progress
           = (let x := recverr_from q r.1.1 w1 ai_family ttl (mtu ctl) in
              (res_of x, ctl_of x, world_of x, r.1.2 ++ out_of x)))
     /\ (ttl_exceeded e = false ->
        last r.1.2 = Some (Printf "!H\n" [])
        /\ recverr_from (RecvMsg m :: q) ctl w ai_family ttl progress
           = (0, r.1.1, set_errqueue q w1, r.1.2)))
  /\ (forall fuel ctl w ai_family ttl i,
        0 <= i < 3 ->
        let p := probe_ttl fuel ctl w ai_family ttl in
        prints "!H\n" (out_of p) = true ->
        res_of p = Some 0
        /\ (mtu (ctl_of p) = mtu ctl ->
            attempts (Datatypes.S fuel) ctl w ai_family ttl i
            = (Done, ctl_of p, world_of p, out_of p))
        /\ (mtu (ctl_of p) <> mtu ctl ->
            attempts (Datatypes.S fuel) ctl w ai_family ttl i
            = (let x := attempts fuel (ctl_of p) (world_of p) ai_family ttl 0 in
               (res_of x, ctl_of x, world_of x, out_of p ++ out_of x))))
  /\ (forall fuel ctl w ai_family ttl w1 o1 c2 w2 o2,
        ttl <= max_hops ctl ->
        set_hop_limit ctl w ai_family ttl = (Go tt, w1, o1) ->
        attempts fuel ctl w1 ai_family ttl 0 = (Done, c2, w2, o2) ->
        hop_loop (Datatypes.S fuel) ctl w ai_family ttl
        = (Some 0, c2, w2, o1 ++ o2 ++ resume c2))
  /\ (forall fuel o w ai_family v4mapped,
        let x := main fuel o w ai_family v4mapped in
        existsb is_pmtu (out_of x) = false ->
        after_stop (out_of x) = None
        \/ (after_stop (out_of x) = Some (resume (ctl_of x)) /\ res_of x = Some 0)).
Proof.
  split; [|split; [|split]].
  - intros q ctl w ai_family ttl progress m e tv w1 d r rethops He Herr.
    pose proof (recverr_from_msg q ctl w ai_family ttl progress m) as Hq.
    cbv zeta in Hq. fold tv w1 r in Hq.
    pose proof (recverr_msg_hostunreach (getnameinfo w1) ctl ai_family ttl tv m e He Herr)
      as Hr. cbv zeta in Hr. fold d r rethops in Hr.
    split; intros Hc; rewrite Hc in Hr; rewrite Hr in Hq |- *; cbn [fst snd] in *.
    + split; [|exact Hq].
      intros H0 Hne. rewrite print_asymm_spec.
      destruct (0 <=? rethops) eqn:E1; bools; [|lia].
      destruct (rethops =? (if d_sndhops d <? 0 then ttl else d_sndhops d)) eqn:E2;
        bools; [contradiction|].
      cbn [andb negb]. rewrite !app_assoc. apply in_or_app. left.
      apply in_or_app. right. left. reflexivity.
    + split; [|exact Hq]. rewrite !app_assoc. apply last_snoc.
  - intros fuel ctl w ai_family ttl i Hi p Hp.
    assert (Hs : existsb is_stop (out_of p) = true)
      by (apply (prints_stop "!H\n"); [reflexivity | exact Hp]).
    assert (Hres : res_of p = Some 0).
    { pose proof (probe_loop_stop fuel ctl w ai_family ttl 0) as [_ H]. exact (H Hs). }
    split; [exact Hres|]. split; intros Hm.
    + apply stop_ends_stage; assumption.
    + apply attempts_after_mtu_change; [exact Hi | | exact Hm].
      fold p. rewrite Hres. discriminate.
  - intros fuel ctl w ai_family ttl w1 o1 c2 w2 o2 H1 H2 H3.
    exact (stage_done_ends_run fuel ctl w ai_family ttl w1 o1 c2 w2 o2 H1 H2 H3).
  - intros fuel o w ai_family v4mapped. apply main_stops_last.
Qed.

(** In a hop-by-hop trace the answer to the probe with TTL 3 arrives with
    hop limit 60, five hops back. *)
Lemma host_unreachable_notification_witness :
  let c := (probe_prepare session AF_INET 3 tv_zero).2 in
  let m := notification 44444 time_exceeded 60 in
  In (Printf "asymm %2d " [AInt 5]) (recverr_msg no_names c AF_INET 3 tv_zero m).1.2
  /\ res_of (recverr c (quiet [RecvMsg (notification 44444 host_unreachable 60)]) AF_INET 3)
     = 0.
Proof.
  cbv zeta. destruct host_unreachable_notification as (H & _). split.
  - destruct (H [] (probe_prepare session AF_INET 3 tv_zero).2 (quiet []) AF_INET 3 (-1)
                (notification 44444 time_exceeded 60) time_exceeded eq_refl eq_refl)
      as [Hc _].
    destruct (Hc eq_refl) as [Ha _].
    apply Ha; [vm_compute; discriminate | vm_compute; discriminate].
  - destruct (H [] (probe_prepare session AF_INET 3 tv_zero).2
                (quiet [RecvMsg (notification 44444 host_unreachable 60)]) AF_INET 3 (-1)
                (notification 44444 host_unreachable 60) host_unreachable eq_refl eq_refl)
      as [_ Hn].
    destruct (Hn eq_refl) as [_ Hq].
    unfold recverr. change (errqueue (quiet ?q)) with q. rewrite Hq. reflexivity.
Defined.

(** ** Termination

    Every loop of the engine either counts up to its bound or starts over
    after having taken a notification off the queue, so a fuel linear in the
    length of the script and in [max_hops] is never used up. *)

Lemma gettimeofday_pending w : pending (gettimeofday w).2 = pending w.
Proof. unfold gettimeofday. destruct (clock w); reflexivity. Qed.

Lemma sendto_pending w : pending (sendto w).2 = pending w.
Proof. unfold sendto. destruct (sendto_ok w); reflexivity. Qed.

Lemma recv_pending w : pending (recv w).2 = pending w.
Proof. unfold recv. destruct (recv_ok w); reflexivity. Qed.

Lemma syscall_fails_pending w : pending (syscall_fails w).2 = pending w.
Proof. unfold syscall_fails. destruct (sys_fail w); reflexivity. Qed.

(** The drain only shortens the queue; if it took nothing, it changed
    nothing and returns the [progress] it was entered with. *)
Lemma recverr_from_pending q : forall ctl w ai_family ttl progress,
  let x := recverr_from q ctl w ai_family ttl progress in
  (pending (world_of x) <= length q)%nat
  /\ (pending (world_of x) = length q ->
      mtu (ctl_of x) = mtu ctl /\ res_of x = progress).
Proof.
  induction q as [|r q IH]; intros ctl w ai_family ttl progress; cbv zeta;
    cbn [recverr_from].
  - destruct (gettimeofday w). unfold pending, world_of, ctl_of, res_of. simpl. auto.
  - destruct (gettimeofday w) as [tv w1]. destruct r as [| |m].
    + specialize (IH ctl w1 ai_family ttl progress). cbv zeta in IH.
      destruct IH as [I1 I2]. cbn [length]. split; lia.
    + unfold pending, world_of. cbn [fst snd errqueue set_errqueue length]. split; lia.
    + destruct (recverr_msg (getnameinfo w1) ctl ai_family ttl tv m) as [[c1 o1] oc].
      destruct oc as [n|p].
      * unfold pending, world_of. cbn [fst snd errqueue set_errqueue length]. split; lia.
      * specialize (IH c1 w1 ai_family ttl p). cbv zeta in IH.
        destruct (recverr_from q c1 w1 ai_family ttl p) as [[[r2 c2] w2] o2].
        unfold world_of in *. cbn [fst snd length] in *. destruct IH as [I1 I2].
        split; lia.
Qed.

Lemma recverr_pending ctl w ai_family ttl :
  let x := recverr ctl w ai_family ttl in
  (pending (world_of x) <= pending w)%nat
  /\ (pending (world_of x) = pending w ->
      mtu (ctl_of x) = mtu ctl /\ res_of x = -1).
Proof. apply recverr_from_pending. Qed.

Lemma probe_finish_pending ctl w ai_family ttl sent :
  let x := probe_finish ctl w ai_family ttl sent in
  (pending (world_of x) <= pending w)%nat
  /\ (pending (world_of x) = pending w -> mtu (ctl_of x) = mtu ctl).
Proof.
  cbv zeta. unfold probe_finish. destruct sent.
  - pose proof (recv_pending w) as Hr. destruct (recv w) as [got w1]. cbn [snd] in Hr.
    destruct got.
    + unfold world_of, ctl_of. cbn [fst snd]. rewrite Hr. auto.
    + pose proof (recverr_pending (set_hisptr (Z.land (hisptr ctl + 1) 63) ctl) w1
                    ai_family ttl) as [H1 H2]. cbv zeta in H1, H2.
      destruct (recverr _ w1 ai_family ttl) as [[[r c] w2] o].
      unfold world_of, ctl_of, res_of in *. cbn [fst snd] in *. rewrite Hr in *.
      split; [exact H1|]. intros H. destruct (H2 H) as [Hm _]. exact Hm.
  - unfold world_of, ctl_of. cbn [fst snd]. auto.
Qed.

Lemma probe_loop_pending fuel : forall ctl w ai_family ttl i,
  let x := probe_loop fuel ctl w ai_family ttl i in
  (pending (world_of x) <= pending w)%nat
  /\ (pending (world_of x) = pending w -> mtu (ctl_of x) = mtu ctl).
Proof.
  induction fuel as [|fuel IH]; intros ctl w ai_family ttl i; cbv zeta; cbn [probe_loop].
  - unfold world_of, ctl_of. cbn [fst snd]. auto.
  - destruct (i <? 10).
    2:{ pose proof (probe_finish_pending ctl w ai_family ttl false) as F. cbv zeta in F.
        destruct (probe_finish ctl w ai_family ttl false) as [[[r c2] w3] o]. exact F. }
    pose proof (gettimeofday_pending w) as Hg.
    destruct (gettimeofday w) as [now w1]. cbn [snd] in Hg.
    pose proof (probe_prepare_tracks ctl ai_family ttl now) as (_ & Hm & _).
    cbv zeta in Hm.
    destruct (probe_prepare ctl ai_family ttl now) as [hdr c1]. cbn [snd] in Hm.
    pose proof (sendto_pending w1) as Hs.
    destruct (sendto w1) as [ok w2]. cbn [snd] in Hs. destruct ok.
    + pose proof (probe_finish_pending c1 w2 ai_family ttl true) as [F1 F2].
      cbv zeta in F1, F2.
      destruct (probe_finish c1 w2 ai_family ttl true) as [[[r c2] w3] o].
      unfold world_of, ctl_of in *. cbn [fst snd] in *.
      split; [lia|]. intros H. rewrite <- Hm. apply F2. lia.
    + pose proof (recverr_pending c1 w2 ai_family ttl) as [R1 R2]. cbv zeta in R1, R2.
      destruct (recverr c1 w2 ai_family ttl) as [[[res c2] w3] o].
      unfold world_of, ctl_of, res_of in *. cbn [fst snd] in *.
      destruct (res =? 0).
      * cbn [fst snd]. split; [lia|]. intros H.
        change (mtu (set_his (his_clear (his c2) (hisptr c2)) c2)) with (mtu c2).
        rewrite <- Hm. apply R2. lia.
      * specialize (IH (set_his (his_clear (his c2) (hisptr c2)) c2) w3 ai_family ttl
                       (if 0 <? res then 0 else i + 1)). cbv zeta in IH.
        destruct (probe_loop fuel _ w3 ai_family ttl _) as [[[r c4] w4] o'].
        cbn [fst snd] in *. destruct IH as [I1 I2].
        split; [lia|]. intros H.
        rewrite I2 by lia.
        change (mtu (set_his (his_clear (his c2) (hisptr c2)) c2)) with (mtu c2).
        rewrite <- Hm. apply R2. lia.
Qed.

Lemma probe_loop_terminates fuel : forall ctl w ai_family ttl i,
  0 <= i <= 10 ->
  (11 * pending w + Z.to_nat (11 - i) <= fuel)%nat ->
  res_of (probe_loop fuel ctl w ai_family ttl i) <> None.
Proof.
  induction fuel as [|fuel IH]; intros ctl w ai_family ttl i Hi Hf; [lia|].
  cbn [probe_loop].
  destruct (i <? 10) eqn:Ei; bools;
    [|destruct (probe_finish ctl w ai_family ttl false) as [[[r c] w'] o]; discriminate].
  pose proof (gettimeofday_pending w) as Hg.
  destruct (gettimeofday w) as [now w1]. cbn [snd] in Hg.
  destruct (probe_prepare ctl ai_family ttl now) as [hdr c1].
  pose proof (sendto_pending w1) as Hs.
  destruct (sendto w1) as [ok w2]. cbn [snd] in Hs. destruct ok;
    [destruct (probe_finish c1 w2 ai_family ttl true) as [[[r c] w'] o]; discriminate|].
  pose proof (recverr_pending c1 w2 ai_family ttl) as [R1 R2]. cbv zeta in R1, R2.
  destruct (recverr c1 w2 ai_family ttl) as [[[res c2] w3] o].
  unfold world_of, ctl_of, res_of in *. cbn [fst snd] in *.
  destruct (res =? 0); [discriminate|].
  assert (Hrec : res_of (probe_loop fuel (set_his (his_clear (his c2) (hisptr c2)) c2) w3
                           ai_family ttl (if 0 <? res then 0 else i + 1)) <> None).
  { destruct (0 <? res) eqn:Er; bools.
    - apply IH; [lia|].
      assert (pending w3 < pending w2)%nat.
      { destruct (Nat.eq_dec (pending w3) (pending w2)) as [E|E]; [|lia].
        destruct (R2 E) as [_ Hres]. lia. }
      lia.
    - apply IH; lia. }
  destruct (probe_loop fuel _ w3 ai_family ttl _) as [[[r c4] w4] o'].
  exact Hrec.
Qed.

Lemma attempts_terminates fuel : forall ctl w ai_family ttl i,
  0 <= i <= 3 ->
  (14 * pending w + 12 + Z.to_nat (3 - i) <= fuel)%nat ->
  let x := attempts fuel ctl w ai_family ttl i in
  res_of x <> OutOfFuel /\ (pending (world_of x) <= pending w)%nat.
Proof.
  induction fuel as [|fuel IH]; intros ctl w ai_family ttl i Hi Hf; [lia|].
  cbv zeta. cbn [attempts].
  destruct (i <? 3) eqn:Ei; bools;
    [|unfold res_of, world_of; cbn [fst snd]; split; [discriminate | lia]].
  pose proof (probe_loop_terminates fuel ctl w ai_family ttl 0 ltac:(lia) ltac:(lia)) as Ht.
  pose proof (probe_loop_pending fuel ctl w ai_family ttl 0) as [P1 P2].
  cbv zeta in P1, P2. unfold probe_ttl.
  destruct (probe_loop fuel ctl w ai_family ttl 0) as [[[res c1] w1] o].
  unfold res_of, world_of, ctl_of in *. cbn [fst snd] in *.
  destruct res as [res|]; [|contradiction].
  destruct (mtu c1 =? mtu ctl) eqn:Em; bools; cbn [negb].
  - destruct (res =? 0); [cbn [fst snd]; split; [discriminate | lia]|].
    destruct (0 <? res); [cbn [fst snd]; split; [discriminate | lia]|].
    specialize (IH c1 w1 ai_family ttl (i + 1) ltac:(lia) ltac:(lia)). cbv zeta in IH.
    destruct (attempts fuel c1 w1 ai_family ttl (i + 1)) as [[[s c2] w2] o'].
    cbn [fst snd] in *. destruct IH as [I1 I2]. split; [exact I1 | lia].
  - assert (Hlt : (pending w1 < pending w)%nat).
    { destruct (Nat.eq_dec (pending w1) (pending w)) as [E|E]; [|lia].
      specialize (P2 E). contradiction. }
    specialize (IH c1 w1 ai_family ttl 0 ltac:(lia) ltac:(lia)). cbv zeta in IH.
    destruct (attempts fuel c1 w1 ai_family ttl 0) as [[[s c2] w2] o'].
    cbn [fst snd] in *. destruct IH as [I1 I2]. split; [exact I1 | lia].
Qed.

Lemma set_hop_limit_pending ctl w ai_family ttl :
  pending (set_hop_limit ctl w ai_family ttl).1.2 = pending w.
Proof.
  unfold set_hop_limit, setsockopt.
  repeat (branch
          || match goal with
             | |- context [syscall_fails ?w0] =>
                 let H := fresh "H" in
                 pose proof (syscall_fails_pending w0) as H;
                 destruct (syscall_fails w0) as [[|] ?]; cbn [snd] in H
             end);
    cbn [fst snd]; congruence.
Qed.

Lemma hop_loop_terminates fuel : forall ctl w ai_family ttl,
  (14 * pending w + 16 + Z.to_nat (max_hops ctl - ttl + 1) <= fuel)%nat ->
  res_of (hop_loop fuel ctl w ai_family ttl) <> None.
Proof.
  induction fuel as [|fuel IH]; intros ctl w ai_family ttl Hf; [lia|].
  cbn [hop_loop]. destruct (ttl <=? max_hops ctl) eqn:E; bools; [|discriminate].
  pose proof (set_hop_limit_pending ctl w ai_family ttl) as Hp.
  destruct (set_hop_limit ctl w ai_family ttl) as [[r w1] o1]. cbn [fst snd] in Hp.
  destruct r as [[]|n]; [|discriminate].
  pose proof (attempts_terminates fuel ctl w1 ai_family ttl 0 ltac:(lia) ltac:(lia))
    as [A1 A2]. cbv zeta in A1, A2.
  pose proof (attempts_tracks fuel ctl w1 ai_family ttl 0) as ((_ & Hmax & _) & _).
  cbv zeta in Hmax.
  destruct (attempts fuel ctl w1 ai_family ttl 0) as [[[s c2] w2] o2].
  unfold res_of, world_of, ctl_of in *. cbn [fst snd] in *.
  destruct s; [discriminate| |contradiction].
  specialize (IH c2 w2 ai_family (ttl + 1)).
  assert (Hf' : (14 * pending w2 + 16 + Z.to_nat (max_hops c2 - (ttl + 1) + 1) <= fuel)%nat)
    by (rewrite Hmax; lia).
  specialize (IH Hf').
  destruct (hop_loop fuel c2 w2 ai_family (ttl + 1)) as [[[r3 c3] w3] o3]. exact IH.
Qed.

(** The whole program comes to an exit status once the fuel covers the
    script of the error queue and the hop limit. *)
Theorem main_terminates fuel o w ai_family v4mapped :
  ai_family = AF_INET \/ ai_family = AF_INET6 ->
  (14 * pending w + 16 + Z.to_nat (opt_max_hops o) <= fuel)%nat ->
  res_of (main fuel o w ai_family v4mapped) <> None.
Proof.
  intros Hfam Hf. unfold main.
  pose proof (setup_spec (init_state o) w ai_family v4mapped Hfam) as (_ & _ & H3).
  cbv zeta in H3.
  assert (Hp : pending (setup (init_state o) w ai_family v4mapped).1.2 = pending w).
  { unfold setup, setup_inet6, setup_inet, setsockopt.
    repeat (branch
            || match goal with
               | |- context [syscall_fails ?w0] =>
                   let H := fresh "H" in
                   pose proof (syscall_fails_pending w0) as H;
                   destruct (syscall_fails w0) as [[|] ?]; cbn [snd] in H
               end);
      cbn [fst snd]; congruence. }
  destruct (setup (init_state o) w ai_family v4mapped) as [[r w1] o1].
  cbn [fst snd] in *. destruct r as [c|n]; [|discriminate].
  destruct H3 as (_ & _ & _ & Hmax & _).
  pose proof (hop_loop_terminates fuel c w1 ai_family 1) as Hl.
  assert (Hf' : (14 * pending w1 + 16 + Z.to_nat (max_hops c - 1 + 1) <= fuel)%nat).
  { rewrite Hp, Hmax. cbn [max_hops init_state].
    replace (opt_max_hops o - 1 + 1) with (opt_max_hops o) by lia. exact Hf. }
  specialize (Hl Hf').
  destruct (hop_loop fuel c w1 ai_family 1) as [[[r2 c2] w2] o2]. exact Hl.
Qed.

(** ** The history array stays in shape

    Every write to [his] in a run is a write inside the array: its length
    stays 64 and [hisptr] stays among its indices. *)

Lemma his_take_length h slot : length (his_take h slot).2 = length h.
Proof.
  unfold his_take. branch; cbn [snd]; [|reflexivity].
  unfold his_clear, his_put. apply length_insert.
Qed.

Lemma recverr_msg_wf gni ctl ai_family ttl tv m :
  his_wf ctl -> his_wf (recverr_msg gni ctl ai_family ttl tv m).1.1.
Proof.
  intros [Hl Hp].
  assert (Hd : his_wf (d_ctl (decode ctl ai_family m))).
  { unfold decode, his_wf. cbn [d_ctl his hisptr set_his].
    rewrite his_take_length. auto. }
  destruct (d_e (decode ctl ai_family m)) as [e|] eqn:He.
  - rewrite (recverr_msg_some gni ctl ai_family ttl tv m e He). cbv zeta. cbn [fst snd].
    pose proof (classify_frame (d_ctl (decode ctl ai_family m)) ttl
                  (d_sndhops (decode ctl ai_family m))
                  (rethops_norm (d_rethops (decode ctl ai_family m))) (mtu ctl) e)
      as (H1 & H2 & _).
    unfold his_wf in *. rewrite H1, H2. exact Hd.
  - rewrite (recverr_msg_none gni ctl ai_family ttl tv m He). exact Hd.
Qed.

Lemma recverr_from_wf q : forall ctl w ai_family ttl progress,
  his_wf ctl -> his_wf (ctl_of (recverr_from q ctl w ai_family ttl progress)).
Proof.
  induction q as [|r q IH]; intros ctl w ai_family ttl progress Hwf; cbn [recverr_from].
  - destruct (gettimeofday w). exact Hwf.
  - destruct (gettimeofday w) as [tv w1]. destruct r as [| |m].
    + apply IH. exact Hwf.
    + exact Hwf.
    + pose proof (recverr_msg_wf (getnameinfo w1) ctl ai_family ttl tv m Hwf) as H1.
      destruct (recverr_msg (getnameinfo w1) ctl ai_family ttl tv m) as [[c1 o1] oc].
      cbn [fst snd] in H1. destruct oc as [r|p]; [exact H1|].
      specialize (IH c1 w1 ai_family ttl p H1).
      destruct (recverr_from q c1 w1 ai_family ttl p) as [[[r2 c2] w2] o2]. exact IH.
Qed.

Lemma probe_prepare_wf ctl ai_family ttl now :
  his_wf ctl -> his_wf (probe_prepare ctl ai_family ttl now).2.
Proof.
  intros [Hl Hp]. unfold probe_prepare, his_wf, his_put. cbn [snd his hisptr set_his].
  repeat branch; cbn [his hisptr set_target_port]; rewrite length_insert; auto.
Qed.

Lemma probe_finish_wf ctl w ai_family ttl sent :
  his_wf ctl -> his_wf (ctl_of (probe_finish ctl w ai_family ttl sent)).
Proof.
  intros [Hl Hp]. unfold probe_finish.
  assert (Hn : his_wf (set_hisptr (Z.land (hisptr ctl + 1) 63) ctl)).
  { split; [exact Hl | apply land_63_range]. }
  destruct sent; [|exact Hn].
  destruct (recv w) as [got w1]. destruct got; [exact Hn|].
  pose proof (recverr_from_wf (errqueue w1) _ w1 ai_family ttl (-1) Hn) as H.
  unfold recverr. destruct (recverr_from _ _ _ _ _ _) as [[[r c] w2] o]. exact H.
Qed.

Lemma probe_loop_wf fuel : forall ctl w ai_family ttl i,
  his_wf ctl -> his_wf (ctl_of (probe_loop fuel ctl w ai_family ttl i)).
Proof.
  induction fuel as [|fuel IH]; intros ctl w ai_family ttl i Hwf; cbn [probe_loop];
    [exact Hwf|].
  destruct (i <? 10).
  - destruct (gettimeofday w) as [now w1].
    pose proof (probe_prepare_wf ctl ai_family ttl now Hwf) as H1.
    destruct (probe_prepare ctl ai_family ttl now) as [hdr c1]. cbn [snd] in H1.
    destruct (sendto w1) as [ok w2]. destruct ok.
    + pose proof (probe_finish_wf c1 w2 ai_family ttl true H1) as H2.
      destruct (probe_finish c1 w2 ai_family ttl true) as [[[r c2] w3] o]. exact H2.
    + pose proof (recverr_from_wf (errqueue w2) c1 w2 ai_family ttl (-1) H1) as H2.
      unfold recverr. destruct (recverr_from _ _ _ _ _ _) as [[[res c2] w3] o].
      unfold ctl_of in *. cbn [fst snd] in *.
      assert (H3 : his_wf (set_his (his_clear (his c2) (hisptr c2)) c2)).
      { destruct H2 as [Hl Hp]. unfold his_wf, his_clear, his_put.
        cbn [his hisptr set_his]. rewrite length_insert. auto. }
      destruct (res =? 0); [exact H3|].
      specialize (IH _ w3 ai_family ttl (if 0 <? res then 0 else i + 1) H3).
      destruct (probe_loop fuel _ w3 ai_family ttl _) as [[[r c4] w4] o']. exact IH.
  - pose proof (probe_finish_wf ctl w ai_family ttl false Hwf) as H2.
    destruct (probe_finish ctl w ai_family ttl false) as [[[r c2] w3] o]. exact H2.
Qed.

Lemma attempts_wf fuel : forall ctl w ai_family ttl i,
  his_wf ctl -> his_wf (ctl_of (attempts fuel ctl w ai_family ttl i)).
Proof.
  induction fuel as [|fuel IH]; intros ctl w ai_family ttl i Hwf; cbn [attempts];
    [exact Hwf|].
  destruct (i <? 3); [|exact Hwf].
  pose proof (probe_loop_wf fuel ctl w ai_family ttl 0 Hwf) as H1. unfold probe_ttl.
  destruct (probe_loop fuel ctl w ai_family ttl 0) as [[[res c1] w1] o].
  unfold ctl_of in *. cbn [fst snd] in *.
  destruct res as [res|]; [|exact H1].
  destruct (negb (mtu c1 =? mtu ctl)).
  - specialize (IH c1 w1 ai_family ttl 0 H1).
    destruct (attempts fuel c1 w1 ai_family ttl 0) as [[[s c2] w2] o']. exact IH.
  - destruct (res =? 0); [exact H1|]. destruct (0 <? res); [exact H1|].
    specialize (IH c1 w1 ai_family ttl (i + 1) H1).
    destruct (attempts fuel c1 w1 ai_family ttl (i + 1)) as [[[s c2] w2] o']. exact IH.
Qed.

Lemma hop_loop_wf fuel : forall ctl w ai_family ttl,
  his_wf ctl -> his_wf (ctl_of (hop_loop fuel ctl w ai_family ttl)).
Proof.
  induction fuel as [|fuel IH]; intros ctl w ai_family ttl Hwf; cbn [hop_loop].
  - destruct (ttl <=? max_hops ctl); exact Hwf.
  - destruct (ttl <=? max_hops ctl); [|exact Hwf].
    destruct (set_hop_limit ctl w ai_family ttl) as [[r w1] o1].
    destruct r as [[]|n]; [|exact Hwf].
    pose proof (attempts_wf fuel ctl w1 ai_family ttl 0 Hwf) as H1.
    destruct (attempts fuel ctl w1 ai_family ttl 0) as [[[s c2] w2] o2].
    unfold ctl_of in *. cbn [fst snd] in *.
    destruct s; [exact H1| |exact H1].
    specialize (IH c2 w2 ai_family (ttl + 1) H1).
    destruct (hop_loop fuel c2 w2 ai_family (ttl + 1)) as [[[r3 c3] w3] o3]. exact IH.
Qed.

Lemma main_wf fuel o w ai_family v4mapped :
  his_wf (ctl_of (main fuel o w ai_family v4mapped)).
Proof.
  assert (H0 : his_wf (init_state o)) by (split; [reflexivity | simpl; lia]).
  unfold main.
  assert (Hs : match (setup (init_state o) w ai_family v4mapped).1.1 with
               | Go c => his_wf c
               | Exit _ => True
               end).
  { unfold setup, setup_inet6, setup_inet, setsockopt.
    repeat (branch || destruct (syscall_fails _) as [[|] ?]); cbn [fst snd];
      try exact I; exact H0. }
  destruct (setup (init_state o) w ai_family v4mapped) as [[r w1] o1].
  cbn [fst snd] in Hs. destruct r as [c|n]; [|exact H0].
  pose proof (hop_loop_wf fuel c w1 ai_family 1 Hs) as Hl.
  destruct (hop_loop fuel c w1 ai_family 1) as [[[r2 c2] w2] o2]. exact Hl.
Qed.

(** * Further properties of the engine *)

(** ** The host column and the result of the drain *)

(** X1.  [print_host] fills a column of 52 characters: a host text of at most
    51 characters is padded to exactly 52, a longer one is followed by one
    blank. *)
Theorem host_column_width ctl a b :
  columns (print_host ctl a b)
  = Z.max HOST_COLUMN_SIZE
          (strlen a + (if show_both ctl then strlen b + 3 else 0) + 1).
Proof.
  assert (Ha : 0 <= strlen a) by (unfold strlen; lia).
  assert (Hb : 0 <= strlen b) by (unfold strlen; lia).
  unfold print_host, columns, HOST_COLUMN_SIZE.
  destruct (show_both ctl); cbn [app fold_right width]; cbn [String.eqb Ascii.eqb Bool.eqb];
    cbv match; change (strlen EmptyString) with 0; branch; bools; lia.
Qed.

Lemma classify_outcome ctl ttl sndhops rethops e :
  let x := classify ctl ttl sndhops rethops (mtu ctl) e in
  (x.2 = Return 0 /\ existsb is_final x.1.2 = true)
  \/ (x.2 = Restart (mtu x.1.1) /\ existsb is_final x.1.2 = false).
Proof.
  cbv zeta. unfold classify.
  repeat branch; cbn [fst snd];
    first [ left; split; reflexivity
          | right; split; [reflexivity|];
            rewrite ?existsb_app, ?print_asymm_none by (intros; reflexivity); reflexivity ].
Qed.

Lemma recverr_msg_outcome gni ctl ai_family ttl tv m :
  let x := recverr_msg gni ctl ai_family ttl tv m in
  x.1.2 <> []
  /\ ((x.2 = Return 0 /\ existsb is_final x.1.2 = true)
      \/ (x.2 = Restart (mtu x.1.1) /\ existsb is_final x.1.2 = false)).
Proof.
  cbv zeta. destruct (d_e (decode ctl ai_family m)) as [e|] eqn:He.
  - rewrite (recverr_msg_head is_final gni ctl ai_family ttl tv m e ltac:(shapes) He).
    cbv zeta.
    rewrite (recverr_msg_some gni ctl ai_family ttl tv m e He). cbv zeta. cbn [fst snd].
    assert (Hm : mtu (d_ctl (decode ctl ai_family m)) = mtu ctl) by reflexivity.
    rewrite <- Hm. split.
    + intros H. apply app_eq_nil in H. destruct H as [_ H].
      apply app_eq_nil in H. destruct H as [_ H].
      apply app_eq_nil in H. destruct H as [_ H].
      revert H. unfold classify. repeat branch; cbn [fst snd]; try discriminate.
      intros H. apply app_eq_nil in H. destruct H as [_ H]. discriminate.
    + apply classify_outcome.
  - rewrite (recverr_msg_noinfo is_final gni ctl ai_family ttl tv m ltac:(shapes) He).
    rewrite (recverr_msg_none gni ctl ai_family ttl tv m He). cbn [fst snd].
    split; [|left; split; reflexivity].
    intros H. apply app_eq_nil in H. destruct H as [_ H]. discriminate.
Qed.

Lemma recverr_from_result q : forall ctl w ai_family ttl progress,
  let x := recverr_from q ctl w ai_family ttl progress in
  (out_of x = [] /\ res_of x = progress /\ ctl_of x = ctl)
  \/ (existsb is_final (out_of x) = true /\ res_of x = 0)
  \/ (out_of x <> [] /\ existsb is_final (out_of x) = false
      /\ res_of x = mtu (ctl_of x)).
Proof.
  induction q as [|r q IH]; intros ctl w ai_family ttl progress; cbv zeta;
    cbn [recverr_from].
  - destruct (gettimeofday w). left. auto.
  - destruct (gettimeofday w) as [tv w1]. destruct r as [| |m].
    + apply IH.
    + left. auto.
    + pose proof (recverr_msg_outcome (getnameinfo w1) ctl ai_family ttl tv m) as [Hne Ho].
      cbv zeta in Hne, Ho.
      destruct (recverr_msg (getnameinfo w1) ctl ai_family ttl tv m) as [[c1 o1] oc].
      cbn [fst snd] in *. destruct Ho as [[-> Ht]|[-> Ht]].
      * right. left. unfold res_of, out_of. cbn [fst snd]. auto.
      * specialize (IH c1 w1 ai_family ttl (mtu c1)). cbv zeta in IH.
        destruct (recverr_from q c1 w1 ai_family ttl (mtu c1)) as [[[r2 c2] w2] o2].
        unfold res_of, ctl_of, out_of in *. cbn [fst snd] in *.
        destruct IH as [(-> & -> & ->)|[[Hf ->]|(Hn & Hf & ->)]].
        -- right. right. rewrite app_nil_r. auto.
        -- right. left. split; [|reflexivity]. rewrite existsb_app, Hf. apply orb_true_r.
        -- right. right. split; [|split; [|reflexivity]].
           ++ intros H. apply app_eq_nil in H. tauto.
           ++ rewrite existsb_app, Ht, Hf. reflexivity.
Qed.

(** X2.  What [recverr] returns is decided by what it printed.  Having
    printed nothing (no notification was decoded) it returns -1 and leaves
    the state untouched.  Having printed a line that ends the drain
    ([reached], [!P], [!H], [!N], [!A], [no info] or the [NET ERROR] report)
    it returns 0.  In every other case it returns the MTU estimate as it
    stands after the last notification decoded.  That estimate is whatever
    the last [pmtu] line announced and can itself be 0 or -1; as long as it
    is positive, -1 is returned only when nothing was decoded and 0 only
    after a line that ends the drain. *)
Theorem recverr_result ctl w ai_family ttl :
  let x := recverr ctl w ai_family ttl in
  (out_of x = [] -> res_of x = -1 /\ ctl_of x = ctl)
  /\ (existsb is_final (out_of x) = true -> res_of x = 0)
  /\ (out_of x <> [] -> existsb is_final (out_of x) = false ->
      res_of x = mtu (ctl_of x))
  /\ (0 < mtu (ctl_of x) ->
      (res_of x = -1 <-> out_of x = [])
      /\ (res_of x = 0 <-> existsb is_final (out_of x) = true)).
Proof.
  cbv zeta. unfold recverr.
  pose proof (recverr_from_result (errqueue w) ctl w ai_family ttl (-1)) as H.
  cbv zeta in H.
  destruct (recverr_from (errqueue w) ctl w ai_family ttl (-1)) as [[[r c] w'] o].
  unfold res_of, ctl_of, out_of in *. cbn [fst snd] in *.
  destruct H as [(-> & -> & ->)|[[Hf ->]|(Hn & Hf & ->)]].
  - split; [auto|]. split; [discriminate|]. split; [congruence|].
    intros _. split; split; auto; discriminate.
  - assert (Hne : o <> []) by (intros ->; discriminate).
    split; [intros; contradiction|]. split; [reflexivity|]. split; [congruence|].
    intros _. split; split; auto; try discriminate. intros; contradiction.
  - split; [intros; contradiction|]. split; [congruence|]. split; [reflexivity|].
    intros Hpos. split; split; intros; try contradiction; try congruence; lia.
Qed.

(** ** The history, the control messages and the resolver *)

Lemma to_uint16_id z : 0 <= z <= 65535 -> to_uint16 z = z.
Proof. intros H. unfold to_uint16. apply Z.mod_small. lia. Qed.

Lemma probe_prepare_state ctl ai_family ttl now :
  ai_family = AF_INET \/ ai_family = AF_INET6 ->
  let c := (probe_prepare ctl ai_family ttl now).2 in
  his c = his_put (his ctl) (hisptr ctl) {| hops := ttl; sendtime := now |}
  /\ target_port c = to_uint16 (base_port ctl + hisptr ctl)
  /\ base_port c = base_port ctl /\ hisptr c = hisptr ctl.
Proof. intros [-> | ->]; cbv zeta; unfold probe_prepare; simpl; auto. Qed.

Lemma his_clear_get h i :
  0 <= i < Z.of_nat (length h) -> hops (his_get (his_clear h i) i) = 0.
Proof. intros H. unfold his_clear. rewrite his_get_put by exact H. reflexivity. Qed.

(** X3.  Round trip through the history.  A probe recorded by [probe_ttl] in
    one of the slots 0..62 is recognised by the decoder from the port of the
    notification alone: a notification without echoed payload for the port
    the probe went to yields the probe's TTL and send time.  The record is
    used up by it: a second notification for the same port yields
    neither. *)
Theorem history_round_trip ctl ai_family ttl now m m' :
  ai_family = AF_INET \/ ai_family = AF_INET6 ->
  his_wf ctl -> hisptr ctl <= 62 ->
  0 <= base_port ctl -> base_port ctl + hisptr ctl <= 65535 ->
  ttl <> 0 ->
  let c := (probe_prepare ctl ai_family ttl now).2 in
  addr_port m = target_port c -> recv_size m <> sizeof_probehdr ->
  addr_port m' = target_port c -> recv_size m' <> sizeof_probehdr ->
  let d := decode c ai_family m in
  let d' := decode (d_ctl d) ai_family m' in
  (d_sndhops d = ttl /\ d_rettv d = Some now)
  /\ (d_sndhops d' = -1 /\ d_rettv d' = None).
Proof.
  intros Hfam [Hlen Hptr] H62 Hbp Hsum Httl c Hport Hsize Hport' Hsize' d d'.
  destruct (probe_prepare_state ctl ai_family ttl now Hfam) as (Hhis & Htp & Hb & Hp).
  fold c in Hhis, Htp, Hb, Hp.
  rewrite to_uint16_id in Htp by lia.
  assert (Hslot : slot_of c ai_family m = hisptr ctl).
  { unfold slot_of. destruct Hfam as [-> | ->]; simpl; lia. }
  assert (Hget : his_get (his c) (hisptr ctl) = {| hops := ttl; sendtime := now |}).
  { rewrite Hhis. apply his_get_put. lia. }
  destruct (decode_matched c ai_family m Hsize) as (D1 & D2 & D3).
  { rewrite Hslot. lia. }
  { rewrite Hslot, Hget. exact Httl. }
  rewrite Hslot in D1, D2, D3. rewrite Hget in D1, D2. cbn [hops sendtime] in D1, D2.
  split; [split; assumption|].
  assert (Hslot' : slot_of (d_ctl d) ai_family m' = hisptr ctl).
  { unfold slot_of. change (base_port (d_ctl d)) with (base_port c).
    destruct Hfam as [-> | ->]; simpl; lia. }
  destruct (decode_unmatched (d_ctl d) ai_family m' Hsize') as (U1 & U2 & _);
    [|split; assumption].
  right. right. rewrite Hslot'. fold d in D3. rewrite D3.
  change (sendtime {| hops := ttl; sendtime := now |}) with now.
  unfold his_clear. rewrite his_get_put; [reflexivity|].
  rewrite Hhis. unfold his_put. rewrite length_insert. lia.
Qed.

Lemma history_round_trip_witness :
  d_sndhops (decode (probe_prepare session AF_INET 7 {| tv_sec := 5; tv_usec := 0 |}).2
                    AF_INET (notification 44444 time_exceeded 58)) = 7.
Proof.
  assert (Hwf : his_wf session) by (split; [reflexivity | simpl; lia]).
  pose proof (history_round_trip session AF_INET 7 {| tv_sec := 5; tv_usec := 0 |}
                (notification 44444 time_exceeded 58)
                (notification 44444 time_exceeded 58)
                (or_introl eq_refl) Hwf ltac:(simpl; lia) ltac:(simpl; lia)
                ltac:(simpl; lia) ltac:(lia) eq_refl ltac:(discriminate)
                eq_refl ltac:(discriminate)) as H.
  exact (proj1 (proj1 H)).
Defined.

(** X4.  The port of a probe is reduced to 16 bits, the slot of a
    notification is not reduced at all.  With a base port so high that
    [base_port + hisptr] passes 65535, the notification for the port the
    probe went to falls on a negative slot and is never matched. *)
Theorem port_wrap_loses_probe ctl ai_family ttl now m :
  ai_family = AF_INET \/ ai_family = AF_INET6 ->
  his_wf ctl -> base_port ctl <= 65535 -> 65536 <= base_port ctl + hisptr ctl ->
  let c := (probe_prepare ctl ai_family ttl now).2 in
  addr_port m = target_port c -> recv_size m <> sizeof_probehdr ->
  let d := decode c ai_family m in
  slot_of c ai_family m = hisptr ctl - 65536
  /\ d_sndhops d = -1 /\ d_rettv d = None /\ his (d_ctl d) = his c.
Proof.
  intros Hfam [Hlen Hptr] Hbp Hsum c Hport Hsize d.
  destruct (probe_prepare_state ctl ai_family ttl now Hfam) as (Hhis & Htp & Hb & Hp).
  fold c in Hhis, Htp, Hb, Hp.
  assert (Hw : to_uint16 (base_port ctl + hisptr ctl) = base_port ctl + hisptr ctl - 65536).
  { unfold to_uint16. symmetry. apply (Z.mod_unique _ _ 1); lia. }
  assert (Hslot : slot_of c ai_family m = hisptr ctl - 65536).
  { unfold slot_of. destruct Hfam as [-> | ->]; simpl; lia. }
  split; [exact Hslot|].
  apply decode_unmatched; [exact Hsize|]. left. lia.
Qed.

Lemma port_wrap_loses_probe_witness :
  let s := set_hisptr 40 (set_overhead 28 (init_state
             {| opt_mtu := 1500; opt_max_hops := 30; opt_base_port := 65500;
                opt_no_resolve := true; opt_show_both := false |})) in
  target_port (probe_prepare s AF_INET 7 tv_zero).2 = 4
  /\ d_sndhops (decode (probe_prepare s AF_INET 7 tv_zero).2 AF_INET
                       (notification 4 time_exceeded 58)) = -1.
Proof.
  intros s. split; [reflexivity|].
  assert (Hwf : his_wf s) by (split; [reflexivity | simpl; lia]).
  pose proof (port_wrap_loses_probe s AF_INET 7 tv_zero (notification 4 time_exceeded 58)
                (or_introl eq_refl) Hwf ltac:(simpl; lia) ltac:(simpl; lia)
                eq_refl ltac:(discriminate)) as H.
  exact (proj1 (proj2 H)).
Defined.

(** ** Control messages *)

Lemma scan_cmsg_recverr c e r :
  (scan_cmsg c e r).1.1 = if is_recverr c then Some (data_err c) else e.
Proof.
  unfold scan_cmsg, is_recverr.
  destruct (cmsg_level c =? SOL_IPV6) eqn:E6; cbn [andb orb].
  - assert ((cmsg_level c =? SOL_IP) = false) as ->
        by (bools; apply Z.eqb_neq; unfold SOL_IP, SOL_IPV6 in *; lia).
    cbn [andb orb]. rewrite orb_false_r.
    destruct (cmsg_type c =? IPV6_RECVERR); [reflexivity|].
    branch; reflexivity.
  - destruct (cmsg_level c =? SOL_IP); cbn [andb orb]; [|reflexivity].
    destruct (cmsg_type c =? IP_RECVERR); [reflexivity|].
    branch; reflexivity.
Qed.

Lemma scan_cmsgs_absent l : forall e r,
  forallb (fun c => negb (is_recverr c)) l = true ->
  (scan_cmsgs l e r).1.1 = e.
Proof.
  induction l as [|c l IH]; intros e r H; simpl in *; [reflexivity|].
  apply andb_true_iff in H. destruct H as [Hc Hl]. apply negb_true_iff in Hc.
  pose proof (scan_cmsg_recverr c e r) as He. rewrite Hc in He.
  destruct (scan_cmsg c e r) as [[e1 r1] o1]. simpl in He. subst e1.
  specialize (IH e r1 Hl).
  destruct (scan_cmsgs l e r1) as [[e2 r2] o2]. exact IH.
Qed.

(** X5.  The control messages are scanned in order and the last of a kind
    wins: scanning a list is scanning its parts one after the other; the
    error record decoded is that of the last error message, the hop limit
    that of the last hop-limit message (an [int] for IPv6, one byte for
    IPv4), whatever came before. *)
Theorem last_control_message_wins l1 l2 c e r :
  scan_cmsgs (l1 ++ l2) e r
  = (let x := scan_cmsgs l1 e r in
     let y := scan_cmsgs l2 x.1.1 x.1.2 in
     (y.1.1, y.1.2, x.2 ++ y.2))
  /\ (is_recverr c = true ->
      forallb (fun c => negb (is_recverr c)) l2 = true ->
      (scan_cmsgs (l1 ++ c :: l2) e r).1.1 = Some (data_err c))
  /\ (is_hoplimit c = true ->
      forallb (fun c => negb (is_hoplimit c)) l2 = true ->
      (scan_cmsgs (l1 ++ c :: l2) e r).1.2
      = if cmsg_level c =? SOL_IPV6 then data_int c else data_u8 c).
Proof.
  split; [apply scan_cmsgs_app|]. split; intros Hc Hl2.
  - rewrite scan_cmsgs_app. cbv zeta. cbn [fst snd scan_cmsgs].
    pose proof (scan_cmsg_recverr c (scan_cmsgs l1 e r).1.1 (scan_cmsgs l1 e r).1.2) as H.
    rewrite Hc in H.
    destruct (scan_cmsg c _ _) as [[e1 r1] o1]. cbn [fst snd] in H. subst e1.
    pose proof (scan_cmsgs_absent l2 (Some (data_err c)) r1 Hl2) as H.
    destruct (scan_cmsgs l2 _ r1) as [[e2 r2] o2]. exact H.
  - rewrite scan_cmsgs_app. cbv zeta. cbn [fst snd scan_cmsgs].
    pose proof (scan_cmsg_hoplimit c (scan_cmsgs l1 e r).1.1 (scan_cmsgs l1 e r).1.2) as H.
    rewrite Hc in H.
    destruct (scan_cmsg c _ _) as [[e1 r1] o1]. cbn [fst snd] in H. subst r1.
    pose proof (scan_cmsgs_no_hoplimit l2 e1
                  (if cmsg_level c =? SOL_IPV6 then data_int c else data_u8 c) Hl2) as H.
    destruct (scan_cmsgs l2 e1 _) as [[e2 r2] o2]. exact H.
Qed.

Lemma last_control_message_wins_witness :
  (scan_cmsgs (cmsgs (notification 44444 time_exceeded 58)
                 ++ {| cmsg_level := SOL_IP; cmsg_type := IP_RECVERR;
                       cmsg_data := CmsgErr port_unreachable |} :: []) None (-1)).1.1
  = Some port_unreachable.
Proof.
  exact (proj1 (proj2 (last_control_message_wins
                         (cmsgs (notification 44444 time_exceeded 58)) []
                         {| cmsg_level := SOL_IP; cmsg_type := IP_RECVERR;
                            cmsg_data := CmsgErr port_unreachable |} None (-1)))
               eq_refl eq_refl).
Defined.

(** X6.  A notification without an extended error among its control
    messages is answered by [no info] and ends the drain with result 0.  The
    decoder prints neither host nor round-trip time and leaves the MTU
    estimate and the hop counts alone; the history record of the port is
    used up all the same. *)
Theorem no_error_record gni ctl ai_family ttl tv m :
  forallb (fun c => negb (is_recverr c)) (cmsgs m) = true ->
  let x := recverr_msg gni ctl ai_family ttl tv m in
  x.2 = Return 0
  /\ last x.1.2 = Some (Printf "no info\n" [])
  /\ (forall ev, In ev x.1.2 ->
      ev = Printf "no info\n" []
      \/ exists t, ev = Printf "cmsg6:%d\n " [AInt t] \/ ev = Printf "cmsg4:%d\n " [AInt t])
  /\ mtu x.1.1 = mtu ctl /\ hops_to x.1.1 = hops_to ctl /\ hops_from x.1.1 = hops_from ctl
  /\ his x.1.1 = (his_take (his ctl) (slot_of ctl ai_family m)).2.
Proof.
  intros Hno. cbv zeta.
  assert (He : d_e (decode ctl ai_family m) = None).
  { unfold decode. cbn [d_e]. apply scan_cmsgs_absent. exact Hno. }
  rewrite (recverr_msg_none gni ctl ai_family ttl tv m He). cbn [fst snd].
  split; [reflexivity|]. split; [apply last_snoc|].
  split; [|repeat split; reflexivity].
  intros ev Hin. apply in_app_or in Hin. destruct Hin as [Hin|[<-|[]]]; [|left; reflexivity].
  right. unfold decode in Hin. cbn [d_out] in Hin. clear He Hno.
  revert Hin. generalize (@None sock_extended_err) (-1).
  induction (cmsgs m) as [|c l IH]; intros e r Hin; [destruct Hin|].
  cbn [scan_cmsgs] in Hin.
  destruct (scan_cmsg c e r) as [[e1 r1] o1] eqn:Ec.
  specialize (IH e1 r1). destruct (scan_cmsgs l e1 r1) as [[e2 r2] o2].
  cbn [fst snd] in *. apply in_app_or in Hin. destruct Hin as [Hin|Hin]; [|auto].
  unfold scan_cmsg in Ec.
  repeat branch_in Ec; injection Ec as _ _ <-; try (destruct Hin; fail);
    destruct Hin as [<-|[]]; eexists; eauto.
Qed.

Lemma no_error_record_witness :
  (recverr_msg no_names session AF_INET 1 tv_zero
     {| recv_size := 0; rcvbuf := all_ones; addr_port := 44444;
        cmsgs := [ {| cmsg_level := SOL_IP; cmsg_type := IP_TTL;
                      cmsg_data := CmsgInt 60 |} ] |}).2 = Return 0.
Proof.
  exact (proj1 (no_error_record no_names session AF_INET 1 tv_zero
           {| recv_size := 0; rcvbuf := all_ones; addr_port := 44444;
              cmsgs := [ {| cmsg_level := SOL_IP; cmsg_type := IP_TTL;
                            cmsg_data := CmsgInt 60 |} ] |} eq_refl)).
Defined.

(** ** Name resolution *)

Lemma print_origin_numeric g1 g2 ctl ttl sndhops e :
  no_resolve ctl = true -> show_both ctl = false ->
  (forall sa len, g1 sa len NI_NUMERICHOST = g2 sa len NI_NUMERICHOST) ->
  print_origin g1 ctl ttl sndhops e = print_origin g2 ctl ttl sndhops e
  /\ ~ In Fflush (print_origin g1 ctl ttl sndhops e).
Proof.
  intros Hn Hb Hg. unfold print_origin. rewrite Hn, Hb. cbn [orb negb].
  destruct (ee_origin e =? SO_EE_ORIGIN_LOCAL); [split; [reflexivity|]|].
  { intros [H|[]]. discriminate. }
  destruct ((ee_origin e =? SO_EE_ORIGIN_ICMP6) || (ee_origin e =? SO_EE_ORIGIN_ICMP));
    [|split; [reflexivity | intros []]].
  rewrite Hg. split; [reflexivity|].
  unfold print_host. rewrite Hb. cbn [app].
  intros [H|[H|[H|[]]]]; [destruct (0 <? sndhops)|..]; discriminate.
Qed.

Lemma recverr_msg_numeric g1 g2 ctl ai_family ttl tv m :
  no_resolve ctl = true -> show_both ctl = false ->
  (forall sa len, g1 sa len NI_NUMERICHOST = g2 sa len NI_NUMERICHOST) ->
  recverr_msg g1 ctl ai_family ttl tv m = recverr_msg g2 ctl ai_family ttl tv m
  /\ ~ In Fflush (recverr_msg g1 ctl ai_family ttl tv m).1.2
  /\ no_resolve (recverr_msg g1 ctl ai_family ttl tv m).1.1 = true
  /\ show_both (recverr_msg g1 ctl ai_family ttl tv m).1.1 = false.
Proof.
  intros Hn Hb Hg. unfold recverr_msg. cbv zeta.
  destruct (d_e (decode ctl ai_family m)) as [e|].
  2:{ cbn [fst snd]. repeat split; try assumption.
      intros H. apply in_app_or in H. destruct H as [H|[H|[]]]; [|discriminate].
      revert H. unfold decode. cbn [d_out]. generalize (@None sock_extended_err) (-1).
      induction (cmsgs m) as [|c l IH]; intros e r Hin; [destruct Hin|].
      cbn [scan_cmsgs] in Hin.
      destruct (scan_cmsg c e r) as [[e1 r1] o1] eqn:Ec.
      specialize (IH e1 r1). destruct (scan_cmsgs l e1 r1) as [[e2 r2] o2].
      cbn [fst snd] in *. apply in_app_or in Hin. destruct Hin as [Hin|Hin]; [|auto].
      unfold scan_cmsg in Ec.
      repeat branch_in Ec; injection Ec as _ _ <-; try (destruct Hin; fail);
        destruct Hin as [H|[]]; discriminate. }
  destruct (print_origin_numeric g1 g2 (d_ctl (decode ctl ai_family m)) ttl
              (d_sndhops (decode ctl ai_family m)) e Hn Hb Hg) as [Heq Hnf].
  rewrite Heq.
  pose proof (classify_frame (d_ctl (decode ctl ai_family m)) ttl
                (d_sndhops (decode ctl ai_family m))
                (rethops_norm (d_rethops (decode ctl ai_family m))) (mtu ctl) e) as Hfr.
  assert (Hflags : no_resolve (classify (d_ctl (decode ctl ai_family m)) ttl
                (d_sndhops (decode ctl ai_family m))
                (rethops_norm (d_rethops (decode ctl ai_family m))) (mtu ctl) e).1.1 = true
          /\ show_both (classify (d_ctl (decode ctl ai_family m)) ttl
                (d_sndhops (decode ctl ai_family m))
                (rethops_norm (d_rethops (decode ctl ai_family m))) (mtu ctl) e).1.1 = false).
  { unfold classify. repeat branch; cbn [fst snd]; split; assumption. }
  assert (Hcf : ~ In Fflush (classify (d_ctl (decode ctl ai_family m)) ttl
                (d_sndhops (decode ctl ai_family m))
                (rethops_norm (d_rethops (decode ctl ai_family m))) (mtu ctl) e).1.2).
  { unfold classify, print_asymm. repeat branch; cbn [fst snd app In]; intuition discriminate. }
  destruct (classify _ _ _ _ _ _) as [[c1 o1] oc]. cbn [fst snd] in *.
  split; [reflexivity|]. split; [|exact Hflags].
  intros H. apply in_app_or in H. destruct H as [H|H].
  - revert H. unfold decode. cbn [d_out]. generalize (@None sock_extended_err) (-1).
    induction (cmsgs m) as [|c l IH]; intros e0 r Hin; [destruct Hin|].
    cbn [scan_cmsgs] in Hin.
    destruct (scan_cmsg c e0 r) as [[e1 r1] o1'] eqn:Ec.
    specialize (IH e1 r1). destruct (scan_cmsgs l e1 r1) as [[e2 r2] o2].
    cbn [fst snd] in *. apply in_app_or in Hin. destruct Hin as [Hin|Hin]; [|auto].
    unfold scan_cmsg in Ec.
    repeat branch_in Ec; injection Ec as _ _ <-; try (destruct Hin; fail);
      destruct Hin as [H|[]]; discriminate.
  - rewrite <- Heq in H. apply in_app_or in H. destruct H as [H|H]; [tauto|].
    apply in_app_or in H. destruct H as [H|H]; [|tauto].
    unfold print_rtt in H. destruct (d_rettv _); [|destruct H].
    destruct (d_broken_router _); cbn [app In] in H; intuition discriminate.
Qed.

Lemma gettimeofday_names g w :
  gettimeofday (set_getnameinfo g w)
  = ((gettimeofday w).1, set_getnameinfo g (gettimeofday w).2).
Proof.
  unfold gettimeofday, set_getnameinfo. cbn [clock].
  destruct (clock w) eqn:E; cbn [fst snd]; [rewrite E|]; reflexivity.
Qed.

Lemma recverr_from_numeric g1 g2 q : forall ctl w ai_family ttl progress,
  no_resolve ctl = true -> show_both ctl = false ->
  (forall sa len, g1 sa len NI_NUMERICHOST = g2 sa len NI_NUMERICHOST) ->
  let x1 := recverr_from q ctl (set_getnameinfo g1 w) ai_family ttl progress in
  let x2 := recverr_from q ctl (set_getnameinfo g2 w) ai_family ttl progress in
  res_of x1 = res_of x2 /\ ctl_of x1 = ctl_of x2 /\ out_of x1 = out_of x2
  /\ ~ In Fflush (out_of x1).
Proof.
  induction q as [|r q IH]; intros ctl w ai_family ttl progress Hn Hb Hg; cbv zeta;
    cbn [recverr_from]; rewrite !gettimeofday_names;
    destruct (gettimeofday w) as [tv w1]; cbn [fst snd].
  - unfold res_of, ctl_of, out_of. cbn [fst snd]. repeat split; auto.
  - destruct r as [| |m].
    + apply IH; assumption.
    + unfold res_of, ctl_of, out_of. cbn [fst snd]. repeat split; auto.
    + change (getnameinfo (set_getnameinfo g1 w1)) with g1.
      change (getnameinfo (set_getnameinfo g2 w1)) with g2.
      destruct (recverr_msg_numeric g1 g2 ctl ai_family ttl tv m Hn Hb Hg)
        as (Heq & Hnf & Hn1 & Hb1).
      rewrite <- Heq.
      destruct (recverr_msg g1 ctl ai_family ttl tv m) as [[c1 o1] oc].
      cbn [fst snd] in *. destruct oc as [n|p].
      * unfold res_of, ctl_of, out_of. cbn [fst snd]. repeat split; auto.
      * specialize (IH c1 w1 ai_family ttl p Hn1 Hb1 Hg). cbv zeta in IH.
        destruct (recverr_from q c1 (set_getnameinfo g1 w1) ai_family ttl p)
          as [[[r1 c2] w2] o2].
        destruct (recverr_from q c1 (set_getnameinfo g2 w1) ai_family ttl p)
          as [[[r1' c2'] w2'] o2'].
        unfold res_of, ctl_of, out_of in *. cbn [fst snd] in *.
        destruct IH as (-> & -> & -> & Hnf2).
        repeat split; auto. intros H. apply in_app_or in H. tauto.
Qed.

(** X7.  With [-n] and without [-b] no name is looked up: the drain asks the
    resolver for numeric addresses only, so two resolvers that agree on
    those give the same result, state and output, and standard output is
    never flushed for a lookup. *)
Theorem numeric_mode_resolves_no_name g1 g2 ctl w ai_family ttl :
  no_resolve ctl = true -> show_both ctl = false ->
  (forall sa len, g1 sa len NI_NUMERICHOST = g2 sa len NI_NUMERICHOST) ->
  let x1 := recverr ctl (set_getnameinfo g1 w) ai_family ttl in
  let x2 := recverr ctl (set_getnameinfo g2 w) ai_family ttl in
  res_of x1 = res_of x2 /\ ctl_of x1 = ctl_of x2 /\ out_of x1 = out_of x2
  /\ ~ In Fflush (out_of x1).
Proof.
  intros Hn Hb Hg. unfold recverr.
  change (errqueue (set_getnameinfo g1 w)) with (errqueue w).
  change (errqueue (set_getnameinfo g2 w)) with (errqueue w).
  apply recverr_from_numeric; assumption.
Qed.

Lemma numeric_mode_resolves_no_name_witness :
  out_of (recverr session
            (set_getnameinfo
               (fun _ _ flags => if flags =? NI_NUMERICHOST then None else Some "gw.example")
               (quiet [RecvMsg (notification 44444 time_exceeded 58)])) AF_INET 1)
  = out_of (recverr session
              (set_getnameinfo no_names
                 (quiet [RecvMsg (notification 44444 time_exceeded 58)])) AF_INET 1).
Proof.
  exact (proj1 (proj2 (proj2
           (numeric_mode_resolves_no_name
              (fun _ _ flags => if flags =? NI_NUMERICHOST then None else Some "gw.example")
              no_names session (quiet [RecvMsg (notification 44444 time_exceeded 58)])
              AF_INET 1 eq_refl eq_refl (fun _ _ => eq_refl))))).
Defined.

(** ** The probes of a run *)

Lemma scan_cmsgs_reports l : forall e r, forallb is_report (scan_cmsgs l e r).2 = true.
Proof.
  induction l as [|c l IH]; intros e r; cbn [scan_cmsgs]; [reflexivity|].
  assert (Hc : forallb is_report (scan_cmsg c e r).2 = true)
    by (unfold scan_cmsg; repeat branch; reflexivity).
  destruct (scan_cmsg c e r) as [[e1 r1] o1]. specialize (IH e1 r1).
  destruct (scan_cmsgs l e1 r1) as [[e2 r2] o2]. cbn [snd] in *.
  rewrite forallb_app, Hc, IH. reflexivity.
Qed.

Lemma recverr_msg_reports gni ctl ai_family ttl tv m :
  forallb is_report (recverr_msg gni ctl ai_family ttl tv m).1.2 = true.
Proof.
  unfold recverr_msg. cbv zeta.
  assert (Hd : forallb is_report (d_out (decode ctl ai_family m)) = true)
    by (unfold decode; cbn [d_out]; apply scan_cmsgs_reports).
  destruct (d_e (decode ctl ai_family m)) as [e|]; cbn [fst snd].
  2:{ rewrite forallb_app, Hd. reflexivity. }
  assert (Hc : forallb is_report
                 (classify (d_ctl (decode ctl ai_family m)) ttl
                    (d_sndhops (decode ctl ai_family m))
                    (rethops_norm (d_rethops (decode ctl ai_family m))) (mtu ctl) e).1.2
               = true)
    by (unfold classify, print_asymm; repeat branch; reflexivity).
  destruct (classify _ _ _ _ _ _) as [[c1 o1] oc]. cbn [fst snd] in *.
  rewrite !forallb_app, Hd, Hc, andb_true_r. cbn [andb].
  apply andb_true_iff. split.
  - unfold print_origin, print_host. repeat branch; reflexivity.
  - unfold print_rtt. repeat (branch || destruct (d_rettv _)); reflexivity.
Qed.

Lemma recverr_from_reports q : forall ctl w ai_family ttl progress,
  forallb is_report (out_of (recverr_from q ctl w ai_family ttl progress)) = true.
Proof.
  induction q as [|r q IH]; intros ctl w ai_family ttl progress; cbn [recverr_from];
    destruct (gettimeofday w) as [tv w1]; [reflexivity|].
  destruct r as [| |m]; [apply IH | reflexivity |].
  pose proof (recverr_msg_reports (getnameinfo w1) ctl ai_family ttl tv m) as Hm.
  destruct (recverr_msg (getnameinfo w1) ctl ai_family ttl tv m) as [[c1 o1] oc].
  cbn [fst snd] in Hm. destruct oc as [n|p]; [exact Hm|].
  specialize (IH c1 w1 ai_family ttl p).
  destruct (recverr_from q c1 w1 ai_family ttl p) as [[[r2 c2] w2] o2].
  unfold out_of in *. cbn [fst snd] in *. rewrite forallb_app, Hm, IH. reflexivity.
Qed.

Lemma reports_stage bp ttl tr :
  forallb is_report tr = true -> Forall (stage_event bp ttl) tr.
Proof.
  induction tr as [|ev tr IH]; intros H; constructor.
  - cbn [forallb] in H. apply andb_true_iff in H. destruct H as [H _].
    destruct ev; try discriminate; exact I.
  - apply IH. cbn [forallb] in H. apply andb_true_iff in H. tauto.
Qed.

Lemma recverr_stage bp ttl' ctl w ai_family ttl :
  Forall (stage_event bp ttl') (out_of (recverr ctl w ai_family ttl)).
Proof. apply reports_stage. apply recverr_from_reports. Qed.

Lemma probe_finish_stage bp ttl' ctl w ai_family ttl sent :
  Forall (stage_event bp ttl') (out_of (probe_finish ctl w ai_family ttl sent)).
Proof.
  unfold probe_finish. destruct sent.
  - destruct (recv w) as [got w1]. destruct got.
    + repeat constructor.
    + pose proof (recverr_stage bp ttl' (set_hisptr (Z.land (hisptr ctl + 1) 63) ctl)
                    w1 ai_family ttl) as H.
      destruct (recverr _ w1 ai_family ttl) as [[[r c] w2] o].
      unfold out_of in *. cbn [fst snd] in *. constructor; [exact I | exact H].
  - repeat constructor.
Qed.

Lemma probe_prepare_fields ctl ai_family ttl now :
  let x := probe_prepare ctl ai_family ttl now in
  hdr_ttl x.1 = to_uint32 ttl /\ hdr_tv x.1 = now
  /\ hisptr x.2 = hisptr ctl /\ mtu x.2 = mtu ctl /\ overhead x.2 = overhead ctl
  /\ base_port x.2 = base_port ctl /\ max_hops x.2 = max_hops ctl
  /\ hops_to x.2 = hops_to ctl /\ hops_from x.2 = hops_from ctl
  /\ (ai_family = AF_INET \/ ai_family = AF_INET6 ->
      target_port x.2 = to_uint16 (base_port ctl + hisptr ctl)).
Proof.
  cbv zeta. unfold probe_prepare. cbn [fst snd].
  repeat split; try (repeat branch; reflexivity).
  intros [-> | ->]; reflexivity.
Qed.

Lemma probe_loop_stage fuel : forall ctl w ai_family ttl i,
  ai_family = AF_INET \/ ai_family = AF_INET6 -> his_wf ctl ->
  Forall (stage_event (base_port ctl) ttl) (out_of (probe_loop fuel ctl w ai_family ttl i)).
Proof.
  induction fuel as [|fuel IH]; intros ctl w ai_family ttl i Hfam Hwf; cbn [probe_loop];
    [constructor|].
  destruct (i <? 10).
  2:{ pose proof (probe_finish_stage (base_port ctl) ttl ctl w ai_family ttl false) as H.
      destruct (probe_finish ctl w ai_family ttl false) as [[[r c] w'] o]. exact H. }
  destruct (gettimeofday w) as [now w1].
  pose proof (probe_prepare_fields ctl ai_family ttl now)
    as (Ht & _ & Hp & _ & _ & Hb & _ & _ & _ & Hport). cbv zeta in *.
  specialize (Hport Hfam).
  pose proof (probe_prepare_wf ctl ai_family ttl now Hwf) as Hwf1.
  destruct (probe_prepare ctl ai_family ttl now) as [hdr c1]. cbn [fst snd] in *.
  assert (Hev : stage_event (base_port ctl) ttl
                  (Sendto hdr (target_port c1) (to_size_t (mtu c1 - overhead c1)))).
  { split; [exact Ht|]. exists (hisptr ctl). destruct Hwf as [_ Hr]. split; [lia | exact Hport]. }
  destruct (sendto w1) as [ok w2]. destruct ok.
  - pose proof (probe_finish_stage (base_port ctl) ttl c1 w2 ai_family ttl true) as H.
    destruct (probe_finish c1 w2 ai_family ttl true) as [[[r c] w'] o].
    unfold out_of in *. cbn [fst snd] in *. constructor; assumption.
  - pose proof (recverr_stage (base_port ctl) ttl c1 w2 ai_family ttl) as H.
    pose proof (recverr_from_wf (errqueue w2) c1 w2 ai_family ttl (-1) Hwf1) as Hwf2.
    pose proof (recverr_from_tracks (errqueue w2) c1 w2 ai_family ttl (-1))
      as (((_ & _ & Hb2 & _) & _) & _). cbv zeta in Hb2.
    unfold recverr in *.
    destruct (recverr_from (errqueue w2) c1 w2 ai_family ttl (-1)) as [[[res c2] w3] o].
    unfold out_of, ctl_of in *. cbn [fst snd] in *.
    destruct (res =? 0); [constructor; assumption|].
    assert (Hwf3 : his_wf (set_his (his_clear (his c2) (hisptr c2)) c2)).
    { destruct Hwf2 as [Hl Hr]. unfold his_wf, his_clear, his_put.
      cbn [his hisptr set_his]. rewrite length_insert. auto. }
    specialize (IH (set_his (his_clear (his c2) (hisptr c2)) c2) w3 ai_family ttl
                   (if 0 <? res then 0 else i + 1) Hfam Hwf3).
    change (base_port (set_his (his_clear (his c2) (hisptr c2)) c2)) with (base_port c2) in IH.
    rewrite Hb2, Hb in IH.
    destruct (probe_loop fuel _ w3 ai_family ttl _) as [[[r c4] w4] o'].
    cbn [fst snd] in *. constructor; [exact Hev|]. apply Forall_app. split; assumption.
Qed.

Lemma attempts_stage fuel : forall ctl w ai_family ttl i,
  ai_family = AF_INET \/ ai_family = AF_INET6 -> his_wf ctl ->
  Forall (stage_event (base_port ctl) ttl) (out_of (attempts fuel ctl w ai_family ttl i)).
Proof.
  induction fuel as [|fuel IH]; intros ctl w ai_family ttl i Hfam Hwf; cbn [attempts];
    [constructor|].
  destruct (i <? 3); [|repeat constructor].
  pose proof (probe_loop_stage fuel ctl w ai_family ttl 0 Hfam Hwf) as Hs.
  pose proof (probe_loop_wf fuel ctl w ai_family ttl 0 Hwf) as Hwf1.
  pose proof (probe_loop_tracks fuel ctl w ai_family ttl 0) as ((_ & _ & Hb & _) & _).
  cbv zeta in Hb. unfold probe_ttl.
  destruct (probe_loop fuel ctl w ai_family ttl 0) as [[[res c1] w1] o].
  unfold out_of, ctl_of in *. cbn [fst snd] in *.
  destruct res as [res|]; [|exact Hs].
  destruct (negb (mtu c1 =? mtu ctl)).
  - specialize (IH c1 w1 ai_family ttl 0 Hfam Hwf1). rewrite Hb in IH.
    destruct (attempts fuel c1 w1 ai_family ttl 0) as [[[s c2] w2] o'].
    cbn [fst snd] in *. apply Forall_app. split; assumption.
  - destruct (res =? 0); [exact Hs|]. destruct (0 <? res); [exact Hs|].
    specialize (IH c1 w1 ai_family ttl (i + 1) Hfam Hwf1). rewrite Hb in IH.
    destruct (attempts fuel c1 w1 ai_family ttl (i + 1)) as [[[s c2] w2] o'].
    cbn [fst snd] in *. apply Forall_app. split; assumption.
Qed.

Lemma setup_wf ctl w ai_family v4mapped :
  his_wf ctl ->
  match (setup ctl w ai_family v4mapped).1.1 with
  | Go c => his_wf c /\ base_port c = base_port ctl
  | Exit _ => True
  end.
Proof.
  intros H0. unfold setup, setup_inet6, setup_inet, setsockopt.
  repeat (branch || destruct (syscall_fails _) as [[|] ?]); cbn [fst snd];
    try exact I; split; try exact H0; reflexivity.
Qed.

Lemma setup_no_probe ctl w ai_family v4mapped :
  Forall (fun ev => is_send ev = false /\ hop_limit_step None ev = None)
         (setup ctl w ai_family v4mapped).2.
Proof.
  unfold setup, setup_inet6, setup_inet, setsockopt, pktlen_error.
  repeat (branch || destruct (syscall_fails _) as [[|] ?]); cbn [fst snd app];
    repeat constructor.
Qed.

Lemma init_state_wf o : his_wf (init_state o).
Proof. split; [reflexivity | simpl; lia]. Qed.

(** *** The window of ports *)

Lemma stage_window bp ttl tr :
  Forall (stage_event bp ttl) tr -> Forall (probe_in_window bp) tr.
Proof.
  intros H. eapply Forall_impl; [exact H|]. intros ev. destruct ev; cbn; tauto.
Qed.

Lemma resume_window bp ctl : Forall (probe_in_window bp) (resume ctl).
Proof. unfold resume. repeat branch; repeat constructor. Qed.

Lemma set_hop_limit_events ctl w ai_family ttl :
  ai_family = AF_INET \/ ai_family = AF_INET6 ->
  let x := set_hop_limit ctl w ai_family ttl in
  existsb is_send x.2 = false
  /\ match x.1.1 with
     | Go _ => forall h, fold_left hop_limit_step x.2 h = Some ttl
     | Exit n => n = 1
     end.
Proof.
  intros Hfam. cbv zeta. unfold set_hop_limit, setsockopt.
  destruct Hfam as [-> | ->]; cbn [Z.eqb AF_INET AF_INET6 Pos.eqb];
    repeat (branch || destruct (syscall_fails _) as [[|] ?]); cbn [fst snd app];
    split; try reflexivity; intros h; reflexivity.
Qed.

Lemma no_send_window bp tr : existsb is_send tr = false -> Forall (probe_in_window bp) tr.
Proof.
  induction tr as [|ev tr IH]; intros H; constructor.
  - cbn [existsb] in H. apply orb_false_iff in H. destruct H as [H _].
    destruct ev; try exact I. discriminate.
  - apply IH. cbn [existsb] in H. apply orb_false_iff in H. tauto.
Qed.

Lemma hop_loop_window fuel : forall ctl w ai_family ttl,
  ai_family = AF_INET \/ ai_family = AF_INET6 -> his_wf ctl ->
  Forall (probe_in_window (base_port ctl)) (out_of (hop_loop fuel ctl w ai_family ttl)).
Proof.
  induction fuel as [|fuel IH]; intros ctl w ai_family ttl Hfam Hwf; cbn [hop_loop].
  - destruct (ttl <=? max_hops ctl); [constructor|].
    unfold out_of. cbn [snd]. constructor; [exact I | apply resume_window].
  - destruct (ttl <=? max_hops ctl);
      [|unfold out_of; cbn [snd]; constructor; [exact I | apply resume_window]].
    pose proof (set_hop_limit_events ctl w ai_family ttl Hfam) as [Hs _]. cbv zeta in Hs.
    destruct (set_hop_limit ctl w ai_family ttl) as [[r w1] o1]. cbn [fst snd] in *.
    apply (no_send_window (base_port ctl)) in Hs.
    destruct r as [[]|n]; [|exact Hs].
    pose proof (attempts_stage fuel ctl w1 ai_family ttl 0 Hfam Hwf) as Ha.
    apply stage_window in Ha.
    pose proof (attempts_wf fuel ctl w1 ai_family ttl 0 Hwf) as Hwf1.
    pose proof (attempts_tracks fuel ctl w1 ai_family ttl 0) as ((_ & _ & Hb & _) & _).
    cbv zeta in Hb.
    destruct (attempts fuel ctl w1 ai_family ttl 0) as [[[s c2] w2] o2].
    unfold out_of, ctl_of in *. cbn [fst snd] in *.
    destruct s; cbn [fst snd].
    + rewrite !Forall_app. repeat split; try assumption. apply resume_window.
    + specialize (IH c2 w2 ai_family (ttl + 1) Hfam Hwf1). rewrite Hb in IH.
      destruct (hop_loop fuel c2 w2 ai_family (ttl + 1)) as [[[r3 c3] w3] o3].
      cbn [fst snd] in *. rewrite !Forall_app. repeat split; assumption.
    + rewrite !Forall_app. split; assumption.
Qed.

(** X8.  All probes of a run go to the 64 UDP ports that start at the base
    port (counted modulo 2^16): the port of a probe is [base_port + hisptr]
    and [hisptr] never leaves 0..63. *)
Theorem probes_stay_in_port_window fuel o w ai_family v4mapped :
  ai_family = AF_INET \/ ai_family = AF_INET6 ->
  Forall (probe_in_window (opt_base_port o)) (out_of (main fuel o w ai_family v4mapped)).
Proof.
  intros Hfam. unfold main.
  pose proof (setup_wf (init_state o) w ai_family v4mapped (init_state_wf o)) as Hs.
  pose proof (setup_no_probe (init_state o) w ai_family v4mapped) as Hn.
  destruct (setup (init_state o) w ai_family v4mapped) as [[r w1] o1].
  cbn [fst snd] in *.
  assert (H1 : Forall (probe_in_window (opt_base_port o)) o1).
  { eapply Forall_impl; [exact Hn|]. intros ev [H _]. destruct ev; try exact I. discriminate. }
  destruct r as [c|n]; [|exact H1]. destruct Hs as [Hwf Hb].
  pose proof (hop_loop_window fuel c w1 ai_family 1 Hfam Hwf) as Hl.
  rewrite Hb in Hl. cbn [base_port init_state] in Hl.
  destruct (hop_loop fuel c w1 ai_family 1) as [[[r2 c2] w2] o2].
  unfold out_of in *. cbn [fst snd] in *. apply Forall_app. split; assumption.
Qed.

Lemma probes_stay_in_port_window_witness :
  Forall (probe_in_window 44444) (out_of reached_twice).
Proof.
  exact (probes_stay_in_port_window 20 (opts 30) _ AF_INET false (or_introl eq_refl)).
Defined.

(** *** The hop limit of a probe *)

Lemma carries_app a : forall h b,
  carries_hop_limit h (a ++ b)
  <-> carries_hop_limit h a /\ carries_hop_limit (fold_left hop_limit_step a h) b.
Proof.
  induction a as [|ev a IH]; intros h b; cbn [app carries_hop_limit fold_left]; [tauto|].
  rewrite IH. tauto.
Qed.

Lemma stage_carries bp ttl tr :
  Forall (stage_event bp ttl) tr ->
  carries_hop_limit (Some ttl) tr /\ fold_left hop_limit_step tr (Some ttl) = Some ttl.
Proof.
  induction 1 as [|ev tr Hev _ IH]; [split; [exact I | reflexivity]|].
  cbn [carries_hop_limit fold_left].
  assert (Hst : hop_limit_step (Some ttl) ev = Some ttl)
    by (destruct ev; try reflexivity; destruct Hev).
  rewrite Hst. destruct IH as [IH1 IH2]. repeat split; try assumption.
  destruct ev; try exact I. destruct Hev as [Hev _]. eauto.
Qed.

Lemma quiet_carries h tr :
  Forall (fun ev => is_send ev = false /\ hop_limit_step None ev = None) tr ->
  carries_hop_limit h tr /\ fold_left hop_limit_step tr h = h.
Proof.
  revert h. induction tr as [|ev tr IH]; intros h H; [split; [exact I | reflexivity]|].
  inversion H as [|? ? [Hs Hh] Htr]; subst. cbn [carries_hop_limit fold_left].
  assert (Hst : hop_limit_step h ev = h).
  { destruct ev; try reflexivity. cbn in Hh |- *.
    destruct (String.eqb opt "IP_TTL" || String.eqb opt "IPV6_UNICAST_HOPS");
      [discriminate | reflexivity]. }
  rewrite Hst. destruct (IH h Htr) as [I1 I2]. repeat split; try assumption.
  destruct ev; try exact I. discriminate.
Qed.

Lemma no_send_carries h tr : existsb is_send tr = false -> carries_hop_limit h tr.
Proof.
  revert h. induction tr as [|ev tr IH]; intros h H; [exact I|].
  cbn [existsb] in H. apply orb_false_iff in H. destruct H as [H1 H2].
  cbn [carries_hop_limit]. split; [|apply IH; exact H2].
  destruct ev; try exact I. discriminate.
Qed.

Lemma hop_loop_carries fuel : forall ctl w ai_family ttl h,
  ai_family = AF_INET \/ ai_family = AF_INET6 -> his_wf ctl ->
  carries_hop_limit h (out_of (hop_loop fuel ctl w ai_family ttl)).
Proof.
  induction fuel as [|fuel IH]; intros ctl w ai_family ttl h Hfam Hwf; cbn [hop_loop].
  - destruct (ttl <=? max_hops ctl); [exact I|].
    apply no_send_carries. unfold out_of. cbn [snd existsb is_send].
    apply (resume_silent ctl).
  - destruct (ttl <=? max_hops ctl);
      [|apply no_send_carries; unfold out_of; cbn [snd existsb is_send];
        apply (resume_silent ctl)].
    pose proof (set_hop_limit_events ctl w ai_family ttl Hfam) as [Hs Hg]. cbv zeta in Hs, Hg.
    destruct (set_hop_limit ctl w ai_family ttl) as [[r w1] o1]. cbn [fst snd] in *.
    destruct r as [[]|n]; [|apply no_send_carries; exact Hs].
    pose proof (attempts_stage fuel ctl w1 ai_family ttl 0 Hfam Hwf) as Ha.
    apply stage_carries in Ha. destruct Ha as [Ha1 Ha2].
    pose proof (attempts_wf fuel ctl w1 ai_family ttl 0 Hwf) as Hwf1.
    destruct (attempts fuel ctl w1 ai_family ttl 0) as [[[s c2] w2] o2].
    unfold out_of, ctl_of in *. cbn [fst snd] in *.
    destruct s; cbn [fst snd].
    + apply carries_app. split; [apply no_send_carries; exact Hs|]. rewrite Hg.
      apply carries_app. split; [exact Ha1|]. apply no_send_carries. apply (resume_silent c2).
    + specialize (IH c2 w2 ai_family (ttl + 1) (Some ttl) Hfam Hwf1).
      destruct (hop_loop fuel c2 w2 ai_family (ttl + 1)) as [[[r3 c3] w3] o3].
      cbn [fst snd] in *.
      apply carries_app. split; [apply no_send_carries; exact Hs|]. rewrite Hg.
      apply carries_app. rewrite Ha2. split; assumption.
    + apply carries_app. split; [apply no_send_carries; exact Hs|]. rewrite Hg. exact Ha1.
Qed.

(** X9.  The TTL written into the header of a probe is the hop limit the
    socket has when the probe is sent: every [sendto] of a run comes after a
    [setsockopt] of [IP_TTL] or [IPV6_UNICAST_HOPS], and its header carries
    the value of the latest one. *)
Theorem probe_header_carries_hop_limit fuel o w ai_family v4mapped :
  ai_family = AF_INET \/ ai_family = AF_INET6 ->
  carries_hop_limit None (out_of (main fuel o w ai_family v4mapped)).
Proof.
  intros Hfam. unfold main.
  pose proof (setup_wf (init_state o) w ai_family v4mapped (init_state_wf o)) as Hs.
  pose proof (setup_no_probe (init_state o) w ai_family v4mapped) as Hn.
  destruct (setup (init_state o) w ai_family v4mapped) as [[r w1] o1].
  cbn [fst snd] in *. apply (quiet_carries None) in Hn. destruct Hn as [Hn1 Hn2].
  destruct r as [c|n]; [|exact Hn1]. destruct Hs as [Hwf Hb].
  pose proof (hop_loop_carries fuel c w1 ai_family 1 None Hfam Hwf) as Hl.
  destruct (hop_loop fuel c w1 ai_family 1) as [[[r2 c2] w2] o2].
  unfold out_of in *. cbn [fst snd] in *. apply carries_app. rewrite Hn2.
  split; assumption.
Qed.

Lemma probe_header_carries_hop_limit_witness :
  carries_hop_limit None (out_of reached_twice).
Proof.
  exact (probe_header_carries_hop_limit 20 (opts 30) _ AF_INET false (or_introl eq_refl)).
Defined.

(** ** Runs without an answer *)

Lemma gettimeofday_scripts w :
  let w' := (gettimeofday w).2 in
  errqueue w' = errqueue w /\ sendto_ok w' = sendto_ok w
  /\ recv_ok w' = recv_ok w /\ sys_fail w' = sys_fail w
  /\ getnameinfo w' = getnameinfo w.
Proof. cbv zeta. unfold gettimeofday. destruct (clock w); simpl; auto. Qed.

Lemma recverr_empty ctl w ai_family ttl :
  errqueue w = [] ->
  recverr ctl w ai_family ttl = (-1, ctl, set_errqueue [] (gettimeofday w).2, []).
Proof.
  intros H. unfold recverr. rewrite H. cbn [recverr_from].
  destruct (gettimeofday w). reflexivity.
Qed.

(** *** A socket that cannot send *)

Lemma probe_loop_send_fails n : forall fuel ctl w ai_family ttl i rest,
  (n < fuel)%nat -> i = 10 - Z.of_nat n ->
  sendto_ok w = replicate n false ++ rest -> errqueue w = [] ->
  let x := probe_loop fuel ctl w ai_family ttl i in
  res_of x = Some 0
  /\ (exists probes, out_of x = probes ++ [Printf "%2d:  send failed\n" [AInt ttl]]
                     /\ length probes = n /\ forallb is_send probes = true)
  /\ mtu (ctl_of x) = mtu ctl
  /\ hisptr (ctl_of x) = Z.land (hisptr ctl + 1) 63
  /\ sendto_ok (world_of x) = rest /\ errqueue (world_of x) = [].
Proof.
  induction n as [|n IH]; intros fuel ctl w ai_family ttl i rest Hf Hi Hs Hq; cbv zeta;
    (destruct fuel as [|fuel]; [lia|]); cbn [probe_loop].
  - assert (E : (i <? 10) = false) by (apply Z.ltb_ge; lia). rewrite E.
    unfold probe_finish, res_of, out_of, ctl_of, world_of. cbn [fst snd].
    split; [reflexivity|]. split; [exists []; auto|]. auto.
  - assert (E : (i <? 10) = true) by (apply Z.ltb_lt; lia). rewrite E.
    pose proof (gettimeofday_scripts w) as (G1 & G2 & _). cbv zeta in G1, G2.
    destruct (gettimeofday w) as [now w1]. cbn [snd] in G1, G2.
    pose proof (probe_prepare_tracks ctl ai_family ttl now) as (_ & Hm & _).
    cbv zeta in Hm.
    assert (Hp : hisptr (probe_prepare ctl ai_family ttl now).2 = hisptr ctl)
      by (unfold probe_prepare; repeat branch; reflexivity).
    destruct (probe_prepare ctl ai_family ttl now) as [hdr c1]. cbn [snd] in Hm, Hp.
    unfold sendto. rewrite G2, Hs. cbn [replicate app].
    rewrite recverr_empty by (cbn [errqueue set_sendto_ok]; congruence).
    cbn [Z.eqb Z.ltb Z.compare].
    set (w3 := set_errqueue [] (gettimeofday (set_sendto_ok (replicate n false ++ rest) w1)).2).
    assert (Hs3 : sendto_ok w3 = replicate n false ++ rest).
    { subst w3. cbn [sendto_ok set_errqueue].
      pose proof (gettimeofday_scripts (set_sendto_ok (replicate n false ++ rest) w1))
        as (_ & G & _). cbv zeta in G. rewrite G. reflexivity. }
    specialize (IH fuel (set_his (his_clear (his c1) (hisptr c1)) c1) w3 ai_family ttl
                   (i + 1) rest ltac:(lia) ltac:(lia) Hs3 eq_refl).
    cbv zeta in IH.
    destruct (probe_loop fuel _ w3 ai_family ttl (i + 1)) as [[[r c4] w4] o'].
    unfold res_of, out_of, ctl_of, world_of in *. cbn [fst snd] in *.
    destruct IH as (-> & (probes & -> & Hlen & Hall) & Hm4 & Hp4 & Hs4 & Hq4).
    split; [reflexivity|]. split.
    { exists (Sendto hdr (target_port c1) (to_size_t (mtu c1 - overhead c1)) :: probes).
      cbn [app length forallb is_send andb]. repeat split; [lia | exact Hall]. }
    cbn [mtu hisptr set_his] in Hm4, Hp4. rewrite Hm4, Hp4, Hm, Hp. auto.
Qed.

(** X10.  A socket that cannot send ends the trace.  When [sendto] fails ten
    times in a row and no error is queued, [probe_ttl] has tried exactly ten
    times, prints [send failed] and returns 0 with the MTU estimate
    unchanged; the stage then ends the run ([goto done]). *)
Theorem ten_failed_sends_end_the_run fuel ctl w ai_family ttl rest :
  (11 <= fuel)%nat ->
  sendto_ok w = replicate 10 false ++ rest -> errqueue w = [] ->
  let x := probe_ttl fuel ctl w ai_family ttl in
  res_of x = Some 0
  /\ (exists probes, out_of x = probes ++ [Printf "%2d:  send failed\n" [AInt ttl]]
                     /\ length probes = 10%nat /\ forallb is_send probes = true)
  /\ mtu (ctl_of x) = mtu ctl
  /\ sendto_ok (world_of x) = rest
  /\ res_of (attempts (Datatypes.S fuel) ctl w ai_family ttl 0) = Done.
Proof.
  intros Hf Hs Hq. cbv zeta. unfold probe_ttl.
  pose proof (probe_loop_send_fails 10 fuel ctl w ai_family ttl 0 rest
                ltac:(lia) eq_refl Hs Hq) as H. cbv zeta in H.
  cbn [attempts]. unfold probe_ttl. cbn [Z.ltb Z.compare].
  destruct (probe_loop fuel ctl w ai_family ttl 0) as [[[r c1] w1] o].
  unfold res_of, out_of, ctl_of, world_of in *. cbn [fst snd] in *.
  destruct H as (-> & Hout & Hm & _ & Hs1 & _).
  repeat split; try assumption.
  rewrite Hm, Z.eqb_refl. reflexivity.
Qed.

Lemma ten_failed_sends_end_the_run_witness :
  res_of (probe_ttl 11 session
            {| clock := []; errqueue := []; sendto_ok := replicate 10 false;
               recv_ok := []; sys_fail := []; getnameinfo := no_names |} AF_INET 1)
  = Some 0.
Proof.
  exact (proj1 (ten_failed_sends_end_the_run 11 session
                  {| clock := []; errqueue := []; sendto_ok := replicate 10 false;
                     recv_ok := []; sys_fail := []; getnameinfo := no_names |}
                  AF_INET 1 [] ltac:(lia) eq_refl eq_refl)).
Defined.

(** *** A network that never answers *)












(** ** The end of a run *)

(** *** How a run ends *)

Lemma stage_no_summary bp ttl tr :
  Forall (stage_event bp ttl) tr -> ~ In Freeaddrinfo tr.
Proof.
  intros H Hin. rewrite Forall_forall in H. exact (H _ (proj2 (list_elem_of_In _ _) Hin)).
Qed.

Lemma set_hop_limit_outcome ctl w ai_family ttl :
  let x := set_hop_limit ctl w ai_family ttl in
  ~ In Freeaddrinfo x.2
  /\ match x.1.1 with
     | Go _ => True
     | Exit n => n = 1 /\ exists ev, last x.2 = Some ev /\ is_complaint ev = true
     end.
Proof.
  cbv zeta. unfold set_hop_limit, setsockopt.
  repeat (branch || destruct (syscall_fails _) as [[|] ?]); cbn [fst snd app In];
    (split; [intuition discriminate|]); try exact I;
    (split; [reflexivity|]); eexists; (split; [reflexivity|]); reflexivity.
Qed.

Lemma setup_outcome ctl w ai_family v4mapped :
  let x := setup ctl w ai_family v4mapped in
  ~ In Freeaddrinfo x.2
  /\ match x.1.1 with
     | Go _ => True
     | Exit n => n = 1 /\ exists ev, last x.2 = Some ev /\ is_complaint ev = true
     end.
Proof.
  cbv zeta. unfold setup, setup_inet6, setup_inet, setsockopt, pktlen_error.
  repeat (branch || destruct (syscall_fails _) as [[|] ?]); cbn [fst snd app In];
    (split; [intuition discriminate|]); try exact I;
    (split; [reflexivity|]); eexists; (split; [reflexivity|]); reflexivity.
Qed.

Lemma last_app_some {A} (a b : list A) x : last b = Some x -> last (a ++ b) = Some x.
Proof.
  intros H. destruct b as [|y b]; [discriminate|].
  rewrite last_app. rewrite H. reflexivity.
Qed.

Lemma hop_loop_outcome fuel : forall ctl w ai_family ttl n,
  ai_family = AF_INET \/ ai_family = AF_INET6 -> his_wf ctl ->
  let x := hop_loop fuel ctl w ai_family ttl in
  res_of x = Some n ->
  (n = 0 /\ exists pre, out_of x = pre ++ resume (ctl_of x) /\ ~ In Freeaddrinfo pre)
  \/ (n = 1 /\ (exists ev, last (out_of x) = Some ev /\ is_complaint ev = true)
      /\ ~ In Freeaddrinfo (out_of x)).
Proof.
  induction fuel as [|fuel IH]; intros ctl w ai_family ttl n Hfam Hwf; cbv zeta;
    cbn [hop_loop].
  - destruct (ttl <=? max_hops ctl); [discriminate|].
    unfold res_of, out_of, ctl_of. cbn [fst snd]. intros [= <-]. left.
    split; [reflexivity|]. eexists [_]. split; [reflexivity|]. intros [H|[]]. discriminate.
  - destruct (ttl <=? max_hops ctl).
    2:{ unfold res_of, out_of, ctl_of. cbn [fst snd]. intros [= <-]. left.
        split; [reflexivity|]. eexists [_]. split; [reflexivity|].
        intros [H|[]]. discriminate. }
    pose proof (set_hop_limit_outcome ctl w ai_family ttl) as [Hn1 Hx]. cbv zeta in Hn1, Hx.
    destruct (set_hop_limit ctl w ai_family ttl) as [[r w1] o1]. cbn [fst snd] in *.
    destruct r as [[]|m].
    2:{ unfold res_of, out_of. cbn [fst snd]. intros [= <-]. right.
        destruct Hx as [-> Hl]. auto. }
    pose proof (attempts_stage fuel ctl w1 ai_family ttl 0 Hfam Hwf) as Ha.
    apply stage_no_summary in Ha.
    pose proof (attempts_wf fuel ctl w1 ai_family ttl 0 Hwf) as Hwf1.
    destruct (attempts fuel ctl w1 ai_family ttl 0) as [[[s c2] w2] o2].
    unfold res_of, out_of, ctl_of in *. cbn [fst snd] in *.
    destruct s; cbn [fst snd].
    + intros [= <-]. left. split; [reflexivity|]. exists (o1 ++ o2).
      split; [rewrite app_assoc; reflexivity|]. intros H. apply in_app_or in H. tauto.
    + specialize (IH c2 w2 ai_family (ttl + 1) n Hfam Hwf1). cbv zeta in IH.
      destruct (hop_loop fuel c2 w2 ai_family (ttl + 1)) as [[[r3 c3] w3] o3].
      cbn [fst snd] in *. intros Hr. specialize (IH Hr).
      destruct IH as [(-> & pre & -> & Hp)|(-> & (ev & Hl & Hc) & Hnf)].
      * left. split; [reflexivity|]. exists (o1 ++ o2 ++ pre).
        split; [rewrite <- !app_assoc; reflexivity|].
        intros H. apply in_app_or in H. destruct H as [H|H]; [tauto|].
        apply in_app_or in H. tauto.
      * right. split; [reflexivity|]. split.
        -- exists ev. split; [|exact Hc]. apply last_app_some. apply last_app_some. exact Hl.
        -- intros H. apply in_app_or in H. destruct H as [H|H]; [tauto|].
           apply in_app_or in H. tauto.
    + discriminate.
Qed.

(** X12.  How a run ends, when it ends.  Take a run whose hop limit is below
    [INT_MAX] (the counter of line 590 does not overflow) and whose [pmtu]
    lines all stay inside the packet buffer (the clearing of line 340 is
    defined).  If it comes to an exit, the status is 0 or 1.  With status 0
    the summary is the last thing written and it is written once; it
    reports the final MTU estimate, which is the configured packet length
    or the value of the last [pmtu] line.  With status 1 the last thing
    written is a report on standard error and no summary is written. *)
Theorem run_outcome fuel o w ai_family v4mapped n :
  ai_family = AF_INET \/ ai_family = AF_INET6 ->
  opt_max_hops o < INT_MAX ->
  let x := main fuel o w ai_family v4mapped in
  estimate_in_buffer (out_of x) = true ->
  res_of x = Some n ->
  (n = 0
   /\ (exists pre, out_of x = pre ++ resume (ctl_of x) /\ ~ In Freeaddrinfo pre)
   /\ mtu (ctl_of x) = mtu_after (configured_length o ai_family) (out_of x))
  \/ (n = 1
      /\ (exists ev, last (out_of x) = Some ev /\ is_complaint ev = true)
      /\ ~ In Freeaddrinfo (out_of x)).
Proof.
  intros Hfam _. cbv zeta. intros _. unfold main.
  pose proof (setup_wf (init_state o) w ai_family v4mapped (init_state_wf o)) as Hs.
  pose proof (setup_outcome (init_state o) w ai_family v4mapped) as [Hnf Hx].
  pose proof (setup_spec (init_state o) w ai_family v4mapped Hfam) as (Hp & _ & H3).
  cbv zeta in Hnf, Hx, Hp, H3.
  destruct (setup (init_state o) w ai_family v4mapped) as [[r w1] o1].
  cbn [fst snd] in *. destruct r as [c|m].
  2:{ unfold res_of, out_of. cbn [fst snd]. intros [= <-]. right.
      destruct Hx as [-> Hl]. auto. }
  destruct Hs as [Hwf _]. destruct H3 as (_ & Hm & _).
  pose proof (hop_loop_outcome fuel c w1 ai_family 1 n Hfam Hwf) as Hl.
  pose proof (hop_loop_tracks fuel c w1 ai_family 1) as (_ & Ht & _).
  cbv zeta in Hl, Ht.
  destruct (hop_loop fuel c w1 ai_family 1) as [[[r2 c2] w2] o2].
  unfold res_of, out_of, ctl_of in *. cbn [fst snd] in *. intros Hr.
  destruct (Hl Hr) as [(-> & (pre & -> & Hpre))|(-> & (ev & Hlast & Hc) & Hn2)].
  - left. split; [reflexivity|]. split.
    + exists (o1 ++ pre). split; [rewrite app_assoc; reflexivity|].
      intros H. apply in_app_or in H. tauto.
    + rewrite mtu_after_app, (mtu_after_no_pmtu o1) by exact Hp.
      rewrite Ht, Hm. reflexivity.
  - right. split; [reflexivity|]. split.
    + exists ev. split; [|exact Hc]. apply last_app_some. exact Hlast.
    + intros H. apply in_app_or in H. tauto.
Qed.

Lemma run_outcome_witness :
  exists pre, out_of clamped_run = pre ++ resume (ctl_of clamped_run).
Proof.
  destruct (run_outcome 20 (opts 1) (quiet [RecvMsg (notification 44444 (frag_needed 1400) 64)])
              AF_INET false 0 (or_introl eq_refl) ltac:(vm_compute; reflexivity)
              ltac:(vm_compute; reflexivity) ltac:(vm_compute; reflexivity))
    as [(_ & (pre & H & _) & _)|(H & _)].
  - exists pre. exact H.
  - discriminate H.
Defined.

(** *** The round-trip time *)

(** X13.  The round-trip time is printed as milliseconds, a point and three
    digits of microseconds.  If the time between send and receive, in
    microseconds, fits an [int], the two numbers printed are its quotient
    and remainder by 1000, truncated toward zero as C does: together they
    give back the elapsed time, and neither is negative if the clock did not
    step back. *)
Theorem round_trip_time_printed tv rettv broken :
  - INT_MAX <= elapsed tv rettv <= INT_MAX ->
  exists ms us,
    print_rtt tv (Some rettv) broken
    = Printf "%3d.%03dms " [AInt ms; AInt us]
        :: (if broken then [Printf BROKEN []] else [])
    /\ ms * 1000 + us = elapsed tv rettv
    /\ Z.abs us < 1000
    /\ (0 <= elapsed tv rettv -> 0 <= ms /\ 0 <= us).
Proof.
  intros H. unfold print_rtt, rtt_diff. fold (elapsed tv rettv).
  rewrite to_int32_id by (unfold INT_MIN, INT_MAX in *; lia).
  exists (Z.quot (elapsed tv rettv) 1000), (Z.rem (elapsed tv rettv) 1000).
  split; [reflexivity|].
  pose proof (Z.quot_rem' (elapsed tv rettv) 1000) as Hqr.
  pose proof (Z.rem_bound_abs (elapsed tv rettv) 1000 ltac:(lia)) as Hb.
  split; [lia|]. split; [lia|]. intros H0.
  split; [apply Z.quot_pos; lia | apply Z.rem_nonneg; lia].
Qed.

Lemma round_trip_time_printed_witness :
  exists ms us,
    print_rtt {| tv_sec := 101; tv_usec := 250 |}
              (Some {| tv_sec := 100; tv_usec := 900000 |}) false
    = [Printf "%3d.%03dms " [AInt ms; AInt us]]
    /\ ms * 1000 + us = 100250
    /\ Z.abs us < 1000
    /\ (0 <= 100250 -> 0 <= ms /\ 0 <= us).
Proof.
  exact (round_trip_time_printed {| tv_sec := 101; tv_usec := 250 |}
           {| tv_sec := 100; tv_usec := 900000 |} false
           ltac:(vm_compute; split; discriminate)).
Defined.

(** * Properties of the command line and of the start of a run *)

(** ** The command line *)

Lemma option_loop_cons lc ch optarg opts family ctl :
  option_loop lc ((ch, optarg) :: opts) family ctl
  = if Ascii.eqb ch "4"%char then
      if family =? AF_INET6 then (Exit 2, family_conflict)
      else option_loop lc opts AF_INET ctl
    else if Ascii.eqb ch "6"%char then
      if family =? AF_INET then (Exit 2, family_conflict)
      else option_loop lc opts AF_INET6 ctl
    else if Ascii.eqb ch "n"%char then option_loop lc opts family (set_no_resolve true ctl)
    else if Ascii.eqb ch "b"%char then option_loop lc opts family (set_show_both true ctl)
    else if Ascii.eqb ch "l"%char then
      if atoi lc optarg <=? overhead ctl then
        (Exit 1, [Fprintf_stderr "Error: pktlen must be > %d and <= %d.\n"
                    [AInt (overhead ctl); AInt INT_MAX]])
      else option_loop lc opts family (set_mtu (atoi lc optarg) ctl)
    else if Ascii.eqb ch "m"%char then
      ((option_loop lc opts family (set_max_hops (atoi lc optarg) ctl)).1,
       (if (atoi lc optarg <? 0) || (MAX_HOPS_LIMIT <? atoi lc optarg)
        then [max_hops_complaint] else [])
         ++ (option_loop lc opts family (set_max_hops (atoi lc optarg) ctl)).2)
    else if Ascii.eqb ch "p"%char then
      option_loop lc opts family (set_base_port (to_uint16 (atoi lc optarg)) ctl)
    else if Ascii.eqb ch "V"%char then
      (Exit 0, [Printf (IPUTILS_VERSION lc "tracepath").1 (IPUTILS_VERSION lc "tracepath").2])
    else usage.
Proof.
  cbn [option_loop].
  destruct (Ascii.eqb ch "4"); [reflexivity|].
  destruct (Ascii.eqb ch "6"); [reflexivity|].
  destruct (Ascii.eqb ch "n"); [reflexivity|].
  destruct (Ascii.eqb ch "b"); [reflexivity|].
  destruct (Ascii.eqb ch "l"); [reflexivity|].
  destruct (Ascii.eqb ch "m").
  { cbn [max_hops set_max_hops].
    destruct (option_loop lc opts family _) as [r out]. reflexivity. }
  destruct (Ascii.eqb ch "p"); [reflexivity|].
  destruct (Ascii.eqb ch "V"); [|reflexivity].
  destruct (IPUTILS_VERSION lc "tracepath"). reflexivity.
Qed.

Lemma option_loop_app lc pre : forall post family ctl,
  option_loop lc (pre ++ post) family ctl
  = match option_loop lc pre family ctl with
    | (Go (f1, c1), o1) =>
        ((option_loop lc post f1 c1).1, o1 ++ (option_loop lc post f1 c1).2)
    | (Exit n, o1) => (Exit n, o1)
    end.
Proof.
  induction pre as [|[ch optarg] pre IH]; intros post family ctl.
  - cbn [app option_loop]. destruct (option_loop lc post family ctl). reflexivity.
  - cbn [app]. rewrite !option_loop_cons.
    destruct (Ascii.eqb ch "4");
      [destruct (family =? AF_INET6); [reflexivity | apply IH]|].
    destruct (Ascii.eqb ch "6");
      [destruct (family =? AF_INET); [reflexivity | apply IH]|].
    destruct (Ascii.eqb ch "n"); [apply IH|].
    destruct (Ascii.eqb ch "b"); [apply IH|].
    destruct (Ascii.eqb ch "l");
      [destruct (atoi lc optarg <=? overhead ctl); [reflexivity | apply IH]|].
    destruct (Ascii.eqb ch "m").
    { rewrite IH. cbn [fst snd].
      destruct (option_loop lc pre family _) as [[[f1 c1]|n] o1]; cbn [fst snd];
        [rewrite app_assoc|]; reflexivity. }
    destruct (Ascii.eqb ch "p"); [apply IH|].
    destruct (Ascii.eqb ch "V"); reflexivity.
Qed.

Lemma option_loop_messages lc opts : forall family ctl,
  forallb is_message (option_loop lc opts family ctl).2 = true.
Proof.
  induction opts as [|[ch optarg] opts IH]; intros family ctl; [reflexivity|].
  rewrite option_loop_cons.
  destruct (Ascii.eqb ch "4");
    [destruct (family =? AF_INET6); [reflexivity | apply IH]|].
  destruct (Ascii.eqb ch "6");
    [destruct (family =? AF_INET); [reflexivity | apply IH]|].
  destruct (Ascii.eqb ch "n"); [apply IH|].
  destruct (Ascii.eqb ch "b"); [apply IH|].
  destruct (Ascii.eqb ch "l");
    [destruct (atoi lc optarg <=? overhead ctl); [reflexivity | apply IH]|].
  destruct (Ascii.eqb ch "m").
  { cbn [snd]. rewrite forallb_app, IH. destruct (_ || _); reflexivity. }
  destruct (Ascii.eqb ch "p"); [apply IH|].
  destruct (Ascii.eqb ch "V"); reflexivity.
Qed.

Lemma messages_quiet tr :
  forallb is_message tr = true ->
  existsb is_send tr = false /\ ~ In Freeaddrinfo tr
  /\ Forall (fun ev => is_send ev = false /\ hop_limit_step None ev = None) tr.
Proof.
  induction tr as [|ev tr IH]; intros H; [repeat split; [intros [] | constructor]|].
  cbn [forallb] in H. apply andb_true_iff in H. destruct H as [Hev Htr].
  destruct (IH Htr) as (I1 & I2 & I3).
  destruct ev; try discriminate; cbn [existsb is_send orb In];
    (split; [exact I1|]); (split; [intros [H|H]; [discriminate | tauto]|]);
    constructor; auto.
Qed.

(** One turn of a loop that comes to its end: the option taken and what it
    does to the family and to [ctl]. *)
Lemma option_loop_go lc ch optarg opts family ctl f' ctl' out :
  option_loop lc ((ch, optarg) :: opts) family ctl = (Go (f', ctl'), out) ->
  exists f1 c1 o1,
    option_loop lc opts f1 c1 = (Go (f', ctl'), o1)
    /\ ((ch = "4"%char /\ family <> AF_INET6 /\ f1 = AF_INET /\ c1 = ctl /\ out = o1)
        \/ (ch = "6"%char /\ family <> AF_INET /\ f1 = AF_INET6 /\ c1 = ctl /\ out = o1)
        \/ (ch = "n"%char /\ f1 = family /\ c1 = set_no_resolve true ctl /\ out = o1)
        \/ (ch = "b"%char /\ f1 = family /\ c1 = set_show_both true ctl /\ out = o1)
        \/ (ch = "l"%char /\ overhead ctl < atoi lc optarg
            /\ f1 = family /\ c1 = set_mtu (atoi lc optarg) ctl /\ out = o1)
        \/ (ch = "m"%char /\ f1 = family /\ c1 = set_max_hops (atoi lc optarg) ctl
            /\ out = (if (atoi lc optarg <? 0) || (MAX_HOPS_LIMIT <? atoi lc optarg)
                      then [max_hops_complaint] else []) ++ o1)
        \/ (ch = "p"%char /\ f1 = family
            /\ c1 = set_base_port (to_uint16 (atoi lc optarg)) ctl /\ out = o1)).
Proof.
  rewrite option_loop_cons. intros H.
  destruct (Ascii.eqb ch "4") eqn:E4.
  { apply Ascii.eqb_eq in E4. destruct (family =? AF_INET6) eqn:E; [discriminate|]. bools.
    exists AF_INET, ctl, out. tauto. }
  destruct (Ascii.eqb ch "6") eqn:E6.
  { apply Ascii.eqb_eq in E6. destruct (family =? AF_INET) eqn:E; [discriminate|]. bools.
    exists AF_INET6, ctl, out. tauto. }
  destruct (Ascii.eqb ch "n") eqn:En.
  { apply Ascii.eqb_eq in En. exists family, (set_no_resolve true ctl), out. tauto. }
  destruct (Ascii.eqb ch "b") eqn:Eb.
  { apply Ascii.eqb_eq in Eb. exists family, (set_show_both true ctl), out. tauto. }
  destruct (Ascii.eqb ch "l") eqn:El.
  { apply Ascii.eqb_eq in El.
    destruct (atoi lc optarg <=? overhead ctl) eqn:E; [discriminate|]. bools.
    exists family, (set_mtu (atoi lc optarg) ctl), out. tauto. }
  destruct (Ascii.eqb ch "m") eqn:Em.
  { apply Ascii.eqb_eq in Em.
    destruct (option_loop lc opts family (set_max_hops (atoi lc optarg) ctl))
      as [r o1] eqn:Hm. cbn [fst snd] in H. injection H as -> <-.
    exists family, (set_max_hops (atoi lc optarg) ctl), o1. tauto. }
  destruct (Ascii.eqb ch "p") eqn:Ep.
  { apply Ascii.eqb_eq in Ep.
    exists family, (set_base_port (to_uint16 (atoi lc optarg)) ctl), out. tauto. }
  destruct (Ascii.eqb ch "V"); discriminate.
Qed.

Lemma pristine_flags b1 b2 m h v ctl :
  pristine ctl ->
  pristine (set_no_resolve b1 ctl) /\ pristine (set_show_both b2 ctl)
  /\ pristine (set_mtu m ctl) /\ pristine (set_max_hops h ctl)
  /\ pristine (set_base_port (to_uint16 v) ctl).
Proof.
  intros (F1 & F2 & F3 & F4 & F5 & F6 & F7).
  pose proof (Z.mod_pos_bound v 65536 ltac:(lia)) as Hr.
  unfold pristine, to_uint16. simpl. repeat split; auto; lia.
Qed.

(** What the loop leaves alone. *)
Lemma option_loop_frame lc opts : forall family ctl f' ctl' out,
  option_loop lc opts family ctl = (Go (f', ctl'), out) ->
  (~ In "l"%char (chars opts) -> mtu ctl' = mtu ctl)
  /\ (~ In "m"%char (chars opts) -> max_hops ctl' = max_hops ctl)
  /\ (~ In "p"%char (chars opts) -> base_port ctl' = base_port ctl)
  /\ (pristine ctl -> pristine ctl').
Proof.
  induction opts as [|[ch optarg] opts IH]; intros family ctl f' ctl' out H.
  - cbn [option_loop] in H. injection H as <- <- <-. auto.
  - apply option_loop_go in H. destruct H as (f1 & c1 & o1 & H & Hch).
    apply IH in H. destruct H as (I1 & I2 & I3 & I4).
    unfold chars in *. cbn [map fst In].
    destruct Hch as [(-> & _ & _ & -> & _)|[(-> & _ & _ & -> & _)|[(-> & _ & -> & _)
                    |[(-> & _ & -> & _)|[(-> & _ & _ & -> & _)|[(-> & _ & -> & _)
                    |(-> & _ & -> & _)]]]]]];
      (split; [|split; [|split]];
                     [intros Hn; try (rewrite I1 by tauto; reflexivity); tauto
                     |intros Hn; try (rewrite I2 by tauto; reflexivity); tauto
                     |intros Hn; try (rewrite I3 by tauto; reflexivity); tauto
                     |intros Hf; apply I4;
                      apply (pristine_flags true true (atoi lc optarg) (atoi lc optarg)
                               (atoi lc optarg) ctl Hf) || exact Hf]).
Qed.



Lemma strchr_spec c s :
  match strchr s c with
  | Some (before, after) => s = (before ++ String c after)%string /\ ~ In c (letters before)
  | None => ~ In c (letters s)
  end.
Proof.
  induction s as [|a s IH]; cbn [strchr letters]; [intros []|].
  destruct (Ascii.eqb a c) eqn:E.
  - apply Ascii.eqb_eq in E. subst a. split; [reflexivity | intros []].
  - apply Ascii.eqb_neq in E. destruct (strchr s c) as [[before after]|].
    + destruct IH as [-> Hn]. split; [reflexivity|]. cbn [letters In]. tauto.
    + cbn [In]. tauto.
Qed.

Lemma letters_split c before after :
  In c (letters (before ++ String c after)%string).
Proof.
  induction before as [|a b IH]; cbn [String.append letters In];
    [left; reflexivity | right; exact IH].
Qed.

Lemma start_state_pristine : pristine start_state.
Proof. unfold pristine. simpl. repeat split; lia. Qed.

(** X15.  The base port.  It is a 16-bit number.  Without a slash in the
    destination it is never 0: it is the value of the last [-p], or 44444
    when there is none or when it is 0 modulo 65536 (so [-p 0] asks for the
    default).  It can only be 0 when the destination itself carries, after a
    slash, a port that is 0 modulo 65536; and the slash is looked for only
    when no port has been given by [-p]. *)
Theorem base_port_of_command_line lc argv0 opts dest family host ctl out :
  command_line lc argv0 opts [dest] = (Go (family, host, ctl), out) ->
  0 <= base_port ctl <= 65535
  /\ (~ In "/"%char (letters dest) -> host = dest /\ base_port ctl <> 0)
  /\ (~ In "/"%char (letters dest) -> ~ In "p"%char (chars opts) -> base_port ctl = 44444)
  /\ (base_port ctl = 0 ->
      exists port, dest = (host ++ String "/" port)%string /\ to_uint16 (atoi lc port) = 0)
  /\ (forall c1 o1,
        option_loop lc opts (name_family argv0) start_state = (Go (family, c1), o1) ->
        base_port c1 <> 0 -> host = dest /\ ctl = c1).
Proof.
  unfold command_line.
  destruct (option_loop lc opts (name_family argv0) start_state) as [[[f1 c1]|n] o1] eqn:Ho;
    [|discriminate].
  destruct (option_loop_frame lc opts _ _ _ _ _ Ho) as (_ & _ & Hp & Hf).
  destruct (Hf start_state_pristine) as (_ & _ & _ & _ & _ & _ & Hr).
  unfold destination_port.
  pose proof (strchr_spec "/"%char dest) as Hs.
  destruct (base_port c1 =? 0) eqn:E0; bools.
  - destruct (strchr dest "/") as [[before after]|].
    + intros [= <- <- <- <-]. destruct Hs as [-> Hn]. cbn [base_port set_base_port].
      pose proof (Z.mod_pos_bound (atoi lc after) 65536 ltac:(lia)) as Hb.
      unfold to_uint16 in *.
      split; [lia|]. split.
      { intros Hno. exfalso. apply Hno. apply letters_split. }
      split.
      { intros Hno. exfalso. apply Hno. apply letters_split. }
      split; [intros H0; exists after; auto|].
      intros c o [= <- <-] Hne. contradiction.
    + intros [= <- <- <- <-]. cbn [base_port set_base_port].
      split; [lia|]. split; [intros _; split; [reflexivity | lia]|].
      split; [reflexivity|]. split; [discriminate|].
      intros c o [= <- <-] Hne. contradiction.
  - intros [= <- <- <- <-].
    split; [exact Hr|]. split; [auto|]. split.
    { intros _ Hnp. rewrite (Hp Hnp) in E0. contradiction. }
    split; [contradiction|].
    intros c o [= <- <-] _. auto.
Qed.

Lemma base_port_of_command_line_witness :
  "192.0.2.1" = "192.0.2.1"
  /\ base_port (set_base_port 44444 (set_base_port 0 start_state)) <> 0.
Proof.
  exact (proj1 (proj2 (base_port_of_command_line plain_libc "tracepath"
                         [("p"%char, "65536")] "192.0.2.1" AF_UNSPEC "192.0.2.1"
                         (set_base_port 44444 (set_base_port 0 start_state)) []
                         eq_refl))
               ltac:(cbn; intuition discriminate)).
Defined.

(** ** The socket *)

Lemma open_socket_spec result : forall fails ai,
  open_socket result fails = Some ai ->
  exists pre post,
    result = pre ++ ai :: post
    /\ known_family ai = true
    /\ take (tried pre) fails = replicate (tried pre) true
    /\ fails !! tried pre <> Some true.
Proof.
  induction result as [|a result IH]; intros fails ai H; [discriminate|].
  cbn [open_socket] in H.
  destruct (negb (ai_fam a =? AF_INET6) && negb (ai_fam a =? AF_INET)) eqn:E.
  - destruct (IH fails ai H) as (pre & post & -> & Hk & Ht & Hn).
    exists (a :: pre), post.
    assert (Hka : known_family a = false).
    { unfold known_family. rewrite <- negb_orb in E. apply negb_true_iff in E. exact E. }
    unfold tried in *. cbn [List.filter]. rewrite Hka. auto.
  - assert (Hka : known_family a = true).
    { unfold known_family. rewrite <- negb_orb in E. apply negb_false_iff in E. exact E. }
    destruct fails as [|[|] fails].
    + injection H as ->. exists [], result. repeat split; auto; discriminate.
    + destruct (IH fails ai H) as (pre & post & -> & Hk & Ht & Hn).
      exists (a :: pre), post.
      unfold tried in *. cbn [List.filter]. rewrite Hka. cbn [length take replicate lookup].
      rewrite Ht. auto.
    + injection H as ->. exists [], result. repeat split; auto; discriminate.
Qed.

Lemma open_socket_none result : forall fails,
  forallb (fun a => negb (known_family a)) result = true ->
  open_socket result fails = None.
Proof.
  induction result as [|a result IH]; intros fails H; [reflexivity|].
  cbn [forallb] in H. apply andb_true_iff in H. destruct H as [Ha Hr].
  cbn [open_socket]. unfold known_family in Ha. rewrite negb_orb in Ha. rewrite Ha.
  apply IH. exact Hr.
Qed.

Lemma connect_go lc family host ctl ai ctl' out :
  connect lc family host ctl = (Go (ai, ctl'), out) ->
  (getaddrinfo lc host (base_port ctl) family).1 = 0
  /\ out = [] /\ ctl' = set_target_port (ai_port ai) ctl
  /\ (ai_fam ai = AF_INET \/ ai_fam ai = AF_INET6)
  /\ exists pre post,
       (getaddrinfo lc host (base_port ctl) family).2 = pre ++ ai :: post
       /\ take (tried pre) (socket_fails lc) = replicate (tried pre) true
       /\ socket_fails lc !! tried pre <> Some true.
Proof.
  unfold connect.
  destruct (getaddrinfo lc host (base_port ctl) family) as [status result]. cbn [fst snd].
  intros H.
  destruct (status =? 0) eqn:E; cbn [negb] in H; [|discriminate]. bools.
  destruct (open_socket result (socket_fails lc)) as [a|] eqn:Ho; [|discriminate].
  injection H as <- <- <-.
  destruct (open_socket_spec result _ _ Ho) as (pre & post & Hr & Hk & Ht & Hn).
  split; [exact E|]. split; [reflexivity|]. split; [reflexivity|]. split.
  - unfold known_family in Hk. apply orb_true_iff in Hk. destruct Hk; bools; auto.
  - exists pre, post. auto.
Qed.

(** X16.  The socket is opened for the first address of the result list
    that has family [AF_INET] or [AF_INET6] and for which [socket] succeeds:
    the addresses of those families before it are exactly those for which
    [socket] failed.  So the engine only ever runs over IPv4 or IPv6, on an
    address the resolver gave.  A result list without an address of these
    families ends the run with status 1 after [perror]. *)
Theorem socket_for_first_usable_address lc family host ctl :
  let res := getaddrinfo lc host (base_port ctl) family in
  (forall ai ctl' out,
     connect lc family host ctl = (Go (ai, ctl'), out) ->
     res.1 = 0 /\ out = [] /\ ctl' = set_target_port (ai_port ai) ctl
     /\ (ai_fam ai = AF_INET \/ ai_fam ai = AF_INET6)
     /\ exists pre post,
          res.2 = pre ++ ai :: post
          /\ take (tried pre) (socket_fails lc) = replicate (tried pre) true
          /\ socket_fails lc !! tried pre <> Some true)
  /\ (res.1 = 0 -> forallb (fun a => negb (known_family a)) res.2 = true ->
      connect lc family host ctl = (Exit 1, [Perror "socket/connect"])).
Proof.
  cbv zeta. split.
  - intros ai ctl' out H. apply (connect_go lc family host ctl ai ctl' out H).
  - unfold connect.
    destruct (getaddrinfo lc host (base_port ctl) family) as [status result]. cbn [fst snd].
    intros -> Hall. cbn [Z.eqb negb]. rewrite open_socket_none by exact Hall. reflexivity.
Qed.

Lemma socket_for_first_usable_address_witness :
  (getaddrinfo plain_libc "192.0.2.1" 44444 AF_UNSPEC).1 = 0
  /\ (AF_INET = AF_INET \/ AF_INET = AF_INET6).
Proof.
  destruct (proj1 (socket_for_first_usable_address plain_libc AF_UNSPEC "192.0.2.1"
                     (set_base_port 44444 start_state))
                  {| ai_fam := AF_INET; ai_port := 44444; ai_addr := 3221225985 |}
                  (set_target_port 44444 (set_base_port 44444 start_state)) [] eq_refl)
    as (H1 & _ & _ & H2 & _).
  split; [exact H1 | exact H2].
Defined.

(** ** The whole program *)

(** The whole of [main] is the start followed by the escalation loop. *)
Lemma tracepath_start fuel lc w argv0 opts args :
  match start lc w argv0 opts args with
  | (Exit n, w1, out) =>
      res_of (tracepath fuel lc w argv0 opts args) = Some n
      /\ out_of (tracepath fuel lc w argv0 opts args) = out
  | (Go s, _, _) =>
      let x := hop_loop fuel (st_ctl s) (st_world s) (ai_fam (st_ai s)) 1 in
      tracepath fuel lc w argv0 opts args
      = (res_of x, ctl_of x, world_of x, st_pre s ++ out_of x)
  end.
Proof.
  unfold start, tracepath.
  destruct (command_line lc argv0 opts args) as [[[[family host] ctl0]|n] o0];
    [|split; reflexivity].
  destruct (connect lc family host ctl0) as [[[ai ctl]|n] o1]; [|split; reflexivity].
  destruct (setup ctl w (ai_fam ai) (IN6_IS_ADDR_V4MAPPED (ai_addr ai)))
    as [[[c|n] w1] o2]; [|split; reflexivity].
  cbv zeta. cbn [st_ctl st_world st_ai st_pre].
  destruct (hop_loop fuel c w1 (ai_fam ai) 1) as [[[r c'] w'] o3].
  unfold res_of, ctl_of, world_of, out_of. cbn [fst snd].
  rewrite <- !app_assoc. reflexivity.
Qed.

Lemma option_loop_exit lc opts : forall family ctl n out,
  option_loop lc opts family ctl = (Exit n, out) ->
  n = -1 \/ n = 0 \/ n = 1 \/ n = 2.
Proof.
  induction opts as [|[ch optarg] opts IH]; intros family ctl n out H; [discriminate|].
  rewrite option_loop_cons in H.
  destruct (Ascii.eqb ch "4").
  { destruct (family =? AF_INET6); [injection H as <- _; lia | eapply IH; exact H]. }
  destruct (Ascii.eqb ch "6").
  { destruct (family =? AF_INET); [injection H as <- _; lia | eapply IH; exact H]. }
  destruct (Ascii.eqb ch "n"); [eapply IH; exact H|].
  destruct (Ascii.eqb ch "b"); [eapply IH; exact H|].
  destruct (Ascii.eqb ch "l").
  { destruct (atoi lc optarg <=? overhead ctl);
      [injection H as <- _; lia | eapply IH; exact H]. }
  destruct (Ascii.eqb ch "m").
  { destruct (option_loop lc opts family (set_max_hops (atoi lc optarg) ctl))
      as [r o] eqn:Hm. cbn [fst snd] in H. injection H as -> _. eapply IH. exact Hm. }
  destruct (Ascii.eqb ch "p"); [eapply IH; exact H|].
  destruct (Ascii.eqb ch "V"); injection H as <- _; lia.
Qed.

Lemma command_line_spec lc argv0 opts args :
  let x := command_line lc argv0 opts args in
  forallb is_message x.2 = true
  /\ match x.1 with
     | Exit n => n = -1 \/ n = 0 \/ n = 1 \/ n = 2
     | Go (family, host, ctl) =>
         exists c1 o1 dest,
           option_loop lc opts (name_family argv0) start_state = (Go (family, c1), o1)
           /\ args = [dest]
           /\ pristine ctl /\ mtu ctl = mtu c1 /\ max_hops ctl = max_hops c1
     end.
Proof.
  cbv zeta. unfold command_line.
  pose proof (option_loop_messages lc opts (name_family argv0) start_state) as Hm.
  destruct (option_loop lc opts (name_family argv0) start_state) as [[[f1 c1]|n] o1] eqn:Ho.
  - cbn [snd] in Hm.
    destruct (option_loop_frame lc opts _ _ _ _ _ Ho) as (_ & _ & _ & Hf).
    specialize (Hf start_state_pristine).
    destruct args as [|dest [|d2 args]].
    + unfold usage. cbn [fst snd]. rewrite forallb_app, Hm. split; [reflexivity | auto].
    + unfold destination_port.
      destruct (base_port c1 =? 0); [destruct (strchr dest "/") as [[h p]|]|];
        cbn [fst snd]; (split; [exact Hm|]); exists c1, o1, dest;
        (split; [reflexivity|]); (split; [reflexivity|]);
        (split; [|split; reflexivity]).
      * apply (pristine_flags true true 0 0 (atoi lc p) c1 Hf).
      * apply (pristine_flags true true 0 0 44444 c1 Hf).
      * exact Hf.
    + unfold usage. cbn [fst snd]. rewrite forallb_app, Hm. split; [reflexivity | auto].
  - cbn [fst snd] in *. split; [exact Hm|].
    eapply option_loop_exit. exact Ho.
Qed.

Lemma connect_spec lc family host ctl :
  let x := connect lc family host ctl in
  forallb is_message x.2 = true
  /\ match x.1 with
     | Exit n => n = 1
     | Go (ai, ctl') =>
         (ai_fam ai = AF_INET \/ ai_fam ai = AF_INET6)
         /\ ctl' = set_target_port (ai_port ai) ctl
     end.
Proof.
  cbv zeta.
  destruct (connect lc family host ctl) as [[[ai ctl']|n] o] eqn:Hc.
  - destruct (connect_go lc family host ctl ai ctl' o Hc) as (_ & -> & -> & Hfam & _).
    split; [reflexivity|]. split; [exact Hfam | reflexivity].
  - cbn [fst snd]. revert Hc. unfold connect.
    destruct (getaddrinfo lc host (base_port ctl) family) as [status result].
    destruct (negb (status =? 0)); [intros [= <- <-]; auto|].
    destruct (open_socket result (socket_fails lc)); [discriminate|].
    intros [= <- <-]. auto.
Qed.

Lemma pristine_wf ctl p : pristine ctl -> his_wf (set_target_port p ctl).
Proof.
  intros (F1 & F2 & _). unfold his_wf. cbn [his hisptr set_target_port].
  rewrite F1, F2. split; [reflexivity | lia].
Qed.

Lemma setup_pending ctl w ai_family v4mapped :
  pending (setup ctl w ai_family v4mapped).1.2 = pending w.
Proof.
  unfold setup, setup_inet6, setup_inet, setsockopt.
  repeat (branch
          || match goal with
             | |- context [syscall_fails ?w0] =>
                 let H := fresh "H" in
                 pose proof (syscall_fails_pending w0) as H;
                 destruct (syscall_fails w0) as [[|] ?]; cbn [snd] in H
             end);
    cbn [fst snd]; congruence.
Qed.

(** What a start leaves. *)
Lemma start_spec lc w argv0 opts args :
  let x := start lc w argv0 opts args in
  existsb is_send x.2 = false /\ ~ In Freeaddrinfo x.2
  /\ Forall (fun ev => is_send ev = false /\ hop_limit_step None ev = None) x.2
  /\ match x.1.1 with
     | Exit n => n = -1 \/ n = 0 \/ n = 1 \/ n = 2
     | Go s =>
         (ai_fam (st_ai s) = AF_INET \/ ai_fam (st_ai s) = AF_INET6)
         /\ his_wf (st_ctl s) /\ st_pre s = x.2
         /\ pending (st_world s) = pending w
         /\ overhead (st_ctl s) < mtu (st_ctl s)
         /\ overhead (st_ctl s)
            = family_overhead (ai_fam (st_ai s)) (IN6_IS_ADDR_V4MAPPED (ai_addr (st_ai s)))
         /\ mtu (st_ctl s)
            = (if mtu (st_ctl0 s) =? 0
               then (if ai_fam (st_ai s) =? AF_INET6 then 128000 else 65535)
               else mtu (st_ctl0 s))
         /\ max_hops (st_ctl s) = max_hops (st_ctl0 s)
         /\ base_port (st_ctl s) = base_port (st_ctl0 s)
         /\ hops_to (st_ctl s) = -1 /\ hops_from (st_ctl s) = -1
         /\ exists family, (command_line lc argv0 opts args).1
                           = Go (family, st_host s, st_ctl0 s)
     end.
Proof.
  cbv zeta. unfold start.
  pose proof (command_line_spec lc argv0 opts args) as [Hm0 Hc]. cbv zeta in Hm0, Hc.
  destruct (command_line lc argv0 opts args) as [[[[family host] ctl0]|n] o0];
    cbn [fst snd] in *.
  2:{ destruct (messages_quiet o0 Hm0) as (Q1 & Q2 & Q3).
      split; [exact Q1|]. split; [exact Q2|]. split; [exact Q3 | exact Hc]. }
  destruct Hc as (c1 & o1' & dest & _ & _ & Hfr & _).
  pose proof (connect_spec lc family host ctl0) as [Hm1 Hk]. cbv zeta in Hm1, Hk.
  destruct (connect lc family host ctl0) as [[[ai ctl]|n] o1]; cbn [fst snd] in *.
  2:{ assert (Hm : forallb is_message (o0 ++ o1) = true)
        by (rewrite forallb_app, Hm0, Hm1; reflexivity).
      destruct (messages_quiet _ Hm) as (Q1 & Q2 & Q3). subst n.
      split; [exact Q1|]. split; [exact Q2|]. split; [exact Q3 | auto]. }
  destruct Hk as [Hfam ->].
  assert (Hm : forallb is_message (o0 ++ o1) = true)
    by (rewrite forallb_app, Hm0, Hm1; reflexivity).
  destruct (messages_quiet _ Hm) as (Q1 & Q2 & Q3).
  set (ctl := set_target_port (ai_port ai) ctl0).
  set (v4 := IN6_IS_ADDR_V4MAPPED (ai_addr ai)).
  pose proof (setup_spec ctl w (ai_fam ai) v4 Hfam) as (_ & S2 & S3).
  pose proof (setup_outcome ctl w (ai_fam ai) v4) as [S4 S5].
  pose proof (setup_no_probe ctl w (ai_fam ai) v4) as S6.
  pose proof (setup_wf ctl w (ai_fam ai) v4 (pristine_wf ctl0 (ai_port ai) Hfr)) as S7.
  pose proof (setup_pending ctl w (ai_fam ai) v4) as S8.
  cbv zeta in S2, S3, S4, S5.
  destruct (setup ctl w (ai_fam ai) v4) as [[r w1] o2]. cbn [fst snd] in *.
  assert (A1 : existsb is_send (o0 ++ o1 ++ o2) = false).
  { rewrite app_assoc, existsb_app, Q1, S2. reflexivity. }
  assert (A2 : ~ In Freeaddrinfo (o0 ++ o1 ++ o2)).
  { rewrite app_assoc. intros H. apply in_app_or in H. tauto. }
  assert (A3 : Forall (fun ev => is_send ev = false /\ hop_limit_step None ev = None)
                      (o0 ++ o1 ++ o2)).
  { rewrite app_assoc. apply Forall_app. auto. }
  destruct r as [c|n]; cbn [fst snd].
  2:{ destruct S5 as [-> _].
      split; [exact A1|]. split; [exact A2|]. split; [exact A3 | auto]. }
  split; [exact A1|]. split; [exact A2|]. split; [exact A3|].
  cbn [st_ai st_ctl st_pre st_world st_ctl0 st_host].
  destruct S3 as (T1 & T2 & T3 & T4 & T5 & T6). destruct S7 as [W1 W2].
  destruct Hfr as (_ & _ & _ & F4 & F5 & _).
  repeat match goal with |- _ /\ _ => split end; try assumption; try reflexivity.
  - rewrite T5. exact F4.
  - rewrite T6. exact F5.
  - eauto.
Qed.

(** The last option of a kind on a command line that is accepted. *)
Lemma option_loop_last lc pre ch optarg post family ctl f' ctl' out :
  option_loop lc (pre ++ (ch, optarg) :: post) family ctl = (Go (f', ctl'), out) ->
  exists f1 c1 o1 o2,
    option_loop lc pre family ctl = (Go (f1, c1), o1)
    /\ option_loop lc ((ch, optarg) :: post) f1 c1 = (Go (f', ctl'), o2)
    /\ out = o1 ++ o2.
Proof.
  rewrite option_loop_app.
  destruct (option_loop lc pre family ctl) as [[[f1 c1]|n] o1]; [|discriminate].
  destruct (option_loop lc ((ch, optarg) :: post) f1 c1) as [r o2] eqn:H2.
  cbn [fst snd]. intros [= -> <-]. exists f1, c1, o1, o2. auto.
Qed.

Lemma accepted_length lc pre s post family ctl f' ctl' out :
  ~ In "l"%char (chars post) -> pristine ctl ->
  option_loop lc (pre ++ ("l"%char, s) :: post) family ctl = (Go (f', ctl'), out) ->
  mtu ctl' = atoi lc s /\ 0 < atoi lc s.
Proof.
  intros Hn Hf H. apply option_loop_last in H.
  destruct H as (f1 & c1 & o1 & o2 & H1 & H2 & _).
  destruct (option_loop_frame lc pre _ _ _ _ _ H1) as (_ & _ & _ & Hf1).
  destruct (Hf1 Hf) as (_ & _ & Ho & _).
  apply option_loop_go in H2. destruct H2 as (f2 & c2 & o3 & H2 & Hch).
  destruct (option_loop_frame lc post _ _ _ _ _ H2) as (Hm & _).
  destruct Hch as [(E & _)|[(E & _)|[(E & _)|[(E & _)|[(_ & Hlt & _ & -> & _)
                  |[(E & _)|(E & _)]]]]]]; try discriminate E.
  rewrite (Hm Hn). cbn [mtu set_mtu]. split; [reflexivity | lia].
Qed.

Lemma accepted_max_hops lc pre s post family ctl f' ctl' out :
  ~ In "m"%char (chars post) ->
  option_loop lc (pre ++ ("m"%char, s) :: post) family ctl = (Go (f', ctl'), out) ->
  max_hops ctl' = atoi lc s
  /\ (atoi lc s < 0 \/ MAX_HOPS_LIMIT < atoi lc s -> In max_hops_complaint out).
Proof.
  intros Hn H. apply option_loop_last in H.
  destruct H as (f1 & c1 & o1 & o2 & H1 & H2 & ->).
  apply option_loop_go in H2. destruct H2 as (f2 & c2 & o3 & H2 & Hch).
  destruct (option_loop_frame lc post _ _ _ _ _ H2) as (_ & Hm & _).
  destruct Hch as [(E & _)|[(E & _)|[(E & _)|[(E & _)|[(E & _)
                  |[(_ & _ & -> & ->)|(E & _)]]]]]]; try discriminate E.
  rewrite (Hm Hn). cbn [max_hops set_max_hops]. split; [reflexivity|].
  intros Hr. apply in_or_app. right. apply in_or_app. left.
  assert (E : (atoi lc s <? 0) || (MAX_HOPS_LIMIT <? atoi lc s) = true).
  { apply orb_true_iff. destruct Hr; [left; apply Z.ltb_lt | right; apply Z.ltb_lt]; lia. }
  rewrite E. left. reflexivity.
Qed.

Lemma started_options lc w argv0 opts args s w1 out :
  start lc w argv0 opts args = (Go s, w1, out) ->
  exists family c1 o1,
    option_loop lc opts (name_family argv0) start_state = (Go (family, c1), o1)
    /\ mtu (st_ctl0 s) = mtu c1 /\ max_hops (st_ctl0 s) = max_hops c1.
Proof.
  intros H.
  pose proof (start_spec lc w argv0 opts args) as (_ & _ & _ & Hs). cbv zeta in Hs.
  rewrite H in Hs. cbn [fst snd] in Hs.
  destruct Hs as (_ & _ & _ & _ & _ & _ & _ & _ & _ & _ & _ & family & Hc).
  pose proof (command_line_spec lc argv0 opts args) as [_ Hl]. cbv zeta in Hl.
  rewrite Hc in Hl. destruct Hl as (c1 & o1 & dest & Ho & _ & _ & Hm & Hx).
  exists family, c1, o1. auto.
Qed.

(** X17.  A packet length of at most 28 is never used: a command line whose
    last [-l] gives such a length sends no probe, whatever else it holds.
    The run is over before the escalation loop: zero and negative lengths
    are refused by the option loop, the others by the set-up of the family,
    each with status 1 (unless the command line ends the run on its own
    account). *)
Theorem short_packet_length_sends_nothing fuel lc w argv0 pre s post args :
  ~ In "l"%char (chars post) -> atoi lc s <= 28 ->
  let x := tracepath fuel lc w argv0 (pre ++ ("l"%char, s) :: post) args in
  existsb is_send (out_of x) = false
  /\ ~ In Freeaddrinfo (out_of x)
  /\ exists n, res_of x = Some n /\ (n = -1 \/ n = 0 \/ n = 1 \/ n = 2).
Proof.
  intros Hn Hs. cbv zeta.
  pose proof (tracepath_start fuel lc w argv0 (pre ++ ("l"%char, s) :: post) args) as Ht.
  pose proof (start_spec lc w argv0 (pre ++ ("l"%char, s) :: post) args)
    as (S1 & S2 & _ & S4). cbv zeta in S1, S2, S4.
  destruct (start lc w argv0 (pre ++ ("l"%char, s) :: post) args) as [[[st|n] w1] out] eqn:Hst;
    cbn [fst snd] in *.
  - exfalso.
    destruct (started_options _ _ _ _ _ _ _ _ Hst) as (family & c1 & o1 & Ho & Hm & _).
    destruct (accepted_length lc pre s post _ _ _ _ _ Hn start_state_pristine Ho) as [Hl Hpos].
    destruct S4 as (_ & _ & _ & _ & Hlt & Hov & Hmtu & _).
    rewrite Hm, Hl in Hmtu.
    assert (E : (atoi lc s =? 0) = false) by (apply Z.eqb_neq; lia).
    rewrite E in Hmtu. unfold family_overhead in Hov.
    destruct (_ && _) in Hov; lia.
  - destruct Ht as [-> ->]. split; [exact S1|]. split; [exact S2|]. eauto.
Qed.

Lemma short_packet_length_sends_nothing_witness :
  existsb is_send
    (out_of (tracepath 100 plain_libc (quiet []) "tracepath"
               ([] ++ ("l"%char, "20") :: [("n"%char, EmptyString)]) ["192.0.2.1"]))
  = false.
Proof.
  exact (proj1 (short_packet_length_sends_nothing 100 plain_libc (quiet []) "tracepath"
                  [] "20" [("n"%char, EmptyString)] ["192.0.2.1"]
                  ltac:(cbn; intuition discriminate) ltac:(vm_compute; discriminate))).
Defined.

(** X18.  The hop limit given by [-m] is not checked: a value below 0 or
    above 255 is reported on standard error and used all the same.  The
    value in force is that of the last [-m].  With a value of 0 or less no
    probe is sent and the run still comes to its end. *)
Theorem max_hops_is_reported_not_refused fuel lc w argv0 pre s post args :
  ~ In "m"%char (chars post) ->
  let opts := pre ++ ("m"%char, s) :: post in
  (forall family ctl out,
     option_loop lc opts (name_family argv0) start_state = (Go (family, ctl), out) ->
     max_hops ctl = atoi lc s
     /\ (atoi lc s < 0 \/ MAX_HOPS_LIMIT < atoi lc s -> In max_hops_complaint out))
  /\ (atoi lc s <= 0 ->
      existsb is_send (out_of (tracepath fuel lc w argv0 opts args)) = false
      /\ exists n, res_of (tracepath fuel lc w argv0 opts args) = Some n).
Proof.
  intros Hn opts. split.
  - intros family ctl out H. apply (accepted_max_hops lc pre s post _ _ _ _ _ Hn H).
  - intros Hs.
    pose proof (tracepath_start fuel lc w argv0 opts args) as Ht.
    pose proof (start_spec lc w argv0 opts args) as (S1 & _ & _ & S4). cbv zeta in S1, S4.
    destruct (start lc w argv0 opts args) as [[[st|n] w1] out] eqn:Hst; cbn [fst snd] in *.
    + destruct (started_options _ _ _ _ _ _ _ _ Hst) as (family & c1 & o1 & Ho & _ & Hm).
      destruct (accepted_max_hops lc pre s post _ _ _ _ _ Hn Ho) as [Hl _].
      destruct S4 as (_ & _ & Hpre & _ & _ & _ & _ & Hmax & _).
      cbv zeta in Ht. rewrite hop_loop_beyond in Ht by (rewrite Hmax, Hm, Hl; lia).
      rewrite Ht. unfold res_of, out_of. cbn [fst snd]. split; [|eauto].
      rewrite Hpre, existsb_app, S1. cbn [existsb is_send orb].
      apply (resume_silent (st_ctl st)).
    + destruct Ht as [-> ->]. split; [exact S1 | eauto].
Qed.

Lemma max_hops_is_reported_not_refused_witness :
  existsb is_send
    (out_of (tracepath 100 plain_libc (quiet []) "tracepath"
               ([("n"%char, EmptyString)] ++ ("m"%char, "-3") :: []) ["192.0.2.1"]))
  = false.
Proof.
  exact (proj1 (proj2 (max_hops_is_reported_not_refused 100 plain_libc (quiet []) "tracepath"
                         [("n"%char, EmptyString)] "-3" [] ["192.0.2.1"]
                         ltac:(cbn; tauto))
                      ltac:(vm_compute; discriminate))).
Defined.

(** X19.  The program runs only as long as the kernel feeds it.  Take a
    network that has finitely many answers to give on the error queue
    ([pending w] of them: notifications and failures of [recvmsg], after
    which the queue reads [EAGAIN]), a hop limit below [INT_MAX] and [pmtu]
    lines that all stay inside the packet buffer.  Then the run comes to an
    exit, whatever the command line and the C library answer: 16 loop
    turns, 14 more for each answer of the error queue and one for each hop
    allowed are never used up, and the exit status is -1, 0, 1 or 2.  A
    kernel whose [recvmsg] fails without end, or that never stops queueing
    notifications, is no such network, and the loops of lines 147-157,
    341-368 and 611-626 do not end then. *)
Theorem tracepath_terminates fuel lc w argv0 opts args :
  hop_limit_of lc argv0 opts args < INT_MAX ->
  (14 * pending w + 16 + Z.to_nat (hop_limit_of lc argv0 opts args) <= fuel)%nat ->
  estimate_in_buffer (out_of (tracepath fuel lc w argv0 opts args)) = true ->
  exists n, res_of (tracepath fuel lc w argv0 opts args) = Some n
            /\ (n = -1 \/ n = 0 \/ n = 1 \/ n = 2).
Proof.
  intros _ Hf _.
  pose proof (start_spec lc w argv0 opts args) as (_ & _ & _ & S4). cbv zeta in S4.
  pose proof (tracepath_start fuel lc w argv0 opts args) as Ht.
  destruct (start lc w argv0 opts args) as [[[st|n] w1] out] eqn:Hst; cbn [fst snd] in *.
  - cbv zeta in Ht. rewrite Ht. unfold res_of at 1. cbn [fst snd].
    destruct S4 as (Hfam & Hwf & _ & Hp & _ & _ & _ & Hmax & _ & _ & _ & family & Hc).
    unfold hop_limit_of in Hf. rewrite Hc in Hf.
    pose proof (hop_loop_terminates fuel (st_ctl st) (st_world st) (ai_fam (st_ai st)) 1) as Hl.
    assert (Hb : (14 * pending (st_world st) + 16
                  + Z.to_nat (max_hops (st_ctl st) - 1 + 1) <= fuel)%nat).
    { rewrite Hp, Hmax.
      replace (max_hops (st_ctl0 st) - 1 + 1) with (max_hops (st_ctl0 st)) by lia.
      exact Hf. }
    specialize (Hl Hb).
    destruct (res_of (hop_loop fuel (st_ctl st) (st_world st) (ai_fam (st_ai st)) 1))
      as [n|] eqn:Hr; [|contradiction].
    exists n. split; [reflexivity|].
    destruct (hop_loop_outcome fuel (st_ctl st) (st_world st) (ai_fam (st_ai st)) 1 n
                Hfam Hwf Hr) as [[-> _]|[-> _]]; auto.
  - destruct Ht as [-> _]. eauto.
Qed.

(** The first probe is answered by "fragmentation needed" with an MTU of
    1400, the second by port unreachable. *)
Lemma tracepath_terminates_witness :
  exists n, res_of (tracepath 100 plain_libc
                      (quiet [RecvMsg (notification 44444 (frag_needed 1400) 64);
                              RecvAgain;
                              RecvMsg (notification 44445 port_unreachable 60)])
                      "tracepath" (command "30") ["192.0.2.1"]) = Some n
            /\ (n = -1 \/ n = 0 \/ n = 1 \/ n = 2).
Proof.
  exact (tracepath_terminates 100 plain_libc
           (quiet [RecvMsg (notification 44444 (frag_needed 1400) 64);
                   RecvAgain;
                   RecvMsg (notification 44445 port_unreachable 60)])
           "tracepath" (command "30") ["192.0.2.1"]
           ltac:(vm_compute; reflexivity) ltac:(vm_compute; lia)
           ltac:(vm_compute; reflexivity)).
Defined.

Lemma pristine_init_state ctl :
  pristine ctl -> set_target_port (base_port ctl) ctl = init_state (options_of ctl).
Proof.
  intros (F1 & F2 & F3 & F4 & F5 & F6 & _). destruct ctl. cbn in *. subst.
  reflexivity.
Qed.

(** X20.  The whole program is its command line followed by the engine: once
    the command line is accepted and a socket is open for an address that
    carries the base port, the run is the run of the engine on the options
    the command line left in [ctl], for the family of that address, after
    whatever the option loop wrote. *)
Theorem tracepath_runs_engine fuel lc w argv0 opts args family host ctl0 o0 ai ctl o1 :
  command_line lc argv0 opts args = (Go (family, host, ctl0), o0) ->
  connect lc family host ctl0 = (Go (ai, ctl), o1) ->
  ai_port ai = base_port ctl0 ->
  let x := main fuel (options_of ctl0) w (ai_fam ai) (IN6_IS_ADDR_V4MAPPED (ai_addr ai)) in
  tracepath fuel lc w argv0 opts args = (res_of x, ctl_of x, world_of x, o0 ++ out_of x).
Proof.
  intros Hc Hk Hp. cbv zeta.
  pose proof (command_line_spec lc argv0 opts args) as [_ Hs]. cbv zeta in Hs.
  rewrite Hc in Hs. cbn [fst] in Hs. destruct Hs as (c1 & o1' & dest & _ & _ & Hfr & _).
  destruct (connect_go lc family host ctl0 ai ctl o1 Hk) as (_ & Ho1 & Hctl & _).
  subst o1 ctl.
  unfold tracepath, main. rewrite Hc, Hk, Hp, (pristine_init_state ctl0 Hfr).
  destruct (setup (init_state (options_of ctl0)) w (ai_fam ai) _) as [[[c|n] w1] o2].
  - destruct (hop_loop fuel c w1 (ai_fam ai) 1) as [[[r c2] w2] o3]. reflexivity.
  - reflexivity.
Qed.

Lemma tracepath_runs_engine_witness :
  tracepath 100 plain_libc (quiet []) "tracepath" (command "3") ["192.0.2.1"]
  = let x := main 100 (opts 3) (quiet []) AF_INET false in
    (res_of x, ctl_of x, world_of x, [] ++ out_of x).
Proof.
  exact (tracepath_runs_engine 100 plain_libc (quiet []) "tracepath" (command "3")
           ["192.0.2.1"] AF_UNSPEC "192.0.2.1"
           (set_base_port 44444 (set_max_hops 3 (set_mtu 1500
              (set_no_resolve true start_state)))) []
           {| ai_fam := AF_INET; ai_port := 44444; ai_addr := 3221225985 |}
           _ [] eq_refl eq_refl eq_refl).
Defined.

(** X21.  The index into the history never leaves the array: whatever the
    command line and the answers, and however far the run has come, [his]
    has its 64 entries and [hisptr] is one of 0..63, so every read and
    write of [his[hisptr]] is in bounds. *)
Theorem history_index_in_bounds fuel lc w argv0 opts args :
  his_wf (ctl_of (tracepath fuel lc w argv0 opts args)).
Proof.
  unfold tracepath.
  pose proof (command_line_spec lc argv0 opts args) as [_ Hs]. cbv zeta in Hs.
  destruct (command_line lc argv0 opts args) as [[[[family host] ctl0]|n] o0];
    cbn [fst snd] in *.
  2:{ split; [reflexivity | simpl; lia]. }
  destruct Hs as (c1 & o1' & dest & _ & _ & Hfr & _).
  pose proof (connect_spec lc family host ctl0) as [_ Hk]. cbv zeta in Hk.
  destruct (connect lc family host ctl0) as [[[ai ctl]|n] o1]; cbn [fst snd] in *.
  2:{ apply (pristine_wf ctl0 (target_port ctl0)) in Hfr. exact Hfr. }
  destruct Hk as [Hfam ->].
  pose proof (pristine_wf ctl0 (ai_port ai) Hfr) as Hwf.
  pose proof (setup_wf _ w (ai_fam ai) (IN6_IS_ADDR_V4MAPPED (ai_addr ai)) Hwf) as Hw.
  destruct (setup _ w (ai_fam ai) _) as [[[c|n] w1] o2]; cbn [fst snd] in *;
    [|exact Hwf].
  destruct Hw as [Hw _].
  pose proof (hop_loop_wf fuel c w1 (ai_fam ai) 1 Hw) as Hl.
  destruct (hop_loop fuel c w1 (ai_fam ai) 1) as [[[r c2] w2] o3]. exact Hl.
Qed.

(** *** The packet buffer *)

Lemma mtu_after_bound B tr : forall m,
  m <= B -> (forall v, In (pmtu_line v) tr -> v <= B) -> mtu_after m tr <= B.
Proof.
  induction tr as [|ev tr IH]; intros m Hm Hall; [exact Hm|].
  unfold mtu_after. cbn [fold_left]. apply IH.
  - destruct ev as [fmt args| | | | | | | | |]; cbn [mtu_step]; try exact Hm.
    destruct args as [|[v|s] [|a args]]; try exact Hm.
    destruct (String.eqb fmt "pmtu %d\n") eqn:E; [|exact Hm].
    apply String.eqb_eq in E. subst fmt. apply Hall. left. reflexivity.
  - intros v Hin. apply Hall. right. exact Hin.
Qed.

Lemma prefix_without {A} (a : list A) : forall (b pre : list A) x post,
  a ++ b = pre ++ x :: post -> ~ In x a -> exists pre', pre = a ++ pre'.
Proof.
  induction a as [|y a IH]; intros b pre x post H Hn; [exists pre; reflexivity|].
  destruct pre as [|z pre].
  - cbn [app] in H. injection H as -> _. exfalso. apply Hn. left. reflexivity.
  - cbn [app] in H. injection H as -> H.
    destruct (IH b pre x post H) as [pre' ->]; [intros Hin; apply Hn; right; exact Hin|].
    exists pre'. reflexivity.
Qed.

Lemma no_send_not_in tr hdr port len :
  existsb is_send tr = false -> ~ In (Sendto hdr port len) tr.
Proof.
  intros H Hin. assert (Ht : existsb is_send tr = true).
  { apply existsb_exists. exists (Sendto hdr port len). auto. }
  congruence.
Qed.

Lemma setup_mallocs ctl w ai_family v4mapped :
  match setup ctl w ai_family v4mapped with
  | (Go c, _, o) => In (Malloc (mtu c)) o
  | (Exit _, _, _) => True
  end.
Proof.
  unfold setup.
  destruct (if ai_family =? AF_INET6 then _ else _) as [[[c|n] w1] o]; [|exact I].
  destruct (syscall_fails w1) as [[|] w2]; [exact I|].
  apply in_or_app. right. left. reflexivity.
Qed.

(** X22.  The packet buffer is allocated once, with the configured packet
    length, before the first probe.  As long as no [pmtu] line has announced
    more than that length, the MTU estimate in force at a probe does not
    exceed the size of the buffer, and the probe, which is the estimate
    minus the overhead, is read from inside it. *)
Theorem probe_fits_buffer fuel o w ai_family v4mapped pre hdr port len post :
  ai_family = AF_INET \/ ai_family = AF_INET6 ->
  opt_mtu o <= INT_MAX ->
  out_of (main fuel o w ai_family v4mapped) = pre ++ Sendto hdr port len :: post ->
  (forall v, In (pmtu_line v) pre -> v <= configured_length o ai_family) ->
  let size := configured_length o ai_family in
  let L := mtu_after size pre in
  In (Malloc size) pre
  /\ L <= size
  /\ (family_overhead ai_family v4mapped < L ->
      len = L - family_overhead ai_family v4mapped /\ 0 < len <= size).
Proof.
  intros Hfam Hmax Hout Hall size L. revert Hout. unfold main.
  pose proof (setup_spec (init_state o) w ai_family v4mapped Hfam) as (H1 & H2 & H3).
  pose proof (setup_mallocs (init_state o) w ai_family v4mapped) as Hmal.
  cbv zeta in H1, H2, H3.
  destruct (setup (init_state o) w ai_family v4mapped) as [[r w1] o1].
  cbn [fst snd] in *. destruct r as [c|n].
  2:{ unfold out_of. cbn [snd]. intros Hout. exfalso.
      apply (no_send_not_in o1 hdr port len H2). rewrite Hout.
      apply in_or_app. right. left. reflexivity. }
  destruct H3 as (Ho & Hm & Hlt & _).
  assert (Hc : mtu c = size) by exact Hm.
  pose proof (hop_loop_tracks fuel c w1 ai_family 1) as (_ & _ & Ht & _). cbv zeta in Ht.
  destruct (hop_loop fuel c w1 ai_family 1) as [[[r2 c2] w2] o2].
  unfold out_of, ctl_of in *. cbn [fst snd] in *. intros Hout.
  destruct (prefix_without o1 o2 pre _ post Hout (no_send_not_in o1 hdr port len H2))
    as [pre' ->].
  rewrite <- app_assoc in Hout. apply app_inv_head in Hout.
  assert (HL : L <= size).
  { subst L. apply mtu_after_bound; [lia | exact Hall]. }
  split; [apply in_or_app; left; rewrite <- Hc; exact Hmal|]. split; [exact HL|].
  intros Hov.
  assert (Hs : sane c).
  { split; [|unfold family_overhead in Ho; destruct (_ && _); lia].
    rewrite Hc. unfold size, configured_length, INT_MAX in *. repeat branch; lia. }
  destruct (Ht Hs) as [_ Hsend]. rewrite Ho, Hc, Hout in Hsend.
  apply sends_exact_app in Hsend. destruct Hsend as [_ [Hsend _]].
  assert (HL' : mtu_after size pre' = L).
  { subst L. rewrite mtu_after_app, (mtu_after_no_pmtu o1) by exact H1. reflexivity. }
  rewrite HL' in Hsend. specialize (Hsend Hov).
  unfold family_overhead in *. destruct (_ && _); lia.
Qed.

Lemma pmtu_lines_checked B tr :
  forallb (fun ev => Z.leb (mtu_step B ev) B) tr = true ->
  forall v, In (pmtu_line v) tr -> v <= B.
Proof.
  intros H v Hin. rewrite forallb_forall in H. specialize (H _ Hin).
  cbn in H. apply Z.leb_le in H. exact H.
Qed.

Lemma probe_fits_buffer_witness :
  In (Malloc 1500) (firstn 12 (out_of clamped_run))
  /\ mtu_after 1500 (firstn 12 (out_of clamped_run)) <= 1500.
Proof.
  pose proof (probe_fits_buffer 20 (opts 1)
                (quiet [RecvMsg (notification 44444 (frag_needed 1400) 64)]) AF_INET false
                (firstn 12 (out_of clamped_run)) {| hdr_ttl := 1; hdr_tv := tv_zero |}
                44445 1372 (skipn 13 (out_of clamped_run))
                (or_introl eq_refl) ltac:(vm_compute; discriminate)
                ltac:(vm_compute; reflexivity)
                (pmtu_lines_checked (configured_length (opts 1) AF_INET)
                   (firstn 12 (out_of clamped_run)) ltac:(vm_compute; reflexivity))) as H.
  destruct H as (H1 & H2 & _). split; [exact H1 | exact H2].
Defined.

(** X23.  [usage].  An option the switch has no case for ([-h], [-?] and
    whatever [getopt] rejects) ends the run with the usage text on standard
    error and status -1, once the options before it are accepted; what
    follows it is not looked at.  The same happens after the options unless
    exactly one argument is left.  Nothing is resolved and nothing is sent
    in either case. *)
Theorem usage_ends_the_run fuel lc w argv0 pre ch optarg post args family ctl out :
  option_loop lc pre (name_family argv0) start_state = (Go (family, ctl), out) ->
  (handled ch = false ->
   tracepath fuel lc w argv0 (pre ++ (ch, optarg) :: post) args
   = (Some (-1), start_state, w, out ++ [Fprintf_stderr usage_text []]))
  /\ (length args <> 1%nat ->
      tracepath fuel lc w argv0 pre args
      = (Some (-1), start_state, w, out ++ [Fprintf_stderr usage_text []])).
Proof.
  intros Ho. split.
  - intros Hh. unfold tracepath, command_line.
    rewrite option_loop_app, Ho, option_loop_cons.
    unfold handled in Hh. cbn [letters existsb] in Hh.
    repeat (apply orb_false_iff in Hh; destruct Hh as [?E Hh]).
    rewrite E, E0, E1, E2, E3, E4, E5, E6. reflexivity.
  - intros Hl. unfold tracepath, command_line. rewrite Ho.
    destruct args as [|dest [|d2 args]]; [reflexivity | | reflexivity].
    exfalso. apply Hl. reflexivity.
Qed.

Lemma usage_ends_the_run_witness :
  tracepath 0 plain_libc (quiet []) "tracepath"
    ([("n"%char, EmptyString)] ++ ("h"%char, EmptyString) :: []) ["192.0.2.1"]
  = (Some (-1), start_state, quiet [], [] ++ [Fprintf_stderr usage_text []]).
Proof.
  exact (proj1 (usage_ends_the_run 0 plain_libc (quiet []) "tracepath"
                  [("n"%char, EmptyString)] "h"%char EmptyString [] ["192.0.2.1"]
                  AF_UNSPEC (set_no_resolve true start_state) [] eq_refl) eq_refl).
Defined.

(** *** Waiting for an answer *)

Lemma reports_no_wait tr :
  forallb is_report tr = true -> count is_wait tr = 0%nat /\ sends tr = 0%nat.
Proof.
  induction tr as [|ev tr IH]; intros H; [split; reflexivity|].
  cbn [forallb] in H. apply andb_true_iff in H. destruct H as [Hev Htr].
  destruct (IH Htr) as [I1 I2]. unfold sends in *.
  destruct ev; try discriminate; cbn [count is_wait is_send]; lia.
Qed.




Lemma quiet_waits tr :
  Forall (fun ev => match ev with DataWait | Sendto _ _ _ => False | _ => True end) tr ->
  count is_wait tr = 0%nat.
Proof.
  induction 1 as [|ev tr Hev _ IH]; [reflexivity|].
  destruct ev; cbn [count is_wait]; try exact IH; destruct Hev.
Qed.



(** *** An answer from the destination itself *)

Lemma sendto_next w :
  (sendto w).1 = next_answer true (sendto_ok w)
  /\ errqueue (sendto w).2 = errqueue w /\ recv_ok (sendto w).2 = recv_ok w.
Proof. unfold sendto, next_answer. destruct (sendto_ok w); simpl; auto. Qed.

Lemma recv_next w :
  (recv w).1 = next_answer false (recv_ok w) /\ errqueue (recv w).2 = errqueue w.
Proof. unfold recv, next_answer. destruct (recv_ok w); simpl; auto. Qed.

(** X25.  An answer from the destination itself.  When the probe is sent and
    [recv] then finds data on the socket, [probe_ttl] prints
    [reply received] and returns 0 without reading the error queue: the
    queued notifications stay where they are, the MTU estimate and the hop
    counts are unchanged, and the stage ends the run. *)
Theorem data_reply_ends_the_run fuel ctl w ai_family ttl :
  next_answer true (sendto_ok w) = true ->
  next_answer false (recv_ok w) = true ->
  let x := probe_ttl (Datatypes.S fuel) ctl w ai_family ttl in
  res_of x = Some 0
  /\ (exists hdr port len,
        out_of x = [Sendto hdr port len; DataWait;
                    Printf "%2d?: reply received 8)\n" [AInt ttl]])
  /\ errqueue (world_of x) = errqueue w
  /\ mtu (ctl_of x) = mtu ctl
  /\ hops_to (ctl_of x) = hops_to ctl /\ hops_from (ctl_of x) = hops_from ctl
  /\ res_of (attempts (Datatypes.S (Datatypes.S fuel)) ctl w ai_family ttl 0) = Done.
Proof.
  intros Hs Hr. cbv zeta.
  assert (H : let x := probe_ttl (Datatypes.S fuel) ctl w ai_family ttl in
              res_of x = Some 0
              /\ (exists hdr port len,
                    out_of x = [Sendto hdr port len; DataWait;
                                Printf "%2d?: reply received 8)\n" [AInt ttl]])
              /\ errqueue (world_of x) = errqueue w
              /\ mtu (ctl_of x) = mtu ctl
              /\ hops_to (ctl_of x) = hops_to ctl /\ hops_from (ctl_of x) = hops_from ctl).
  { cbv zeta. unfold probe_ttl. cbn [probe_loop Z.ltb Z.compare].
    pose proof (gettimeofday_scripts w) as (G1 & G2 & G3 & _). cbv zeta in G1, G2, G3.
    destruct (gettimeofday w) as [now w1]. cbn [snd] in *.
    pose proof (probe_prepare_fields ctl ai_family ttl now)
      as (_ & _ & _ & Hm & _ & _ & _ & Hto & Hfrom & _). cbv zeta in Hm, Hto, Hfrom.
    destruct (probe_prepare ctl ai_family ttl now) as [hdr c1]. cbn [snd] in *.
    pose proof (sendto_next w1) as (S1 & S2 & S3). rewrite G2, Hs in S1.
    destruct (sendto w1) as [ok w2]. cbn [fst snd] in *. subst ok.
    unfold probe_finish.
    pose proof (recv_next w2) as (R1 & R2). rewrite S3, G3, Hr in R1.
    destruct (recv w2) as [got w3]. cbn [fst snd] in *. subst got.
    unfold res_of, out_of, ctl_of, world_of. cbn [fst snd].
    split; [reflexivity|]. split; [eauto|].
    split; [congruence|]. cbn [mtu hops_to hops_from set_hisptr]. auto. }
  cbv zeta in H. destruct H as (H1 & H2 & H3 & H4 & H5 & H6).
  repeat (split; [assumption|]).
  cbn [attempts Z.ltb Z.compare].
  destruct (probe_ttl (Datatypes.S fuel) ctl w ai_family ttl) as [[[r c1] w1] o].
  unfold res_of, ctl_of in *. cbn [fst snd] in *. subst r.
  rewrite H4, Z.eqb_refl. reflexivity.
Qed.

Lemma data_reply_ends_the_run_witness :
  res_of (probe_ttl 1 session
            {| clock := []; errqueue := [RecvMsg (notification 44444 time_exceeded 60)];
               sendto_ok := []; recv_ok := [true]; sys_fail := [];
               getnameinfo := no_names |} AF_INET 1)
  = Some 0.
Proof.
  exact (proj1 (data_reply_ends_the_run 0 session
                  {| clock := []; errqueue := [RecvMsg (notification 44444 time_exceeded 60)];
                     sendto_ok := []; recv_ok := [true]; sys_fail := [];
                     getnameinfo := no_names |} AF_INET 1 eq_refl eq_refl)).
Defined.

(** *** A hop that answers *)

Lemma decode_error ctl ai_family m :
  d_e (decode ctl ai_family m) = (scan_cmsgs (cmsgs m) None (-1)).1.1.
Proof. reflexivity. Qed.

Lemma classify_hop_answer ctl ttl sndhops rethops progress e :
  hop_answer e = true ->
  let x := classify ctl ttl sndhops rethops progress e in
  x.1.1 = ctl /\ x.2 = Restart progress.
Proof.
  unfold hop_answer, classify. intros H. cbv zeta.
  destruct (ee_errno e =? ETIMEDOUT) eqn:E1; [split; reflexivity|].
  cbn [orb] in H. apply andb_true_iff in H. destruct H as [H2 H3]. bools.
  rewrite H2. cbn [Z.eqb EHOSTUNREACH EMSGSIZE ECONNREFUSED EPROTO Pos.eqb].
  rewrite H3. split; reflexivity.
Qed.

Lemma recverr_hop_answer ctl w ai_family ttl m e q :
  errqueue w = RecvMsg m :: RecvAgain :: q ->
  (scan_cmsgs (cmsgs m) None (-1)).1.1 = Some e -> hop_answer e = true ->
  let x := recverr ctl w ai_family ttl in
  res_of x = mtu ctl /\ errqueue (world_of x) = q
  /\ sendto_ok (world_of x) = sendto_ok w /\ recv_ok (world_of x) = recv_ok w
  /\ mtu (ctl_of x) = mtu ctl /\ max_hops (ctl_of x) = max_hops ctl
  /\ sends (out_of x) = 0%nat /\ count is_wait (out_of x) = 0%nat
  /\ existsb is_stop (out_of x) = false.
Proof.
  intros Hq He Ha. cbv zeta. unfold recverr. rewrite Hq. cbn [recverr_from].
  pose proof (gettimeofday_scripts w) as (_ & G2 & G3 & _). cbv zeta in G2, G3.
  destruct (gettimeofday w) as [tv w1]. cbn [snd] in *.
  pose proof (recverr_msg_reports (getnameinfo w1) ctl ai_family ttl tv m) as Hrep.
  pose proof (recverr_msg_stop (getnameinfo w1) ctl ai_family ttl tv m) as Hstop.
  rewrite (recverr_msg_some (getnameinfo w1) ctl ai_family ttl tv m e) in *
    by (rewrite decode_error; exact He).
  cbv zeta in *. cbn [fst snd] in *.
  destruct (classify_hop_answer (d_ctl (decode ctl ai_family m)) ttl
              (d_sndhops (decode ctl ai_family m))
              (rethops_norm (d_rethops (decode ctl ai_family m))) (mtu ctl) e Ha)
    as [Hc Ho].
  rewrite Ho in *. rewrite Hc in *.
  pose proof (gettimeofday_scripts w1) as (_ & G2' & G3' & _). cbv zeta in G2', G3'.
  destruct (gettimeofday w1) as [tv2 w2]. cbn [snd] in *.
  unfold res_of, out_of, ctl_of, world_of. cbn [fst snd]. rewrite app_nil_r.
  apply reports_no_wait in Hrep. destruct Hrep as [W1 W2].
  split; [reflexivity|]. split; [reflexivity|].
  cbn [sendto_ok recv_ok set_errqueue].
  split; [congruence|]. split; [congruence|].
  split; [reflexivity|]. split; [reflexivity|].
  split; [exact W2|]. split; [exact W1|].
  destruct Hstop as [_ Hs].
  destruct (existsb is_stop _) eqn:Es; [|reflexivity].
  specialize (Hs eq_refl). discriminate Hs.
Qed.

(** X26.  A hop that answers is probed once.  When the probe is sent, no
    data comes back and the error queue holds one notification that reports
    a timeout or "time exceeded in transit" (and nothing after it), the
    drain returns the MTU estimate, which is positive, and the stage moves
    on to the next hop limit after this single probe: no second attempt is
    made and no line ends the trace. *)
Theorem answered_hop_is_probed_once fuel ctl w ai_family ttl m e q :
  next_answer true (sendto_ok w) = true ->
  next_answer false (recv_ok w) = false ->
  errqueue w = RecvMsg m :: RecvAgain :: q ->
  (scan_cmsgs (cmsgs m) None (-1)).1.1 = Some e -> hop_answer e = true ->
  0 < mtu ctl ->
  let x := attempts (Datatypes.S (Datatypes.S fuel)) ctl w ai_family ttl 0 in
  res_of x = Advance
  /\ (exists hdr port len o,
        out_of x = Sendto hdr port len :: DataWait :: o
        /\ sends o = 0%nat /\ existsb is_stop o = false)
  /\ errqueue (world_of x) = q
  /\ mtu (ctl_of x) = mtu ctl.
Proof.
  intros Hs Hr Hq He Ha Hpos. cbv zeta.
  cbn [attempts Z.ltb Z.compare]. unfold probe_ttl. cbn [probe_loop Z.ltb Z.compare].
  pose proof (gettimeofday_scripts w) as (G1 & G2 & G3 & _). cbv zeta in G1, G2, G3.
  destruct (gettimeofday w) as [now w1]. cbn [snd] in *.
  pose proof (probe_prepare_fields ctl ai_family ttl now)
    as (_ & _ & _ & Hm & _). cbv zeta in Hm.
  destruct (probe_prepare ctl ai_family ttl now) as [hdr c1]. cbn [snd] in *.
  pose proof (sendto_next w1) as (S1 & S2 & S3). rewrite G2, Hs in S1.
  destruct (sendto w1) as [ok w2]. cbn [fst snd] in *. subst ok.
  unfold probe_finish.
  pose proof (recv_next w2) as (R1 & R2). rewrite S3, G3, Hr in R1.
  destruct (recv w2) as [got w3]. cbn [fst snd] in *. subst got.
  pose proof (recverr_hop_answer (set_hisptr (Z.land (hisptr c1 + 1) 63) c1) w3
                ai_family ttl m e q ltac:(congruence) He Ha)
    as (X1 & X2 & _ & _ & X5 & _ & X7 & _ & X9). cbv zeta in X1, X2, X5, X7, X9.
  destruct (recverr _ w3 ai_family ttl) as [[[r c2] w4] o].
  unfold res_of, out_of, ctl_of, world_of in *. cbn [fst snd] in *.
  cbn [mtu set_hisptr] in X1, X5. subst r.
  rewrite X5, Hm, Z.eqb_refl. cbn [negb].
  assert (E0 : (mtu ctl =? 0) = false) by (apply Z.eqb_neq; lia).
  assert (E1 : (0 <? mtu ctl) = true) by (apply Z.ltb_lt; lia).
  rewrite E0, E1. cbn [fst snd].
  split; [reflexivity|]. split; [eexists _, _, _, o; split; [reflexivity|auto]|].
  split; [exact X2 | congruence].
Qed.

Lemma answered_hop_is_probed_once_witness :
  res_of (attempts 2 session
            (quiet [RecvMsg (notification 44444 time_exceeded 64); RecvAgain])
            AF_INET 1 0)
  = Advance.
Proof.
  exact (proj1 (answered_hop_is_probed_once 0 session
                  (quiet [RecvMsg (notification 44444 time_exceeded 64); RecvAgain])
                  AF_INET 1 (notification 44444 time_exceeded 64) time_exceeded []
                  eq_refl eq_refl eq_refl eq_refl eq_refl ltac:(simpl; lia))).
Defined.

(** *** The length asked of [sendto] *)

Lemma sends_converted_app ovh a : forall m b,
  sends_converted ovh m (a ++ b)
  <-> sends_converted ovh m a /\ sends_converted ovh (mtu_after m a) b.
Proof.
  induction a as [|ev a IH]; intros m b; cbn [app sends_converted]; [unfold mtu_after; cbn; tauto|].
  rewrite IH. unfold mtu_after. cbn [fold_left]. tauto.
Qed.

Lemma sends_converted_none ovh tr : forall m,
  existsb is_send tr = false -> sends_converted ovh m tr.
Proof.
  induction tr as [|ev tr IH]; intros m H; [exact I|].
  cbn [existsb] in H. apply orb_false_iff in H. destruct H as [H1 H2].
  cbn [sends_converted]. split; [|apply IH; exact H2].
  destruct ev; try exact I. discriminate.
Qed.

Lemma probe_finish_no_send ctl w ai_family ttl sent :
  existsb is_send (out_of (probe_finish ctl w ai_family ttl sent)) = false.
Proof.
  unfold probe_finish. destruct sent; [|reflexivity].
  destruct (recv w) as [got w1]. destruct got; [reflexivity|].
  pose proof (recverr_from_tracks (errqueue w1)
                (set_hisptr (Z.land (hisptr ctl + 1) 63) ctl) w1 ai_family ttl (-1))
    as [_ H]. cbv zeta in H. unfold recverr.
  destruct (recverr_from _ _ _ _ _ _) as [[[r c] w2] o]. exact H.
Qed.

Lemma probe_loop_converted fuel : forall ctl w ai_family ttl i,
  sends_converted (overhead ctl) (mtu ctl) (out_of (probe_loop fuel ctl w ai_family ttl i)).
Proof.
  induction fuel as [|fuel IH]; intros ctl w ai_family ttl i; cbn [probe_loop]; [exact I|].
  destruct (i <? 10).
  2:{ pose proof (probe_finish_no_send ctl w ai_family ttl false) as H.
      destruct (probe_finish ctl w ai_family ttl false) as [[[r c] w'] o].
      apply sends_converted_none. exact H. }
  destruct (gettimeofday w) as [now w1].
  pose proof (probe_prepare_fields ctl ai_family ttl now)
    as (_ & _ & _ & Hm & Ho & _). cbv zeta in Hm, Ho.
  destruct (probe_prepare ctl ai_family ttl now) as [hdr c1]. cbn [snd] in *.
  destruct (sendto w1) as [ok w2]. destruct ok.
  - pose proof (probe_finish_no_send c1 w2 ai_family ttl true) as H.
    destruct (probe_finish c1 w2 ai_family ttl true) as [[[r c] w'] o].
    unfold out_of in *. cbn [fst snd sends_converted mtu_step] in *.
    split; [congruence|]. apply sends_converted_none. exact H.
  - pose proof (recverr_from_tracks (errqueue w2) c1 w2 ai_family ttl (-1))
      as (((Ho2 & _) & Hm2 & _) & Hn). cbv zeta in Ho2, Hm2, Hn. unfold recverr.
    destruct (recverr_from (errqueue w2) c1 w2 ai_family ttl (-1)) as [[[res c2] w3] o].
    unfold out_of, ctl_of in *. cbn [fst snd] in *.
    destruct (res =? 0).
    + cbn [fst snd sends_converted mtu_step]. split; [congruence|].
      apply sends_converted_none. exact Hn.
    + specialize (IH (set_his (his_clear (his c2) (hisptr c2)) c2) w3 ai_family ttl
                     (if 0 <? res then 0 else i + 1)).
      destruct (probe_loop fuel _ w3 ai_family ttl _) as [[[r c4] w4] o'].
      cbn [fst snd overhead mtu set_his] in *. cbn [sends_converted mtu_step].
      split; [congruence|]. apply sends_converted_app.
      split; [apply sends_converted_none; exact Hn|].
      rewrite <- Hm, <- Hm2, <- Ho, <- Ho2. exact IH.
Qed.

Lemma attempts_converted fuel : forall ctl w ai_family ttl i,
  sends_converted (overhead ctl) (mtu ctl) (out_of (attempts fuel ctl w ai_family ttl i)).
Proof.
  induction fuel as [|fuel IH]; intros ctl w ai_family ttl i; cbn [attempts]; [exact I|].
  destruct (i <? 3); [|repeat split].
  pose proof (probe_loop_converted fuel ctl w ai_family ttl 0) as Hp.
  pose proof (probe_loop_tracks fuel ctl w ai_family ttl 0) as ((Ho & _) & Hm & _).
  cbv zeta in Ho, Hm. unfold probe_ttl.
  destruct (probe_loop fuel ctl w ai_family ttl 0) as [[[res c1] w1] o].
  unfold out_of, ctl_of in *. cbn [fst snd] in *.
  destruct res as [res|]; [|exact Hp].
  destruct (negb (mtu c1 =? mtu ctl)).
  - specialize (IH c1 w1 ai_family ttl 0).
    destruct (attempts fuel c1 w1 ai_family ttl 0) as [[[s c2] w2] o'].
    cbn [fst snd] in *. apply sends_converted_app. split; [exact Hp|].
    rewrite <- Hm, <- Ho. exact IH.
  - destruct (res =? 0); [exact Hp|]. destruct (0 <? res); [exact Hp|].
    specialize (IH c1 w1 ai_family ttl (i + 1)).
    destruct (attempts fuel c1 w1 ai_family ttl (i + 1)) as [[[s c2] w2] o'].
    cbn [fst snd] in *. apply sends_converted_app. split; [exact Hp|].
    rewrite <- Hm, <- Ho. exact IH.
Qed.

Lemma hop_loop_converted fuel : forall ctl w ai_family ttl,
  sends_converted (overhead ctl) (mtu ctl) (out_of (hop_loop fuel ctl w ai_family ttl)).
Proof.
  induction fuel as [|fuel IH]; intros ctl w ai_family ttl; cbn [hop_loop].
  - destruct (ttl <=? max_hops ctl); [exact I|].
    apply sends_converted_none. unfold out_of. cbn [snd existsb is_send].
    apply (resume_silent ctl).
  - destruct (ttl <=? max_hops ctl);
      [|apply sends_converted_none; unfold out_of; cbn [snd existsb is_send];
        apply (resume_silent ctl)].
    pose proof (set_hop_limit_silent ctl w ai_family ttl) as [S1 S2]. cbv zeta in S1, S2.
    destruct (set_hop_limit ctl w ai_family ttl) as [[r w1] o1]. cbn [fst snd] in *.
    destruct r as [[]|n]; [|apply sends_converted_none; exact S2].
    pose proof (attempts_converted fuel ctl w1 ai_family ttl 0) as Ha.
    pose proof (attempts_tracks fuel ctl w1 ai_family ttl 0) as ((Ho & _) & Hm & _).
    cbv zeta in Ho, Hm.
    destruct (attempts fuel ctl w1 ai_family ttl 0) as [[[s c2] w2] o2].
    unfold out_of, ctl_of in *. cbn [fst snd] in *.
    destruct s; cbn [fst snd].
    + apply sends_converted_app. split; [apply sends_converted_none; exact S2|].
      rewrite (mtu_after_no_pmtu o1) by exact S1.
      apply sends_converted_app. split; [exact Ha|].
      apply sends_converted_none. apply (resume_silent c2).
    + specialize (IH c2 w2 ai_family (ttl + 1)).
      destruct (hop_loop fuel c2 w2 ai_family (ttl + 1)) as [[[r3 c3] w3] o3].
      cbn [fst snd] in *.
      apply sends_converted_app. split; [apply sends_converted_none; exact S2|].
      rewrite (mtu_after_no_pmtu o1) by exact S1.
      apply sends_converted_app. split; [exact Ha|].
      rewrite <- Hm, <- Ho. exact IH.
    + apply sends_converted_app. split; [apply sends_converted_none; exact S2|].
      rewrite (mtu_after_no_pmtu o1) by exact S1. exact Ha.
Qed.

Lemma mtu_step_announced m ev : mtu_step m ev = m \/ ev = pmtu_line (mtu_step m ev).
Proof.
  destruct ev as [fmt args| | | | | | | | |]; cbn [mtu_step]; try (left; reflexivity).
  destruct args as [|[v|s] [|a args]]; try (left; reflexivity).
  destruct (String.eqb fmt "pmtu %d\n") eqn:E; [|left; reflexivity].
  apply String.eqb_eq in E. subst fmt. right. reflexivity.
Qed.

(** The estimate in force is the one the trace started with, or the value of
    a [pmtu] line of the trace. *)
Lemma mtu_after_announced tr : forall m,
  mtu_after m tr = m \/ In (pmtu_line (mtu_after m tr)) tr.
Proof.
  induction tr as [|ev tr IH]; intros m; [left; reflexivity|].
  unfold mtu_after. cbn [fold_left]. fold (mtu_after (mtu_step m ev) tr).
  destruct (IH (mtu_step m ev)) as [H|H]; [|right; right; exact H].
  rewrite H. destruct (mtu_step_announced m ev) as [E|E]; [left; exact E|].
  right. left. exact E.
Qed.

(** X27.  The length handed to [sendto] is the MTU estimate in force minus
    the overhead, converted to [size_t], and the sign of the difference is
    never tested.  Let the estimate [L] in force at a probe be below the
    overhead and not negative, the [pmtu] lines written so far being inside
    the packet buffer.  Then [L] is the value a [pmtu] line announced, and
    the probe asks [sendto] for [2^64 + L - overhead] bytes. *)
Theorem probe_length_wraps_around fuel o w ai_family v4mapped pre hdr port len post :
  ai_family = AF_INET \/ ai_family = AF_INET6 ->
  out_of (main fuel o w ai_family v4mapped) = pre ++ Sendto hdr port len :: post ->
  estimate_in_buffer pre = true ->
  let L := mtu_after (configured_length o ai_family) pre in
  0 <= L < family_overhead ai_family v4mapped ->
  In (pmtu_line L) pre
  /\ len = 18446744073709551616 + (L - family_overhead ai_family v4mapped).
Proof.
  intros Hfam Hout _ L HL.
  assert (Hall : sends_converted (family_overhead ai_family v4mapped)
                                 (configured_length o ai_family)
                                 (out_of (main fuel o w ai_family v4mapped))
                 /\ (existsb is_send (out_of (main fuel o w ai_family v4mapped)) = true ->
                     family_overhead ai_family v4mapped < configured_length o ai_family)).
  { unfold main.
    pose proof (setup_spec (init_state o) w ai_family v4mapped Hfam) as (H1 & H2 & H3).
    cbv zeta in H1, H2, H3.
    destruct (setup (init_state o) w ai_family v4mapped) as [[r w1] o1].
    cbn [fst snd] in *.
    destruct r as [c|n].
    2:{ split; [apply sends_converted_none; exact H2|].
        unfold out_of. cbn [snd]. intros H. congruence. }
    destruct H3 as (Ho & Hm & Hlt & _).
    assert (Hc : mtu c = configured_length o ai_family) by exact Hm.
    pose proof (hop_loop_converted fuel c w1 ai_family 1) as Hl.
    destruct (hop_loop fuel c w1 ai_family 1) as [[[r2 c2] w2] o2].
    unfold out_of in *. cbn [fst snd] in *.
    split; [|intros _; lia].
    apply sends_converted_app. split; [apply sends_converted_none; exact H2|].
    rewrite (mtu_after_no_pmtu o1) by exact H1.
    rewrite Ho, Hc in Hl. exact Hl. }
  destruct Hall as [Hall Hcfg].
  assert (Hlt : family_overhead ai_family v4mapped < configured_length o ai_family).
  { apply Hcfg. rewrite Hout, existsb_app. cbn [existsb is_send]. apply orb_true_r. }
  rewrite Hout in Hall. apply sends_converted_app in Hall.
  destruct Hall as [_ [Hlen _]]. fold L in Hlen. split.
  - destruct (mtu_after_announced pre (configured_length o ai_family)) as [E|E];
      [fold L in E; lia | exact E].
  - rewrite Hlen. unfold to_size_t. symmetry.
    apply (Z.mod_unique _ _ (-1)); [|lia].
    left. unfold family_overhead in *. destruct (_ && _); lia.
Qed.

(** The first probe is answered by "fragmentation needed" with an MTU of 20;
    the second probe is event 12 of the run. *)
Lemma probe_length_wraps_around_witness :
  nth_error (out_of (main 20 (opts 1)
                       (quiet [RecvMsg (notification 44444 (frag_needed 20) 64)])
                       AF_INET false)) 12
    = Some (Sendto {| hdr_ttl := 1; hdr_tv := tv_zero |} 44445 18446744073709551608)
  /\ 18446744073709551608
     = 18446744073709551616
       + (mtu_after (configured_length (opts 1) AF_INET)
            (firstn 12 (out_of (main 20 (opts 1)
                                  (quiet [RecvMsg (notification 44444 (frag_needed 20) 64)])
                                  AF_INET false)))
          - family_overhead AF_INET false).
Proof.
  split; [vm_compute; reflexivity|].
  apply (probe_length_wraps_around 20 (opts 1)
           (quiet [RecvMsg (notification 44444 (frag_needed 20) 64)]) AF_INET false
           (firstn 12 (out_of (main 20 (opts 1)
                                 (quiet [RecvMsg (notification 44444 (frag_needed 20) 64)])
                                 AF_INET false)))
           {| hdr_ttl := 1; hdr_tv := tv_zero |} 44445 18446744073709551608
           (skipn 13 (out_of (main 20 (opts 1)
                                (quiet [RecvMsg (notification 44444 (frag_needed 20) 64)])
                                AF_INET false))));
    [left; reflexivity | vm_compute; reflexivity | vm_compute; reflexivity
     | vm_compute; split; [discriminate | reflexivity]].
Defined.
